(** * Maternal Health Tracking System: risk assessment, alerting and record model

    A shallow embedding of the canister's two handler files: the v1.0.0
    file, with provider verification, risk assessment, alert creation and
    serialization (module [V1]), and the v1.1.0 file [src/index.ts], with
    the profile lookup and the exact date conversion (module [V2]).

    Conventions of the embedding.
    - The five [StableBTreeMap]s are [gmap string _]; [insert] overwrites.
    - A request body is read at the field names of the interface it is
      spread into; every field may be absent ([None] is JS [undefined]).
      JSON carries no [bigint]: where the interface has one ([createdAt],
      [lastUpdated], [recordedAt]) a body can only carry another JSON
      value, which the spread then puts in the place of the clock value.
    - [StableBTreeMap.get] throws on an [undefined] key, and
      [JSON.stringify] on a [bigint]; both are caught by the [catch] of
      the handler that runs them.
    - A JS [number] of a body is modelled by its exact value: a rational,
      an infinity or NaN.  Every comparison in the handlers is against an
      integer constant and is exact on doubles.
    - The time layer goes through [Number(bigint)] and a double division,
      where rounding matters; it is modelled on IEEE binary64 as specified
      by [SpecFloat].
    - Strings are sequences of ASCII code units. *)

From Stdlib Require Import ZArith QArith List String Ascii Bool Lia.
From Stdlib Require Import SpecFloat.
From stdpp Require Import gmap strings list fin_maps.

Local Open Scope string_scope.
Local Open Scope Z_scope.

(** ** JavaScript numbers, strings and dates *)
Module JS.

Inductive number : Type :=
| Finite (q : Q)
| PosInfinity
| NegInfinity
| NaN.

Definition of_Z (z : Z) : number := Finite (inject_Z z).

(** [ToBoolean] on a number: [0] and [NaN] are falsy. *)
Definition truthy (n : number) : bool :=
  match n with
  | Finite q => negb (Qeq_bool q 0)
  | NaN => false
  | PosInfinity | NegInfinity => true
  end.

(** [ToNumber] of a property read: [undefined] becomes [NaN]. *)
Definition ToNumber (o : option number) : number :=
  match o with
  | Some n => n
  | None => NaN
  end.

(** [ToBoolean] of a property read. *)
Definition truthy_prop (o : option number) : bool :=
  match o with
  | Some n => truthy n
  | None => false
  end.

(** The mathematical order on numbers; NaN is unordered. *)
Definition lt (x y : number) : Prop :=
  match x, y with
  | Finite a, Finite b => (a < b)%Q
  | NegInfinity, Finite _ => True
  | NegInfinity, PosInfinity => True
  | Finite _, PosInfinity => True
  | _, _ => False
  end.

Definition le (x y : number) : Prop :=
  match x, y with
  | Finite a, Finite b => (a <= b)%Q
  | NaN, _ => False
  | _, NaN => False
  | NegInfinity, _ => True
  | _, PosInfinity => True
  | _, _ => False
  end.

(** The relational operators [<], [>], [<=], [>=] as JS evaluates them. *)
Definition ltb (x y : number) : bool :=
  match x, y with
  | NaN, _ => false
  | _, NaN => false
  | Finite a, Finite b => negb (Qle_bool b a)
  | NegInfinity, NegInfinity => false
  | NegInfinity, _ => true
  | Finite _, PosInfinity => true
  | _, _ => false
  end.

Definition gtb (x y : number) : bool := ltb y x.

Definition leb (x y : number) : bool :=
  match x, y with
  | NaN, _ => false
  | _, NaN => false
  | _, _ => negb (ltb y x)
  end.

Definition geb (x y : number) : bool := leb y x.

(** *** Strings *)

Definition is_white (c : ascii) : bool :=
  let n := nat_of_ascii c in
  (((9 <=? n) && (n <=? 13)) || (n =? 32))%nat.

Fixpoint trimStart (s : string) : string :=
  match s with
  | EmptyString => EmptyString
  | String c r => if is_white c then trimStart r else s
  end.

Fixpoint trimEnd (s : string) : string :=
  match s with
  | EmptyString => EmptyString
  | String c r =>
      match trimEnd r with
      | EmptyString => if is_white c then EmptyString else String c EmptyString
      | r' => String c r'
      end
  end.

Definition trim (s : string) : string := trimEnd (trimStart s).

(** [ToBoolean] on a string read from a body: absent and empty are falsy. *)
Definition truthy_string (o : option string) : bool :=
  match o with
  | Some EmptyString => false
  | Some _ => true
  | None => false
  end.

Definition includes (l : list string) (s : string) : bool :=
  existsb (String.eqb s) l.

(** *** Doubles of the time layer *)

Definition prec : Z := 53.
Definition emax : Z := 1024.

(** [Number(z)] for a bigint (or an integer time value): the nearest
    double, ties to even. *)
Definition Number_of_bigint (z : Z) : spec_float :=
  binary_normalize prec emax z 0 false.

Definition div (x y : spec_float) : spec_float := SFdiv prec emax x y.
Definition mul (x y : spec_float) : spec_float := SFmul prec emax x y.

(** Truncation towards zero of a finite double. *)
Definition truncate (x : spec_float) : option Z :=
  match x with
  | S754_zero _ => Some 0
  | S754_finite s m e =>
      let a := match e with
               | Zneg p => Z.shiftr (Zpos m) (Zpos p)
               | _ => Z.shiftl (Zpos m) e
               end in
      Some (if s then - a else a)
  | S754_infinity _ | S754_nan => None
  end.

Definition maxTime : Z := 8640000000000000.

(** [TimeClip]: the time value of [new Date(x)], [None] for an Invalid
    Date. *)
Definition TimeClip (x : spec_float) : option Z :=
  match x with
  | S754_infinity _ | S754_nan => None
  | _ => if SFleb (SFabs x) (Number_of_bigint maxTime) then truncate x else None
  end.

(** [BigInt(x)] for a number: a RangeError ([None]) unless [x] is an
    integer. *)
Definition BigInt_of_number (x : spec_float) : option Z :=
  match x with
  | S754_zero _ => Some 0
  | S754_finite s m e =>
      match e with
      | Zneg p =>
          if Z.eqb (Z.land (Zpos m) (Z.ones (Zpos p))) 0
          then Some (let a := Z.shiftr (Zpos m) (Zpos p) in if s then - a else a)
          else None
      | _ => Some (let a := Z.shiftl (Zpos m) e in if s then - a else a)
      end
  | S754_infinity _ | S754_nan => None
  end.

(** *** [Date.prototype.toISOString] on a valid time value *)

Definition digit (d : Z) : ascii := ascii_of_nat (48 + Z.to_nat d).

Fixpoint pad (width : nat) (z : Z) (acc : string) : string :=
  match width with
  | O => acc
  | S w => pad w (z / 10) (String (digit (z mod 10)) acc)
  end.

Definition msPerDay : Z := 86400000.

(** Year, month and day of a day number counted from 1970-01-01, in the
    proleptic Gregorian calendar. *)
Definition civil_from_days (days : Z) : Z * Z * Z :=
  let z := days + 719468 in
  let era := z / 146097 in
  let doe := z - era * 146097 in
  let yoe := (doe - doe / 1460 + doe / 36524 - doe / 146096) / 365 in
  let doy := doe - (365 * yoe + yoe / 4 - yoe / 100) in
  let mp := (5 * doy + 2) / 153 in
  let d := doy - (153 * mp + 2) / 5 + 1 in
  let m := if mp <? 10 then mp + 3 else mp - 9 in
  let y := yoe + era * 400 + (if m <=? 2 then 1 else 0) in
  (y, m, d).

Definition year_string (y : Z) : string :=
  if (0 <=? y) && (y <=? 9999) then pad 4 y ""
  else if y <? 0 then String "-" (pad 6 (- y) "")
  else String "+" (pad 6 y "").

Definition toISOString (tv : Z) : string :=
  let '(y, m, d) := civil_from_days (tv / msPerDay) in
  let t := tv mod msPerDay in
  year_string y ++ "-" ++ pad 2 m "" ++ "-" ++ pad 2 d "" ++ "T"
    ++ pad 2 (t / 3600000) "" ++ ":" ++ pad 2 (t / 60000 mod 60) "" ++ ":"
    ++ pad 2 (t / 1000 mod 60) "" ++ "." ++ pad 3 (t mod 1000) "" ++ "Z".

End JS.

(** ** Data model *)

Inductive RiskLevel : Type := LOW | MEDIUM | HIGH.

Inductive Trimester : Type := FIRST | SECOND | THIRD.

(** A JSON value, as a body carries it where the interface of the record
    has a [bigint].  An array or an object is kept by its text. *)
Inductive Json : Type :=
| JNull
| JBool (b : bool)
| JNumber (x : spec_float)
| JString (s : string)
| JStructured (text : string).

(** A time property of an object a handler builds: the [bigint] the
    handler wrote, or the value of the body that the spread put in its
    place. *)
Inductive Stamp : Type :=
| Nanos (t : Z)
| Carried (v : Json).

(** [hp_role] exists in v1.1.0 only. *)
Record HealthcareProvider : Type := {
  hp_id : string;
  hp_name : string;
  hp_specialization : string;
  hp_licenseNumber : string;
  hp_contactInfo : string;
  hp_facilityId : string;
  hp_isActive : bool;
  hp_role : option string;
  hp_lastUpdated : Z
}.

(** The profile object a handler builds and stores.  The properties that
    only the spread of the body can set are optional: the object has them
    exactly when the body has. *)
Record MaternalProfile : Type := {
  mp_id : string;
  mp_name : option string;
  mp_age : option JS.number;
  mp_bloodType : option string;
  mp_emergencyContact : option string;
  mp_dueDate : Z;
  mp_currentTrimester : option Trimester;
  mp_riskLevel : option RiskLevel;
  mp_primaryCareProviderId : option string;
  mp_createdAt : Stamp;
  mp_lastUpdated : Stamp;
  mp_medicalHistory : list string;
  mp_allergies : list string;
  mp_isHighRiskPregnancy : bool
}.

(** The body of POST /maternal-profiles; [dueDate] is a date string. *)
Record ProfileBody : Type := {
  pb_createdAt : option Json;
  pb_lastUpdated : option Json;
  pb_id : option string;
  pb_name : option string;
  pb_age : option JS.number;
  pb_bloodType : option string;
  pb_emergencyContact : option string;
  pb_dueDate : option string;
  pb_currentTrimester : option Trimester;
  pb_riskLevel : option RiskLevel;
  pb_primaryCareProviderId : option string;
  pb_medicalHistory : option (list string);
  pb_allergies : option (list string);
  pb_isHighRiskPregnancy : option bool
}.

(** The metrics object a handler builds and stores. *)
Record HealthMetrics : Type := {
  hm_id : string;
  hm_maternalProfileId : option string;
  hm_recordedAt : Stamp;
  hm_weight : option JS.number;
  hm_bloodPressureSystolic : option JS.number;
  hm_bloodPressureDiastolic : option JS.number;
  hm_bloodSugar : option JS.number;
  hm_hemoglobinLevels : option JS.number;
  hm_fetalHeartRate : option (option JS.number);
  hm_notes : option string;
  hm_recordedById : option string;
  hm_isFlaggedForReview : bool
}.

(** The body of POST /health-metrics, a [Partial<HealthMetrics>]. *)
Record MetricsBody : Type := {
  mb_id : option string;
  mb_maternalProfileId : option string;
  mb_recordedAt : option Json;
  mb_weight : option JS.number;
  mb_bloodPressureSystolic : option JS.number;
  mb_bloodPressureDiastolic : option JS.number;
  mb_bloodSugar : option JS.number;
  mb_hemoglobinLevels : option JS.number;
  mb_fetalHeartRate : option (option JS.number);
  mb_notes : option string;
  mb_recordedById : option string;
  mb_isFlaggedForReview : option bool
}.

Record PrenatalVisit : Type := {
  pv_id : string;
  pv_maternalProfileId : string;
  pv_providerId : string;
  pv_scheduledDate : Z;
  pv_completed : bool;
  pv_visitType : string;
  pv_findings : string;
  pv_recommendations : string;
  pv_nextVisitDate : option Z;
  pv_prescriptions : list string;
  pv_followUpRequired : bool;
  pv_cancellationReason : option string
}.

Record HealthAlert : Type := {
  ha_id : string;
  ha_maternalProfileId : option string;
  ha_createdAt : Z;
  ha_severity : RiskLevel;
  ha_description : string;
  ha_recommendedAction : string;
  ha_resolved : bool;
  ha_resolvedAt : option Z;
  ha_providerId : option string;
  ha_resolutionNotes : option string;
  ha_escalationLevel : Z
}.

(** ** The canister state and its host *)

(** The five stable maps, and the number of identifiers drawn so far. *)
Record State : Type := {
  maternalProfileStorage : gmap string MaternalProfile;
  providerStorage : gmap string HealthcareProvider;
  metricsStorage : gmap string HealthMetrics;
  visitStorage : gmap string PrenatalVisit;
  alertStorage : gmap string HealthAlert;
  uuid_calls : nat
}.

(** What the handlers take from their runtime: the identifier drawn by the
    [n]-th call of [uuidv4()], the time value [new Date(s)] parses from a
    date string ([None] for an Invalid Date), and the doubles [Number(x)]
    converts a string, an array or an object to. *)
Record Host : Type := {
  uuid_at : nat -> string;
  Date_parse : string -> option Z;
  StringToNumber : string -> spec_float;
  StructuredToNumber : string -> spec_float
}.

Definition uuidv4 (H : Host) (st : State) : string * State :=
  (uuid_at H (uuid_calls st),
   {| maternalProfileStorage := maternalProfileStorage st;
      providerStorage := providerStorage st;
      metricsStorage := metricsStorage st;
      visitStorage := visitStorage st;
      alertStorage := alertStorage st;
      uuid_calls := S (uuid_calls st) |}).

Definition insert_profile (p : MaternalProfile) (st : State) : State :=
  {| maternalProfileStorage := <[mp_id p := p]> (maternalProfileStorage st);
     providerStorage := providerStorage st;
     metricsStorage := metricsStorage st;
     visitStorage := visitStorage st;
     alertStorage := alertStorage st;
     uuid_calls := uuid_calls st |}.

Definition insert_metrics (m : HealthMetrics) (st : State) : State :=
  {| maternalProfileStorage := maternalProfileStorage st;
     providerStorage := providerStorage st;
     metricsStorage := <[hm_id m := m]> (metricsStorage st);
     visitStorage := visitStorage st;
     alertStorage := alertStorage st;
     uuid_calls := uuid_calls st |}.

Definition insert_alert (a : HealthAlert) (st : State) : State :=
  {| maternalProfileStorage := maternalProfileStorage st;
     providerStorage := providerStorage st;
     metricsStorage := metricsStorage st;
     visitStorage := visitStorage st;
     alertStorage := <[ha_id a := a]> (alertStorage st);
     uuid_calls := uuid_calls st |}.

(** [get] of a stable map on a property read from the body.  On an absent
    property the key is [undefined] and the key serializer of the map
    throws a TypeError: the outer [None].  Otherwise the result is what
    the map holds under the key. *)
Definition get {A : Type} (m : gmap string A) (key : option string)
    : option (option A) :=
  match key with
  | Some k => Some (m !! k)
  | None => None
  end.

(** No collection differs between two states. *)
Definition same_collections (st st' : State) : Prop :=
  maternalProfileStorage st' = maternalProfileStorage st /\
  providerStorage st' = providerStorage st /\
  metricsStorage st' = metricsStorage st /\
  visitStorage st' = visitStorage st /\
  alertStorage st' = alertStorage st.

(** [new Date(s)] on a property read: its time value, [None] when the date
    is invalid ([undefined], unparsable, or out of the range of dates). *)
Definition new_Date (H : Host) (s : option string) : option Z :=
  match s with
  | Some str =>
      match Date_parse H str with
      | Some tv => if Z.abs tv <=? JS.maxTime then Some tv else None
      | None => None
      end
  | None => None
  end.

(** [getTime()]: the time value as a number, NaN for an Invalid Date. *)
Definition getTime (d : option Z) : spec_float :=
  match d with
  | Some tv => JS.Number_of_bigint tv
  | None => S754_nan
  end.

(** [Number(v)] on a JSON value. *)
Definition Number_of_json (H : Host) (v : Json) : spec_float :=
  match v with
  | JNull => S754_zero false
  | JBool b => if b then JS.Number_of_bigint 1 else S754_zero false
  | JNumber x => x
  | JString s => StringToNumber H s
  | JStructured text => StructuredToNumber H text
  end.

(** [Number(x)] on a time property. *)
Definition Number_of_stamp (H : Host) (x : Stamp) : spec_float :=
  match x with
  | Nanos t => JS.Number_of_bigint t
  | Carried v => Number_of_json H v
  end.

(** The time property of an object literal after the spread of the body:
    the body's value, if it carries one, else the [BigInt(ic.time())]
    written before the spread. *)
Definition stamped (now : Z) (carried : option Json) : Stamp :=
  match carried with
  | Some v => Carried v
  | None => Nanos now
  end.

(** ** Replies *)

Record SerializedProfile : Type := {
  sp_profile : MaternalProfile;
  sp_dueDate : string;
  sp_createdAt : string;
  sp_lastUpdated : string
}.

Record SerializedMetrics : Type := {
  sm_metrics : HealthMetrics;
  sm_recordedAt : string
}.

Inductive Reply : Type :=
| ErrorReply (error : string)
| ProfileReply (p : SerializedProfile)
| MetricsReply (m : SerializedMetrics)
| RawProfileReply (p : MaternalProfile)
| RawMetricsReply (m : HealthMetrics).

Record Response : Type := {
  status : Z;
  reply : Reply
}.

Definition json (r : Reply) : Response := {| status := 200; reply := r |}.
Definition error_json (code : Z) (msg : string) : Response :=
  {| status := code; reply := ErrorReply msg |}.

(** [JSON.stringify] throws a TypeError on a [bigint] property.  The
    objects the serializers return have none; a profile has its
    [dueDate], and a metrics record its [recordedAt] unless the body
    carried one. *)
Definition has_bigint (r : Reply) : bool :=
  match r with
  | RawProfileReply _ => true
  | RawMetricsReply m =>
      match hm_recordedAt m with
      | Nanos _ => true
      | Carried _ => false
      end
  | ErrorReply _ | ProfileReply _ | MetricsReply _ => false
  end.

(** [res.json(x)]; [None] is the TypeError of [JSON.stringify]. *)
Definition res_json (r : Reply) : option Response :=
  if has_bigint r then None else Some (json r).

Definition bloodTypes : list string :=
  ["A+"; "A-"; "B+"; "B-"; "AB+"; "AB-"; "O+"; "O-"].

(** The guard [x && (x < lo || x > hi)] of the metrics validator: a falsy
    [x] (absent, [0] or NaN) is not checked. *)
Definition present_and_outside (x : option JS.number) (lo hi : Z) : bool :=
  match x with
  | Some v => JS.truthy v && (JS.ltb v (JS.of_Z lo) || JS.gtb v (JS.of_Z hi))
  | None => false
  end.

(** The double [1_000_000]. *)
Definition million : spec_float := JS.Number_of_bigint 1000000.

(** ** The v1.0.0 handlers *)
Module V1.

Definition validateProfile (profile : ProfileBody) : option string :=
  if match pb_name profile with
     | Some name =>
         negb (JS.truthy_string (Some name))
         || (String.length (JS.trim name) <? 2)%nat
     | None => true
     end
  then Some "Name must be at least 2 characters long"
  else if match pb_age profile with
          | Some age =>
              negb (JS.truthy age)
              || JS.ltb age (JS.of_Z 16) || JS.gtb age (JS.of_Z 60)
          | None => true
          end
  then Some "Age must be between 16 and 60"
  else if match pb_bloodType profile with
          | Some bloodType =>
              negb (JS.truthy_string (Some bloodType))
              || negb (JS.includes bloodTypes bloodType)
          | None => true
          end
  then Some "Invalid blood type"
  else None.

Definition validateHealthMetrics (metrics : MetricsBody) : option string :=
  if present_and_outside (mb_bloodPressureSystolic metrics) 70 190
  then Some "Invalid systolic blood pressure range"
  else if present_and_outside (mb_bloodPressureDiastolic metrics) 40 120
  then Some "Invalid diastolic blood pressure range"
  else if present_and_outside (mb_bloodSugar metrics) 30 500
  then Some "Invalid blood sugar range"
  else None.

Definition assessRisk (metrics : HealthMetrics) : bool :=
  JS.geb (JS.ToNumber (hm_bloodPressureSystolic metrics)) (JS.of_Z 140)
  || JS.geb (JS.ToNumber (hm_bloodPressureDiastolic metrics)) (JS.of_Z 90)
  || JS.gtb (JS.ToNumber (hm_bloodSugar metrics)) (JS.of_Z 140)
  || JS.ltb (JS.ToNumber (hm_hemoglobinLevels metrics)) (JS.of_Z 9).

Definition createHighRiskAlert (H : Host) (now : Z) (metrics : HealthMetrics)
    (st : State) : State :=
  let '(id, st1) := uuidv4 H st in
  let alert :=
    {| ha_id := id;
       ha_maternalProfileId := hm_maternalProfileId metrics;
       ha_createdAt := now;
       ha_severity := HIGH;
       ha_description := "Abnormal health metrics detected";
       ha_recommendedAction := "Immediate medical review required";
       ha_resolved := false;
       ha_resolvedAt := None;
       ha_providerId := hm_recordedById metrics;
       ha_resolutionNotes := None;
       ha_escalationLevel := 1 |} in
  insert_alert alert st1.

(** [new Date(Number(t) / 1_000_000).toISOString()]; [None] is the
    RangeError of an Invalid Date. *)
Definition isoOfNanos (t : Z) : option string :=
  match JS.TimeClip (JS.div (JS.Number_of_bigint t) million) with
  | Some tv => Some (JS.toISOString tv)
  | None => None
  end.

(** The same conversion on a time property of a stored object. *)
Definition isoOfStamp (H : Host) (x : Stamp) : option string :=
  match JS.TimeClip (JS.div (Number_of_stamp H x) million) with
  | Some tv => Some (JS.toISOString tv)
  | None => None
  end.

(** [None] is the thrown 'Failed to serialize profile data'. *)
Definition serializeProfile (H : Host) (profile : MaternalProfile)
    : option SerializedProfile :=
  match isoOfNanos (mp_dueDate profile),
        isoOfStamp H (mp_createdAt profile),
        isoOfStamp H (mp_lastUpdated profile) with
  | Some dueDate, Some createdAt, Some lastUpdated =>
      Some {| sp_profile := profile;
              sp_dueDate := dueDate;
              sp_createdAt := createdAt;
              sp_lastUpdated := lastUpdated |}
  | _, _, _ => None
  end.

Definition serializeMetrics (H : Host) (metrics : HealthMetrics)
    : option SerializedMetrics :=
  match isoOfStamp H (hm_recordedAt metrics) with
  | Some recordedAt => Some {| sm_metrics := metrics; sm_recordedAt := recordedAt |}
  | None => None
  end.

(** [BigInt(new Date(req.body.dueDate).getTime() * 1_000_000)]; [None] is
    the RangeError of [BigInt] on NaN. *)
Definition dueDateNanos (H : Host) (body : ProfileBody) : option Z :=
  JS.BigInt_of_number (JS.mul (getTime (new_Date H (pb_dueDate body))) million).

(** The object literal of the handler, once its identifier is drawn and
    its due date converted: the spread of the body overrides the
    properties written before it, [dueDate] is written after it. *)
Definition buildProfile (id : string) (now dueDate : Z) (body : ProfileBody)
    : MaternalProfile :=
  {| mp_id := default id (pb_id body);
     mp_createdAt := stamped now (pb_createdAt body);
     mp_lastUpdated := stamped now (pb_lastUpdated body);
     mp_currentTrimester := Some (default FIRST (pb_currentTrimester body));
     mp_riskLevel := Some (default LOW (pb_riskLevel body));
     mp_medicalHistory := default [] (pb_medicalHistory body);
     mp_allergies := default [] (pb_allergies body);
     mp_isHighRiskPregnancy := default false (pb_isHighRiskPregnancy body);
     mp_name := pb_name body;
     mp_age := pb_age body;
     mp_bloodType := pb_bloodType body;
     mp_emergencyContact := pb_emergencyContact body;
     mp_primaryCareProviderId := pb_primaryCareProviderId body;
     mp_dueDate := dueDate |}.

(** POST /maternal-profiles.  Every throw inside the [try] is answered
    by the [catch] with the 500. *)
Definition createProfile (H : Host) (now : Z) (body : ProfileBody) (st : State)
    : Response * State :=
  match validateProfile body with
  | Some validationError => (error_json 400 validationError, st)
  | None =>
      match get (providerStorage st) (pb_primaryCareProviderId body) with
      | None => (error_json 500 "Internal server error", st)
      | Some None => (error_json 404 "Healthcare provider not found", st)
      | Some (Some provider) =>
          if negb (hp_isActive provider)
          then (error_json 400 "Selected healthcare provider is not active", st)
          else
            let '(id, st1) := uuidv4 H st in
            match dueDateNanos H body with
            | None => (error_json 500 "Internal server error", st1)
            | Some dueDate =>
                let profile := buildProfile id now dueDate body in
                let st2 := insert_profile profile st1 in
                match serializeProfile H profile with
                | Some out => (json (ProfileReply out), st2)
                | None => (error_json 500 "Internal server error", st2)
                end
            end
      end
  end.

(** The object literal of POST /health-metrics. *)
Definition buildMetrics (id : string) (now : Z) (body : MetricsBody) : HealthMetrics :=
  {| hm_id := default id (mb_id body);
     hm_recordedAt := stamped now (mb_recordedAt body);
     hm_isFlaggedForReview := default false (mb_isFlaggedForReview body);
     hm_maternalProfileId := mb_maternalProfileId body;
     hm_weight := mb_weight body;
     hm_bloodPressureSystolic := mb_bloodPressureSystolic body;
     hm_bloodPressureDiastolic := mb_bloodPressureDiastolic body;
     hm_bloodSugar := mb_bloodSugar body;
     hm_hemoglobinLevels := mb_hemoglobinLevels body;
     hm_fetalHeartRate := mb_fetalHeartRate body;
     hm_notes := mb_notes body;
     hm_recordedById := mb_recordedById body |}.

(** [metrics.isFlaggedForReview = true]. *)
Definition flag (metrics : HealthMetrics) : HealthMetrics :=
  {| hm_id := hm_id metrics;
     hm_recordedAt := hm_recordedAt metrics;
     hm_isFlaggedForReview := true;
     hm_maternalProfileId := hm_maternalProfileId metrics;
     hm_weight := hm_weight metrics;
     hm_bloodPressureSystolic := hm_bloodPressureSystolic metrics;
     hm_bloodPressureDiastolic := hm_bloodPressureDiastolic metrics;
     hm_bloodSugar := hm_bloodSugar metrics;
     hm_hemoglobinLevels := hm_hemoglobinLevels metrics;
     hm_fetalHeartRate := hm_fetalHeartRate metrics;
     hm_notes := hm_notes metrics;
     hm_recordedById := hm_recordedById metrics |}.

(** POST /health-metrics, with the automated risk assessment. *)
Definition recordMetrics (H : Host) (now : Z) (body : MetricsBody) (st : State)
    : Response * State :=
  match validateHealthMetrics body with
  | Some validationError => (error_json 400 validationError, st)
  | None =>
      let '(id, st1) := uuidv4 H st in
      let metrics0 := buildMetrics id now body in
      let isHighRisk := assessRisk metrics0 in
      let '(metrics, st2) :=
        if isHighRisk
        then (flag metrics0, createHighRiskAlert H now (flag metrics0) st1)
        else (metrics0, st1) in
      let st3 := insert_metrics metrics st2 in
      match serializeMetrics H metrics with
      | Some out => (json (MetricsReply out), st3)
      | None => (error_json 500 "Failed to record health metrics", st3)
      end
  end.

(** The visit and alert serializers.  [x ? ... : null] takes the second
    branch for [null] and for the falsy bigint [0n].  [None] is the thrown
    'Failed to serialize ... data'. *)
Record SerializedVisit : Type := {
  sv_visit : PrenatalVisit;
  sv_scheduledDate : string;
  sv_nextVisitDate : option string
}.

Definition serializeVisit (visit : PrenatalVisit) : option SerializedVisit :=
  match isoOfNanos (pv_scheduledDate visit) with
  | None => None
  | Some scheduledDate =>
      match pv_nextVisitDate visit with
      | None | Some 0 =>
          Some {| sv_visit := visit;
                  sv_scheduledDate := scheduledDate;
                  sv_nextVisitDate := None |}
      | Some t =>
          match isoOfNanos t with
          | Some nextVisitDate =>
              Some {| sv_visit := visit;
                      sv_scheduledDate := scheduledDate;
                      sv_nextVisitDate := Some nextVisitDate |}
          | None => None
          end
      end
  end.

Record SerializedAlert : Type := {
  sa_alert : HealthAlert;
  sa_createdAt : string;
  sa_resolvedAt : option string
}.

Definition serializeAlert (alert : HealthAlert) : option SerializedAlert :=
  match isoOfNanos (ha_createdAt alert) with
  | None => None
  | Some createdAt =>
      match ha_resolvedAt alert with
      | None | Some 0 =>
          Some {| sa_alert := alert;
                  sa_createdAt := createdAt;
                  sa_resolvedAt := None |}
      | Some t =>
          match isoOfNanos t with
          | Some resolvedAt =>
              Some {| sa_alert := alert;
                      sa_createdAt := createdAt;
                      sa_resolvedAt := Some resolvedAt |}
          | None => None
          end
      end
  end.

End V1.

(** ** The v1.1.0 handlers *)
Module V2.

Definition NANOS_PER_MILLISECOND : Z := 1000000.

(** [input.replace(/[<>]/g, '')]. *)
Fixpoint sanitizeString (input : string) : string :=
  match input with
  | EmptyString => EmptyString
  | String c r =>
      if Ascii.eqb c "<"%char || Ascii.eqb c ">"%char
      then sanitizeString r
      else String c (sanitizeString r)
  end.

Definition parseDateToBigInt (H : Host) (dateString : option string) : option Z :=
  match new_Date H dateString with
  | Some tv => Some (tv * NANOS_PER_MILLISECOND)
  | None => None
  end.

Definition validateProfile (profile : ProfileBody) : option string :=
  if match pb_name profile with
     | Some name =>
         negb (JS.truthy_string (Some name))
         || (String.length (JS.trim name) <? 2)%nat
         || (100 <? String.length name)%nat
     | None => true
     end
  then Some "Name must be between 2 and 100 characters"
  else if match pb_age profile with
          | Some age =>
              negb (JS.truthy age)
              || JS.ltb age (JS.of_Z 16) || JS.gtb age (JS.of_Z 60)
          | None => true
          end
  then Some "Age must be between 16 and 60"
  else if match pb_bloodType profile with
          | Some bloodType =>
              negb (JS.truthy_string (Some bloodType))
              || negb (JS.includes bloodTypes bloodType)
          | None => true
          end
  then Some "Invalid blood type"
  else None.

Definition validateHealthMetrics (metrics : MetricsBody) : option string :=
  if present_and_outside (mb_bloodPressureSystolic metrics) 70 190
  then Some "Invalid systolic blood pressure range"
  else if present_and_outside (mb_bloodPressureDiastolic metrics) 40 120
  then Some "Invalid diastolic blood pressure range"
  else None.

(** The role middleware: [None] is [next()]. *)
Definition authorize (requiredRole : string) (x_role : option string) : option Response :=
  if bool_decide (x_role = Some requiredRole) then None
  else Some (error_json 403 "Forbidden").

(** [if (req.body.name) req.body.name = sanitizeString(req.body.name)]. *)
Definition sanitizeName (body : ProfileBody) : ProfileBody :=
  {| pb_createdAt := pb_createdAt body;
     pb_lastUpdated := pb_lastUpdated body;
     pb_id := pb_id body;
     pb_name :=
       if JS.truthy_string (pb_name body)
       then option_map sanitizeString (pb_name body)
       else pb_name body;
     pb_age := pb_age body;
     pb_bloodType := pb_bloodType body;
     pb_emergencyContact := pb_emergencyContact body;
     pb_dueDate := pb_dueDate body;
     pb_currentTrimester := pb_currentTrimester body;
     pb_riskLevel := pb_riskLevel body;
     pb_primaryCareProviderId := pb_primaryCareProviderId body;
     pb_medicalHistory := pb_medicalHistory body;
     pb_allergies := pb_allergies body;
     pb_isHighRiskPregnancy := pb_isHighRiskPregnancy body |}.

(** The object literal of the handler: no default for [currentTrimester]
    and [riskLevel]. *)
Definition buildProfile (id : string) (now dueDate : Z) (body : ProfileBody)
    : MaternalProfile :=
  {| mp_id := default id (pb_id body);
     mp_createdAt := stamped now (pb_createdAt body);
     mp_lastUpdated := stamped now (pb_lastUpdated body);
     mp_medicalHistory := default [] (pb_medicalHistory body);
     mp_allergies := default [] (pb_allergies body);
     mp_isHighRiskPregnancy := default false (pb_isHighRiskPregnancy body);
     mp_currentTrimester := pb_currentTrimester body;
     mp_riskLevel := pb_riskLevel body;
     mp_name := pb_name body;
     mp_age := pb_age body;
     mp_bloodType := pb_bloodType body;
     mp_emergencyContact := pb_emergencyContact body;
     mp_primaryCareProviderId := pb_primaryCareProviderId body;
     mp_dueDate := dueDate |}.

(** The handler of POST /maternal-profiles.  [!dueDate] holds for [null]
    and for [0n].  The profile is inserted before [res.json(profile)]
    runs; its throw is answered by the [catch] with the 500. *)
Definition createProfile (H : Host) (now : Z) (body0 : ProfileBody) (st : State)
    : Response * State :=
  let body := sanitizeName body0 in
  match validateProfile body with
  | Some validationError => (error_json 400 validationError, st)
  | None =>
      match parseDateToBigInt H (pb_dueDate body) with
      | None | Some 0 => (error_json 400 "Invalid date format for dueDate", st)
      | Some dueDate =>
          let '(id, st1) := uuidv4 H st in
          let profile := buildProfile id now dueDate body in
          let st2 := insert_profile profile st1 in
          match res_json (RawProfileReply profile) with
          | Some ok => (ok, st2)
          | None => (error_json 500 "Internal server error", st2)
          end
      end
  end.

(** The object literal of POST /health-metrics. *)
Definition buildMetrics (id : string) (now : Z) (body : MetricsBody) : HealthMetrics :=
  {| hm_id := default id (mb_id body);
     hm_recordedAt := stamped now (mb_recordedAt body);
     hm_isFlaggedForReview := default false (mb_isFlaggedForReview body);
     hm_maternalProfileId := mb_maternalProfileId body;
     hm_weight := mb_weight body;
     hm_bloodPressureSystolic := mb_bloodPressureSystolic body;
     hm_bloodPressureDiastolic := mb_bloodPressureDiastolic body;
     hm_bloodSugar := mb_bloodSugar body;
     hm_hemoglobinLevels := mb_hemoglobinLevels body;
     hm_fetalHeartRate := mb_fetalHeartRate body;
     hm_notes := mb_notes body;
     hm_recordedById := mb_recordedById body |}.

(** The handler of POST /health-metrics: no assessment, no alert.  The
    record is inserted before [res.json(metrics)] runs; every throw inside
    the [try] is answered by the [catch] with the 500. *)
Definition recordMetrics (H : Host) (now : Z) (body : MetricsBody) (st : State)
    : Response * State :=
  match get (maternalProfileStorage st) (mb_maternalProfileId body) with
  | None => (error_json 500 "Failed to record health metrics", st)
  | Some None => (error_json 404 "Maternal profile not found", st)
  | Some (Some _) =>
      match validateHealthMetrics body with
      | Some validationError => (error_json 400 validationError, st)
      | None =>
          let '(id, st1) := uuidv4 H st in
          let metrics := buildMetrics id now body in
          let st2 := insert_metrics metrics st1 in
          match res_json (RawMetricsReply metrics) with
          | Some ok => (ok, st2)
          | None => (error_json 500 "Failed to record health metrics", st2)
          end
      end
  end.

(** The routes, behind their role check. *)
Definition post_maternal_profiles (H : Host) (now : Z) (x_role : option string)
    (body : ProfileBody) (st : State) : Response * State :=
  match authorize "admin" x_role with
  | Some forbidden => (forbidden, st)
  | None => createProfile H now body st
  end.

Definition post_health_metrics (H : Host) (now : Z) (x_role : option string)
    (body : MetricsBody) (st : State) : Response * State :=
  match authorize "provider" x_role with
  | Some forbidden => (forbidden, st)
  | None => recordMetrics H now body st
  end.

End V2.

(** ** Serving requests *)

(** A request to one of the two routes, with the role header it carries and
    the canister time of the message that delivers it.  The canister runs
    one message at a time to completion. *)
Inductive Request : Type :=
| PostMaternalProfiles (x_role : option string) (now : Z) (body : ProfileBody)
| PostHealthMetrics (x_role : option string) (now : Z) (body : MetricsBody).

(** The v1.0.0 app: its two routes read no header. *)
Definition app_V1 (H : Host) (req : Request) (st : State) : Response * State :=
  match req with
  | PostMaternalProfiles _ now body => V1.createProfile H now body st
  | PostHealthMetrics _ now body => V1.recordMetrics H now body st
  end.

(** The v1.1.0 app: each route behind its role check.  The rate limiter
    in front of the routes keeps a counter of its own and answers by
    itself the requests it drops; a [Request] is one that it lets
    through. *)
Definition app_V2 (H : Host) (req : Request) (st : State) : Response * State :=
  match req with
  | PostMaternalProfiles x_role now body => V2.post_maternal_profiles H now x_role body st
  | PostHealthMetrics x_role now body => V2.post_health_metrics H now x_role body st
  end.

(** The replies to a sequence of requests, and the state they leave. *)
Fixpoint serve (app : Request -> State -> Response * State) (reqs : list Request)
    (st : State) : list Response * State :=
  match reqs with
  | [] => ([], st)
  | req :: rest =>
      let '(res, st1) := app req st in
      let '(ress, st2) := serve app rest st1 in
      (res :: ress, st2)
  end.

(** The request carries the role its route requires. *)
Definition authorized (req : Request) : bool :=
  match req with
  | PostMaternalProfiles x_role _ _ => bool_decide (x_role = Some "admin")
  | PostHealthMetrics x_role _ _ => bool_decide (x_role = Some "provider")
  end.

(** ** The alert lifecycle *)

Inductive ResolveResult : Type :=
| AlertResult (alert : HealthAlert)
| NotFoundError.

(** Modelled from the spec: the repository has no [resolveAlert]; the
    operation [resolveAlert(id, notes) -> Alert | NotFoundError] of the
    alert lifecycle takes an Open alert to Resolved, with [resolvedAt] set
    from the clock and the resolution notes recorded.  Of the two
    behaviours allowed on an alert that is already Resolved, this model
    picks the no-op: the alert is returned as it is stored. *)
Definition resolveAlert (now : Z) (id : string) (notes : option string) (st : State)
    : ResolveResult * State :=
  match alertStorage st !! id with
  | None => (NotFoundError, st)
  | Some alert =>
      if ha_resolved alert then (AlertResult alert, st)
      else
        let resolved :=
          {| ha_id := ha_id alert;
             ha_maternalProfileId := ha_maternalProfileId alert;
             ha_createdAt := ha_createdAt alert;
             ha_severity := ha_severity alert;
             ha_description := ha_description alert;
             ha_recommendedAction := ha_recommendedAction alert;
             ha_resolved := true;
             ha_resolvedAt := Some now;
             ha_providerId := ha_providerId alert;
             ha_resolutionNotes := notes;
             ha_escalationLevel := ha_escalationLevel alert |} in
        (AlertResult resolved,
         {| maternalProfileStorage := maternalProfileStorage st;
            providerStorage := providerStorage st;
            metricsStorage := metricsStorage st;
            visitStorage := visitStorage st;
            alertStorage := <[id := resolved]> (alertStorage st);
            uuid_calls := uuid_calls st |})
  end.

(** ** Vocabulary of the properties *)

(** A value lies outside the closed interval [[lo, hi]]. *)
Definition outside (lo hi : Z) (v : JS.number) : Prop :=
  JS.lt v (JS.of_Z lo) \/ JS.lt (JS.of_Z hi) v.

(** A field is present and its value lies outside [[lo, hi]]. *)
Definition present_outside (x : option JS.number) (lo hi : Z) : Prop :=
  exists v, x = Some v /\ outside lo hi v.

(** A field, when present, holds a number other than [0] and NaN. *)
Definition nonzero_if_present (x : option JS.number) : Prop :=
  forall v, x = Some v -> JS.truthy v = true.

(** A metrics record breaches a clinical threshold. *)
Definition breaches_threshold (m : HealthMetrics) : Prop :=
  JS.le (JS.of_Z 140) (JS.ToNumber (hm_bloodPressureSystolic m))
  \/ JS.le (JS.of_Z 90) (JS.ToNumber (hm_bloodPressureDiastolic m))
  \/ JS.lt (JS.of_Z 140) (JS.ToNumber (hm_bloodSugar m))
  \/ JS.lt (JS.ToNumber (hm_hemoglobinLevels m)) (JS.of_Z 9).

(** The record the rounding works on once the mantissa [k], known up to
    the location [l], is shifted right by [n] digits. *)
Definition shifted (k : Z) (l : location) (n : Z) : shr_record :=
  fst (shr (shr_record_of_loc k l) 0 n).

(** The record [r] is what is left of the mantissa [x] after [k] shifts to
    the right: its mantissa holds the digits kept, its round bit the last
    digit dropped, and its sticky bit tells whether a digit dropped before
    that one was set. *)
Definition shifts (x k : Z) (r : shr_record) : Prop :=
  0 <= shr_m r
  /\ 0 <= 2 * x - shr_m r * 2 ^ (k + 1) - Z.b2z (shr_r r) * 2 ^ k < 2 ^ k
  /\ (shr_s r = true <-> 2 * x - shr_m r * 2 ^ (k + 1) - Z.b2z (shr_r r) * 2 ^ k <> 0).

(** The bound of the range of dates, in nanoseconds. *)
Definition maxNanos : Z := 8640000000000000000000.

(** A profile name the validators accept: present, with at least two
    characters once trimmed. *)
Definition valid_name (name : option string) : Prop :=
  exists s, name = Some s /\ (2 <= String.length (JS.trim s))%nat.

Definition valid_age (age : option JS.number) : Prop :=
  exists a, age = Some a /\ JS.le (JS.of_Z 16) a /\ JS.le a (JS.of_Z 60).

Definition valid_bloodType (bloodType : option string) : Prop :=
  exists b, bloodType = Some b /\ In b bloodTypes.

(** The characters of a string. *)
Definition chars (s : string) : list ascii := list_ascii_of_string s.

Definition angle (c : ascii) : Prop := c = "<"%char \/ c = ">"%char.

(** The test of a character that is no angle bracket. *)
Definition not_angle (c : ascii) : bool :=
  negb (Ascii.eqb c "<"%char || Ascii.eqb c ">"%char).

(** The body names a provider, and [found] is what the provider
    collection holds under that name. *)
Definition names_provider (st : State) (body : ProfileBody)
    (found : option HealthcareProvider) : Prop :=
  exists k, pb_primaryCareProviderId body = Some k /\ providerStorage st !! k = found.

(** The body names a profile, and [found] is what the profile collection
    holds under that name. *)
Definition names_profile (st : State) (body : MetricsBody)
    (found : option MaternalProfile) : Prop :=
  exists k, mb_maternalProfileId body = Some k /\ maternalProfileStorage st !! k = found.

(** Every record is stored under its own identifier. *)
Definition keyed_by_id (st : State) : Prop :=
  (forall k p, maternalProfileStorage st !! k = Some p -> mp_id p = k)
  /\ (forall k m, metricsStorage st !! k = Some m -> hm_id m = k)
  /\ (forall k a, alertStorage st !! k = Some a -> ha_id a = k).

(** Every stored record that [assessRisk] finds high-risk is flagged. *)
Definition high_risk_flagged (st : State) : Prop :=
  forall k m, metricsStorage st !! k = Some m ->
    V1.assessRisk m = true -> hm_isFlaggedForReview m = true.

(** An alert as [createHighRiskAlert] writes it. *)
Definition automatic_alert (a : HealthAlert) : Prop :=
  ha_severity a = HIGH
  /\ ha_description a = "Abnormal health metrics detected"
  /\ ha_recommendedAction a = "Immediate medical review required"
  /\ ha_resolved a = false
  /\ ha_resolvedAt a = None
  /\ ha_resolutionNotes a = None
  /\ ha_escalationLevel a = 1.

(** A time within the range of dates, in nanoseconds. *)
Definition in_date_range (t : Z) : Prop := Z.abs t <= maxNanos.

(** A time property that holds a [bigint] within the range of dates. *)
Definition stamp_in_date_range (x : Stamp) : Prop :=
  exists t, x = Nanos t /\ in_date_range t.

(** A time property of a body that the serializers can print: the body
    does not carry it, or [new Date(Number(v) / 1_000_000)] on the value
    it carries is a valid date. *)
Definition displayable (H : Host) (carried : option Json) : Prop :=
  forall v, carried = Some v -> is_Some (V1.isoOfStamp H (Carried v)).

(** ** Sample host, states and bodies *)

Definition decimal (n : nat) : string := JS.pad 4 (Z.of_nat n) "".

(** A host that draws ["uuid-0000"], ["uuid-0001"], ... and parses three
    date strings.  Of the strings that the samples convert to a number it
    knows the one that is a number; the other, ["soon"], is NaN.  The
    samples convert no array and no object. *)
Definition host0 : Host :=
  {| uuid_at := fun n => "uuid-" ++ decimal n;
     Date_parse := fun s =>
       if String.eqb s "2024-12-25" then Some 1735084800000
       else if String.eqb s "2024-12-25T00:00:00.002Z" then Some 1735084800002
       else if String.eqb s "1970-01-01T00:00:00.000Z" then Some 0
       else None;
     StringToNumber := fun s =>
       if String.eqb s "1735084800000000000"
       then JS.Number_of_bigint 1735084800000000000
       else S754_nan;
     StructuredToNumber := fun _ => S754_nan |}.

Definition now0 : Z := 1735000000000000000.

Definition emptyState : State :=
  {| maternalProfileStorage := ∅;
     providerStorage := ∅;
     metricsStorage := ∅;
     visitStorage := ∅;
     alertStorage := ∅;
     uuid_calls := 0 |}.

Definition provider123 (active : bool) : HealthcareProvider :=
  {| hp_id := "provider-123";
     hp_name := "Dr. Achieng";
     hp_specialization := "Obstetrics";
     hp_licenseNumber := "KE-0042";
     hp_contactInfo := "+254700000000";
     hp_facilityId := "facility-1";
     hp_isActive := active;
     hp_role := None;
     hp_lastUpdated := 0 |}.

Definition stateWithProvider (active : bool) : State :=
  {| maternalProfileStorage := ∅;
     providerStorage := {[ "provider-123" := provider123 active ]};
     metricsStorage := ∅;
     visitStorage := ∅;
     alertStorage := ∅;
     uuid_calls := 0 |}.

(** The profile body of the README. *)
Definition janeDoe : ProfileBody :=
  {| pb_createdAt := None;
     pb_lastUpdated := None;
     pb_id := None;
     pb_name := Some "Jane Doe";
     pb_age := Some (JS.of_Z 28);
     pb_bloodType := Some "O+";
     pb_emergencyContact := Some "+1234567890";
     pb_dueDate := Some "2024-12-25";
     pb_currentTrimester := None;
     pb_riskLevel := None;
     pb_primaryCareProviderId := Some "provider-123";
     pb_medicalHistory := None;
     pb_allergies := None;
     pb_isHighRiskPregnancy := None |}.

(** A metrics body with the four vitals given and the rest as in the
    README. *)
Definition vitals (id : option string) (flagged : option bool)
    (systolic diastolic sugar hemoglobin : option JS.number) : MetricsBody :=
  {| mb_id := id;
     mb_maternalProfileId := Some "profile-123";
     mb_recordedAt := None;
     mb_weight := Some (JS.of_Z 65);
     mb_bloodPressureSystolic := systolic;
     mb_bloodPressureDiastolic := diastolic;
     mb_bloodSugar := sugar;
     mb_hemoglobinLevels := hemoglobin;
     mb_fetalHeartRate := None;
     mb_notes := Some "Regular checkup";
     mb_recordedById := Some "provider-123";
     mb_isFlaggedForReview := flagged |}.

Definition measured (z : Z) : option JS.number := Some (JS.of_Z z).

(** A metrics body with a [recordedAt] of its own added. *)
Definition carrying (recordedAt : Json) (body : MetricsBody) : MetricsBody :=
  {| mb_id := mb_id body;
     mb_maternalProfileId := mb_maternalProfileId body;
     mb_recordedAt := Some recordedAt;
     mb_weight := mb_weight body;
     mb_bloodPressureSystolic := mb_bloodPressureSystolic body;
     mb_bloodPressureDiastolic := mb_bloodPressureDiastolic body;
     mb_bloodSugar := mb_bloodSugar body;
     mb_hemoglobinLevels := mb_hemoglobinLevels body;
     mb_fetalHeartRate := mb_fetalHeartRate body;
     mb_notes := mb_notes body;
     mb_recordedById := mb_recordedById body;
     mb_isFlaggedForReview := mb_isFlaggedForReview body |}.

(** A [recordedAt] that a client can send: a number of nanoseconds, in a
    string. *)
Definition recordedAt_sample : Json := JString "1735084800000000000".

(** A stored profile and a state that holds it. *)
Definition profile123 : MaternalProfile :=
  {| mp_id := "profile-123";
     mp_name := Some "Jane Doe";
     mp_age := Some (JS.of_Z 28);
     mp_bloodType := Some "O+";
     mp_emergencyContact := Some "+1234567890";
     mp_dueDate := 1735084800000000000;
     mp_currentTrimester := Some FIRST;
     mp_riskLevel := Some LOW;
     mp_primaryCareProviderId := Some "provider-123";
     mp_createdAt := Nanos 1734000000000000000;
     mp_lastUpdated := Nanos 1734000000000000000;
     mp_medicalHistory := [];
     mp_allergies := [];
     mp_isHighRiskPregnancy := false |}.

Definition stateWithProfile : State :=
  {| maternalProfileStorage := {[ "profile-123" := profile123 ]};
     providerStorage := {[ "provider-123" := provider123 true ]};
     metricsStorage := ∅;
     visitStorage := ∅;
     alertStorage := ∅;
     uuid_calls := 0 |}.

(** An Open alert and a state that holds it. *)
Definition openAlert : HealthAlert :=
  {| ha_id := "alert-1";
     ha_maternalProfileId := Some "profile-123";
     ha_createdAt := 1734000000000000000;
     ha_severity := HIGH;
     ha_description := "Abnormal health metrics detected";
     ha_recommendedAction := "Immediate medical review required";
     ha_resolved := false;
     ha_resolvedAt := None;
     ha_providerId := Some "provider-123";
     ha_resolutionNotes := None;
     ha_escalationLevel := 1 |}.

Definition stateWithAlert : State :=
  {| maternalProfileStorage := {[ "profile-123" := profile123 ]};
     providerStorage := {[ "provider-123" := provider123 true ]};
     metricsStorage := ∅;
     visitStorage := ∅;
     alertStorage := {[ "alert-1" := openAlert ]};
     uuid_calls := 0 |}.

(** The README profile body with an identifier and a due date of the
    client's choosing. *)
Definition janeDoeWith (id : option string) (dueDate : option string) : ProfileBody :=
  {| pb_createdAt := None;
     pb_lastUpdated := None;
     pb_id := id;
     pb_name := Some "Jane Doe";
     pb_age := Some (JS.of_Z 28);
     pb_bloodType := Some "O+";
     pb_emergencyContact := Some "+1234567890";
     pb_dueDate := dueDate;
     pb_currentTrimester := None;
     pb_riskLevel := None;
     pb_primaryCareProviderId := Some "provider-123";
     pb_medicalHistory := None;
     pb_allergies := None;
     pb_isHighRiskPregnancy := None |}.

(** The README body without its [primaryCareProviderId]. *)
Definition janeDoeNoProvider : ProfileBody :=
  {| pb_createdAt := None;
     pb_lastUpdated := None;
     pb_id := None;
     pb_name := Some "Jane Doe";
     pb_age := Some (JS.of_Z 28);
     pb_bloodType := Some "O+";
     pb_emergencyContact := Some "+1234567890";
     pb_dueDate := Some "2024-12-25";
     pb_currentTrimester := None;
     pb_riskLevel := None;
     pb_primaryCareProviderId := None;
     pb_medicalHistory := None;
     pb_allergies := None;
     pb_isHighRiskPregnancy := None |}.

(** A metrics body without its [maternalProfileId]. *)
Definition unassigned (body : MetricsBody) : MetricsBody :=
  {| mb_id := mb_id body;
     mb_maternalProfileId := None;
     mb_recordedAt := mb_recordedAt body;
     mb_weight := mb_weight body;
     mb_bloodPressureSystolic := mb_bloodPressureSystolic body;
     mb_bloodPressureDiastolic := mb_bloodPressureDiastolic body;
     mb_bloodSugar := mb_bloodSugar body;
     mb_hemoglobinLevels := mb_hemoglobinLevels body;
     mb_fetalHeartRate := mb_fetalHeartRate body;
     mb_notes := mb_notes body;
     mb_recordedById := mb_recordedById body;
     mb_isFlaggedForReview := mb_isFlaggedForReview body |}.

(** The README body with a [createdAt] that is not a time. *)
Definition janeDoeSoon : ProfileBody :=
  {| pb_createdAt := Some (JString "soon");
     pb_lastUpdated := None;
     pb_id := None;
     pb_name := Some "Jane Doe";
     pb_age := Some (JS.of_Z 28);
     pb_bloodType := Some "O+";
     pb_emergencyContact := Some "+1234567890";
     pb_dueDate := Some "2024-12-25";
     pb_currentTrimester := None;
     pb_riskLevel := None;
     pb_primaryCareProviderId := Some "provider-123";
     pb_medicalHistory := None;
     pb_allergies := None;
     pb_isHighRiskPregnancy := None |}.

(** ** Proof steps *)

(** The four equivalences of a status theorem, once the outcome is known. *)
Ltac status_cases :=
  split; [|split; [|split]];
  (split; [intros Hcode; try discriminate Hcode; tauto | intros; try reflexivity; exfalso; tauto]).

(** * Properties *)

(** ** The order on numbers and its JS operators *)

Lemma ltb_lt (x y : JS.number) : JS.ltb x y = true <-> JS.lt x y.
Proof.
  destruct x as [a| | |], y as [b| | |]; simpl; try tauto; try (split; [discriminate | tauto]).
  rewrite negb_true_iff. split.
  - intros Hle. apply Qnot_le_lt. intros Hba.
    apply Qle_bool_iff in Hba. congruence.
  - intros Hlt. destruct (Qle_bool b a) eqn:E; [|reflexivity].
    apply Qle_bool_iff in E. exfalso. exact (Qlt_not_le _ _ Hlt E).
Qed.

Lemma leb_le (x y : JS.number) : JS.leb x y = true <-> JS.le x y.
Proof.
  destruct x as [a| | |], y as [b| | |]; simpl; try tauto; try (split; [discriminate | tauto]).
  rewrite negb_involutive. apply Qle_bool_iff.
Qed.

Lemma gtb_lt (x y : JS.number) : JS.gtb x y = true <-> JS.lt y x.
Proof. unfold JS.gtb. apply ltb_lt. Qed.

Lemma geb_le (x y : JS.number) : JS.geb x y = true <-> JS.le y x.
Proof. unfold JS.geb. apply leb_le. Qed.

(** ** C1: the risk thresholds *)

(** C1. [assessRisk] returns high-risk ([true]) exactly when the systolic
    pressure is at least 140, or the diastolic pressure at least 90, or
    the blood sugar above 140, or the hemoglobin below 9; a record that
    breaches none of the four thresholds is assessed normal ([false]). *)
Theorem C1_assessRisk_thresholds (m : HealthMetrics) :
  (V1.assessRisk m = true <-> breaches_threshold m)
  /\ (~ breaches_threshold m <-> V1.assessRisk m = false).
Proof.
  assert (E : V1.assessRisk m = true <-> breaches_threshold m).
  { unfold V1.assessRisk, breaches_threshold.
    rewrite !orb_true_iff, !geb_le, gtb_lt, ltb_lt. tauto. }
  split; [exact E|].
  rewrite <- E. destruct (V1.assessRisk m); split; congruence.
Qed.

Example assessRisk_systolic_breach :
  V1.assessRisk (V1.buildMetrics "m" now0 (vitals None None (measured 150) (measured 80) (measured 95) (measured 12))) = true.
Proof. reflexivity. Qed.

Example assessRisk_normal :
  V1.assessRisk (V1.buildMetrics "m" now0 (vitals None None (measured 120) (measured 80) (measured 95) (measured 12))) = false.
Proof. reflexivity. Qed.

Example assessRisk_low_hemoglobin :
  V1.assessRisk
    (V1.buildMetrics "m" now0 (vitals None None (measured 120) (measured 80) (measured 95) (Some (JS.Finite (89 # 10)))))
  = true.
Proof. reflexivity. Qed.

(** ** C7: the ranges of the metrics validator *)

Lemma present_and_outside_sound (x : option JS.number) (lo hi : Z) :
  present_and_outside x lo hi = true -> present_outside x lo hi.
Proof.
  unfold present_and_outside, present_outside, outside.
  destruct x as [v|]; [|discriminate].
  rewrite andb_true_iff, orb_true_iff, ltb_lt, gtb_lt.
  intros [_ Hout]. exists v. split; [reflexivity | exact Hout].
Qed.

Lemma present_and_outside_complete (x : option JS.number) (lo hi : Z) :
  nonzero_if_present x -> present_outside x lo hi -> present_and_outside x lo hi = true.
Proof.
  unfold present_and_outside, present_outside, outside.
  intros Hnz [v [-> Hout]].
  rewrite andb_true_iff, orb_true_iff, ltb_lt, gtb_lt.
  split; [apply Hnz; reflexivity | exact Hout].
Qed.

Lemma present_and_outside_false (x : option JS.number) (lo hi : Z) :
  nonzero_if_present x -> ~ present_outside x lo hi -> present_and_outside x lo hi = false.
Proof.
  intros Hnz Hno. destruct (present_and_outside x lo hi) eqn:E; [|reflexivity].
  exfalso. apply Hno. apply present_and_outside_sound. exact E.
Qed.

(** C7 as the specification states it fails on zero, and on blood sugar
    in v1.1.0: a systolic pressure of 0 is present and outside [70,190],
    and v1.0.0 accepts it; a blood sugar of 600 is present and outside
    [30,500], and v1.1.0 accepts it. *)
Lemma C7_counterexample :
  (present_outside (mb_bloodPressureSystolic (vitals None None (measured 0) None None None)) 70 190
   /\ V1.validateHealthMetrics (vitals None None (measured 0) None None None) = None)
  /\ (present_outside (mb_bloodSugar (vitals None None None None (measured 600) None)) 30 500
      /\ V2.validateHealthMetrics (vitals None None None None (measured 600) None) = None).
Proof.
  split; split; try reflexivity.
  - exists (JS.of_Z 0). split; [reflexivity|]. left. reflexivity.
  - exists (JS.of_Z 600). split; [reflexivity|]. right. reflexivity.
Qed.

(** C7 (amended). On a body whose blood pressures and blood sugar, when
    present, are numbers other than 0: the v1.0.0 validator rejects
    exactly when a present systolic pressure lies outside [70,190], a
    present diastolic pressure outside [40,120] or a present blood sugar
    outside [30,500], with the reason of the first range violated in that
    order; the v1.1.0 validator rejects exactly on the two pressure
    ranges.  An absent field is never a cause. *)
Theorem C7_validateHealthMetrics_ranges (b : MetricsBody) :
  nonzero_if_present (mb_bloodPressureSystolic b) ->
  nonzero_if_present (mb_bloodPressureDiastolic b) ->
  nonzero_if_present (mb_bloodSugar b) ->
  let sys := present_outside (mb_bloodPressureSystolic b) 70 190 in
  let dia := present_outside (mb_bloodPressureDiastolic b) 40 120 in
  let sugar := present_outside (mb_bloodSugar b) 30 500 in
  (V1.validateHealthMetrics b <> None <-> sys \/ dia \/ sugar)
  /\ (sys -> V1.validateHealthMetrics b = Some "Invalid systolic blood pressure range")
  /\ (~ sys -> dia ->
      V1.validateHealthMetrics b = Some "Invalid diastolic blood pressure range")
  /\ (~ sys -> ~ dia -> sugar ->
      V1.validateHealthMetrics b = Some "Invalid blood sugar range")
  /\ (V2.validateHealthMetrics b <> None <-> sys \/ dia)
  /\ (sys -> V2.validateHealthMetrics b = Some "Invalid systolic blood pressure range")
  /\ (~ sys -> dia ->
      V2.validateHealthMetrics b = Some "Invalid diastolic blood pressure range").
Proof.
  intros Hs Hd Hg sys dia sugar.
  unfold V1.validateHealthMetrics, V2.validateHealthMetrics.
  destruct (present_and_outside (mb_bloodPressureSystolic b) 70 190) eqn:Es.
  { apply present_and_outside_sound in Es. fold sys in Es.
    repeat split; try tauto; try discriminate. }
  assert (Hns : ~ sys).
  { intros H. apply (present_and_outside_complete _ _ _ Hs) in H. congruence. }
  destruct (present_and_outside (mb_bloodPressureDiastolic b) 40 120) eqn:Ed.
  { apply present_and_outside_sound in Ed. fold dia in Ed.
    repeat split; try tauto; try discriminate. }
  assert (Hnd : ~ dia).
  { intros H. apply (present_and_outside_complete _ _ _ Hd) in H. congruence. }
  destruct (present_and_outside (mb_bloodSugar b) 30 500) eqn:Eg.
  { apply present_and_outside_sound in Eg. fold sugar in Eg.
    repeat split; try tauto; try discriminate. }
  assert (Hng : ~ sugar).
  { intros H. apply (present_and_outside_complete _ _ _ Hg) in H. congruence. }
  repeat split; try tauto; try congruence.
Qed.

(** A body with a systolic pressure of 200 and nothing else out of range
    is rejected for its systolic pressure by both validators. *)
Lemma C7_validateHealthMetrics_ranges_witness :
  V1.validateHealthMetrics (vitals None None (measured 200) (measured 80) None (measured 12))
  = Some "Invalid systolic blood pressure range".
Proof.
  pose (b := vitals None None (measured 200) (measured 80) None (measured 12)).
  assert (Hs : nonzero_if_present (mb_bloodPressureSystolic b)).
  { intros v E. injection E as <-. reflexivity. }
  assert (Hd : nonzero_if_present (mb_bloodPressureDiastolic b)).
  { intros v E. injection E as <-. reflexivity. }
  assert (Hg : nonzero_if_present (mb_bloodSugar b)).
  { intros v E. discriminate E. }
  destruct (C7_validateHealthMetrics_ranges b Hs Hd Hg) as (_ & Hsys & _).
  apply Hsys. exists (JS.of_Z 200). split; [reflexivity|]. right. reflexivity.
Defined.

Example validateHealthMetrics_boundaries :
  V1.validateHealthMetrics (vitals None None (measured 70) (measured 40) (measured 30) None) = None
  /\ V1.validateHealthMetrics (vitals None None (measured 190) (measured 120) (measured 500) None) = None
  /\ V1.validateHealthMetrics (vitals None None (measured 69) None None None)
     = Some "Invalid systolic blood pressure range"
  /\ V1.validateHealthMetrics (vitals None None (measured 191) None None None)
     = Some "Invalid systolic blood pressure range"
  /\ V1.validateHealthMetrics (vitals None None None (measured 39) None None)
     = Some "Invalid diastolic blood pressure range"
  /\ V1.validateHealthMetrics (vitals None None None None (measured 501) None)
     = Some "Invalid blood sugar range"
  /\ V1.validateHealthMetrics (vitals None None None None None None) = None.
Proof. repeat split. Qed.

(** ** C10: resolving an alert *)

(** C10. [resolveAlert] on an Open alert returns it Resolved, with
    [resolved = true] and [resolvedAt] set, and stores it under its key;
    on a Resolved alert it changes nothing; on an identifier that is not
    in the alert collection it returns NotFoundError. *)
Theorem C10_resolveAlert_lifecycle (now : Z) (id : string) (notes : option string)
    (st : State) :
  (forall a, alertStorage st !! id = Some a -> ha_resolved a = false ->
     exists r,
       resolveAlert now id notes st
       = (AlertResult r,
          {| maternalProfileStorage := maternalProfileStorage st;
             providerStorage := providerStorage st;
             metricsStorage := metricsStorage st;
             visitStorage := visitStorage st;
             alertStorage := <[id := r]> (alertStorage st);
             uuid_calls := uuid_calls st |})
       /\ ha_resolved r = true
       /\ ha_resolvedAt r = Some now
       /\ ha_resolvedAt r <> None
       /\ ha_resolutionNotes r = notes
       /\ ha_id r = ha_id a
       /\ ha_maternalProfileId r = ha_maternalProfileId a
       /\ ha_severity r = ha_severity a
       /\ ha_escalationLevel r = ha_escalationLevel a
       /\ (forall now' notes',
             resolveAlert now' id notes' (snd (resolveAlert now id notes st))
             = (AlertResult r, snd (resolveAlert now id notes st))))
  /\ (forall a, alertStorage st !! id = Some a -> ha_resolved a = true ->
        resolveAlert now id notes st = (AlertResult a, st))
  /\ (alertStorage st !! id = None -> resolveAlert now id notes st = (NotFoundError, st)).
Proof.
  split; [|split].
  - intros a Ha Hopen.
    assert (E : forall x y, exists r, resolveAlert x id y st
              = (AlertResult r,
                 {| maternalProfileStorage := maternalProfileStorage st;
                    providerStorage := providerStorage st;
                    metricsStorage := metricsStorage st;
                    visitStorage := visitStorage st;
                    alertStorage := <[id := r]> (alertStorage st);
                    uuid_calls := uuid_calls st |})
              /\ ha_resolved r = true /\ ha_resolvedAt r = Some x
              /\ ha_resolutionNotes r = y /\ ha_id r = ha_id a
              /\ ha_maternalProfileId r = ha_maternalProfileId a
              /\ ha_severity r = ha_severity a
              /\ ha_escalationLevel r = ha_escalationLevel a).
    { intros x y. unfold resolveAlert. rewrite Ha, Hopen.
      eexists. split; [reflexivity|]. simpl. repeat split. }
    destruct (E now notes) as (r & Er & Hr & Hat & Hn & Hid & Hp & Hs & He).
    exists r. rewrite Er. simpl.
    repeat split; try assumption; try congruence.
    intros now' notes'. unfold resolveAlert. simpl.
    rewrite lookup_insert_eq, Hr. reflexivity.
  - intros a Ha Hres. unfold resolveAlert. rewrite Ha, Hres. reflexivity.
  - intros Hnone. unfold resolveAlert. rewrite Hnone. reflexivity.
Qed.

(** A resolved alert cannot be resolved again: the second call leaves the
    first resolution in place. *)
Lemma C10_resolveAlert_lifecycle_witness :
  exists r,
    resolveAlert now0 "alert-1" (Some "reviewed, stable") stateWithAlert
    = (AlertResult r,
       {| maternalProfileStorage := maternalProfileStorage stateWithAlert;
          providerStorage := providerStorage stateWithAlert;
          metricsStorage := metricsStorage stateWithAlert;
          visitStorage := visitStorage stateWithAlert;
          alertStorage := <[ "alert-1" := r ]> (alertStorage stateWithAlert);
          uuid_calls := uuid_calls stateWithAlert |})
    /\ ha_resolved r = true
    /\ ha_resolvedAt r = Some now0
    /\ ha_resolutionNotes r = Some "reviewed, stable".
Proof.
  destruct (C10_resolveAlert_lifecycle now0 "alert-1" (Some "reviewed, stable") stateWithAlert)
    as [Hopen _].
  destruct (Hopen openAlert) as (r & E & Hr & Hat & _ & Hn & _); [reflexivity | reflexivity |].
  exists r. repeat split; assumption.
Defined.

(** ** Doubles of the time layer *)

(** Rounding an integer, or the product of two integers, to a double
    keeps it an integer, and keeps it under a bound that is a double; the
    quotient by [1_000_000] of a time in the range of dates is in the
    range of dates.  So [BigInt] does not throw on a valid due date, and
    [toISOString] does not throw on what the handlers store. *)

(** The number of binary digits of a mantissa. *)
Lemma digits2_pos_spec (m : positive) :
  2 ^ (Zpos (digits2_pos m) - 1) <= Zpos m < 2 ^ Zpos (digits2_pos m).
Proof.
  induction m as [m IH|m IH|]; simpl digits2_pos.
  - rewrite Pos2Z.inj_succ. replace (Z.succ (Zpos (digits2_pos m)) - 1) with (Z.succ (Zpos (digits2_pos m) - 1)) by lia.
    rewrite !Z.pow_succ_r by lia. lia.
  - rewrite Pos2Z.inj_succ. replace (Z.succ (Zpos (digits2_pos m)) - 1) with (Z.succ (Zpos (digits2_pos m) - 1)) by lia.
    rewrite !Z.pow_succ_r by lia. lia.
  - simpl. lia.
Qed.

Lemma digits2_pos_unique (m : positive) (d : Z) :
  2 ^ (d - 1) <= Zpos m < 2 ^ d -> Zpos (digits2_pos m) = d.
Proof.
  intros [Hlo Hhi]. destruct (digits2_pos_spec m) as [Glo Ghi].
  assert (0 < d). { destruct (Z.le_gt_cases d 0) as [Hd|Hd]; [|lia].
    assert (2 ^ d <= 2 ^ 0) by (apply Z.pow_le_mono_r; lia). simpl in *. lia. }
  destruct (Z.lt_trichotomy (Zpos (digits2_pos m)) d) as [Hlt|[Heq|Hgt]]; [|exact Heq|].
  - assert (2 ^ Zpos (digits2_pos m) <= 2 ^ (d - 1)) by (apply Z.pow_le_mono_r; lia). lia.
  - assert (2 ^ d <= 2 ^ (Zpos (digits2_pos m) - 1)) by (apply Z.pow_le_mono_r; lia). lia.
Qed.

(** Shifting a mantissa right, as the rounding does. *)
Lemma shr_1_m (r : shr_record) : 0 <= shr_m r -> shr_m (shr_1 r) = shr_m r / 2 /\ 0 <= shr_m (shr_1 r).
Proof.
  destruct r as [m r s]. cbn [shr_m]. intros Hm.
  destruct m as [|[p|p|]|p]; cbn [shr_1 shr_m]; try lia.
  - split; [reflexivity | lia].
  - split; [|lia]. apply Z.div_unique with 1; lia.
  - split; [|lia]. apply Z.div_unique with 0; lia.
  - split; [reflexivity| lia].
Qed.

Lemma div_pow2_twice (m a b : Z) : 0 <= a -> 0 <= b ->
  m / 2 ^ a / 2 ^ b = m / 2 ^ (a + b).
Proof.
  intros Ha Hb.
  assert (0 < 2 ^ a) by (apply Z.pow_pos_nonneg; lia).
  assert (0 < 2 ^ b) by (apply Z.pow_pos_nonneg; lia).
  rewrite Z.div_div by lia. rewrite Z.pow_add_r by lia. reflexivity.
Qed.

Lemma iter_shr_1_m (p : positive) : forall r, 0 <= shr_m r ->
  shr_m (SpecFloat.iter_pos shr_1 p r) = shr_m r / 2 ^ Zpos p /\ 0 <= shr_m (SpecFloat.iter_pos shr_1 p r).
Proof.
  induction p as [p IH|p IH|]; intros r Hr; cbn [SpecFloat.iter_pos].
  - destruct (shr_1_m r Hr) as [E1 P1].
    destruct (IH _ P1) as [E2 P2]. destruct (IH _ P2) as [E3 P3].
    split; [|exact P3]. rewrite E3, E2, E1.
    change 2 with (2 ^ 1) at 1. rewrite !div_pow2_twice by lia.
    f_equal. f_equal. lia.
  - destruct (IH _ Hr) as [E2 P2]. destruct (IH _ P2) as [E3 P3].
    split; [|exact P3]. rewrite E3, E2.
    rewrite !div_pow2_twice by lia. f_equal. f_equal. lia.
  - destruct (shr_1_m r Hr) as [E1 P1]. split; [|exact P1]. rewrite E1. reflexivity.
Qed.

Lemma shr_1_exact (m : Z) : 0 <= m -> m mod 2 = 0 ->
  shr_1 (Build_shr_record m false false) = Build_shr_record (m / 2) false false.
Proof.
  intros Hm Hev. destruct m as [|[p|p|]|p]; cbn [shr_1 orb]; try lia.
  - reflexivity.
  - exfalso. rewrite Pos2Z.inj_xI in Hev. rewrite Z.add_comm, Z.mul_comm, Z.mod_add in Hev by lia.
    discriminate Hev.
  - f_equal. apply Z.div_unique with 0; lia.
  - discriminate Hev.
Qed.

Lemma mod_pow_split (m a b : Z) : 0 <= a -> 0 <= b -> m mod 2 ^ (a + b) = 0 ->
  m mod 2 ^ a = 0 /\ (m / 2 ^ a) mod 2 ^ b = 0.
Proof.
  intros Ha Hb Hm. rewrite Z.pow_add_r in Hm by lia.
  assert (0 < 2 ^ a) by (apply Z.pow_pos_nonneg; lia).
  assert (0 < 2 ^ b) by (apply Z.pow_pos_nonneg; lia).
  apply Z.mod_divide in Hm; [|lia]. destruct Hm as [k Hk]. subst m.
  split.
  - replace (k * (2 ^ a * 2 ^ b)) with (k * 2 ^ b * 2 ^ a) by lia. apply Z.mod_mul. lia.
  - replace (k * (2 ^ a * 2 ^ b)) with (k * 2 ^ b * 2 ^ a) by lia. rewrite Z.div_mul by lia.
    apply Z.mod_mul. lia.
Qed.

Lemma iter_shr_1_exact (p : positive) : forall m, 0 <= m -> m mod 2 ^ Zpos p = 0 ->
  SpecFloat.iter_pos shr_1 p (Build_shr_record m false false)
  = Build_shr_record (m / 2 ^ Zpos p) false false.
Proof.
  induction p as [p IH|p IH|]; intros m Hm Hdiv; cbn [SpecFloat.iter_pos].
  - replace (Zpos p~1) with (1 + (Zpos p + Zpos p)) in * by lia.
    destruct (mod_pow_split m 1 (Zpos p + Zpos p) ltac:(lia) ltac:(lia) Hdiv) as [D1 D2].
    change (2 ^ 1) with 2 in D1, D2. rewrite shr_1_exact by assumption.
    destruct (mod_pow_split (m / 2) (Zpos p) (Zpos p) ltac:(lia) ltac:(lia) D2) as [D3 D4].
    assert (0 <= m / 2) by (apply Z.div_pos; lia).
    rewrite IH by assumption.
    assert (0 <= m / 2 / 2 ^ Zpos p) by (apply Z.div_pos; [lia| apply Z.pow_pos_nonneg; lia]).
    rewrite IH by assumption. f_equal.
    change (m / 2) with (m / 2 ^ 1). rewrite !div_pow2_twice by lia. reflexivity.
  - replace (Zpos p~0) with (Zpos p + Zpos p) in * by lia.
    destruct (mod_pow_split m (Zpos p) (Zpos p) ltac:(lia) ltac:(lia) Hdiv) as [D3 D4].
    rewrite IH by assumption.
    assert (0 <= m / 2 ^ Zpos p) by (apply Z.div_pos; [lia| apply Z.pow_pos_nonneg; lia]).
    rewrite IH by assumption. f_equal.
    rewrite !div_pow2_twice by lia. reflexivity.
  - apply shr_1_exact; assumption.
Qed.

Lemma round_nearest_even_bounds (m : Z) (l : location) :
  m <= round_nearest_even m l <= m + 1.
Proof.
  destruct l as [|[| |]]; cbn [round_nearest_even]; try lia.
  destruct (Z.even m); lia.
Qed.

Lemma fexp_normal (z : Z) : -1000 <= z -> fexp 53 1024 z = z - 53.
Proof. intros Hz. unfold fexp, emin. lia. Qed.

Lemma shr_none (r : shr_record) (e n : Z) : n <= 0 -> shr r e n = (r, e).
Proof. intros Hn. unfold shr. destruct n; try reflexivity. lia. Qed.

Lemma round_aux_integral (s : bool) (p : positive) (ex : Z) :
  (0 <= ex \/ Zpos p mod 2 ^ (- ex) = 0) ->
  -900 <= ex <= 400 -> Zpos (digits2_pos p) <= 400 ->
  exists m e, binary_round_aux 53 1024 s (Zpos p) ex loc_Exact = S754_finite s m e
    /\ (0 <= e \/ Zpos m mod 2 ^ (- e) = 0)
    /\ Zpos (digits2_pos m) <= 53
    /\ ex <= e <= Z.max ex (Zpos (digits2_pos p) + ex - 53) + 1.
Proof.
  intros Hint Hex Hd.
  pose proof (digits2_pos_spec p) as Hspec.
  set (d := Zpos (digits2_pos p)) in *.
  assert (Hd1 : 1 <= d) by (unfold d; lia).
  unfold binary_round_aux.
  assert (F1 : shr_fexp 53 1024 (Zpos p) ex loc_Exact
               = shr (Build_shr_record (Zpos p) false false) ex (d - 53)).
  { unfold shr_fexp. cbn [Zdigits2 shr_record_of_loc]. fold d.
    rewrite fexp_normal by lia. f_equal. lia. }
  rewrite F1.
  destruct (Z_le_gt_dec (d - 53) 0) as [Hn|Hn].
  - rewrite shr_none by exact Hn.
    cbn [loc_of_shr_record shr_m round_nearest_even].
    rewrite F1, shr_none by exact Hn. cbn [shr_m].
    replace (ex <=? 1024 - 53) with true by lia.
    exists p, ex. split; [reflexivity|]. split; [exact Hint|]. fold d. lia.
  - destruct (d - 53) as [|q|q] eqn:Eq; try lia.
    cbn [shr].
    set (r1 := SpecFloat.iter_pos shr_1 q (Build_shr_record (Zpos p) false false)).
    destruct (iter_shr_1_m q (Build_shr_record (Zpos p) false false)) as [M1 P1]; [cbn; lia|].
    fold r1 in M1, P1. cbn [shr_m] in M1.
    assert (Hq : Zpos q = d - 53) by lia.
    assert (Hpow : 2 ^ (d - 1) = 2 ^ 52 * 2 ^ Zpos q).
    { rewrite <- Z.pow_add_r by lia. f_equal. lia. }
    assert (Hpow' : 2 ^ d = 2 ^ 53 * 2 ^ Zpos q).
    { rewrite <- Z.pow_add_r by lia. f_equal. lia. }
    assert (Hq0 : 0 < 2 ^ Zpos q) by (apply Z.pow_pos_nonneg; lia).
    assert (B1 : 2 ^ 52 <= shr_m r1 < 2 ^ 53).
    { rewrite M1. split.
      - apply Z.div_le_lower_bound; lia.
      - apply Z.div_lt_upper_bound; lia. }
    destruct (Z_lt_le_dec (ex + Zpos q) 0) as [Hneg|Hpos].
    + (* exact shift *)
      destruct Hint as [Hint|Hint]; [lia|].
      destruct (mod_pow_split (Zpos p) (Zpos q) (- (ex + Zpos q)) ltac:(lia) ltac:(lia))
        as [D1 D2].
      { replace (Zpos q + - (ex + Zpos q)) with (- ex) by lia. exact Hint. }
      assert (R1 : r1 = Build_shr_record (Zpos p / 2 ^ Zpos q) false false).
      { unfold r1. apply iter_shr_1_exact; [lia | exact D1]. }
      rewrite R1 in *. cbn [shr_m] in *.
      cbn [loc_of_shr_record round_nearest_even].
      destruct (Zpos p / 2 ^ Zpos q) as [|m1|m1] eqn:Em1; try (change (2 ^ 52) with 4503599627370496 in B1; lia).
      assert (Dm1 : Zpos (digits2_pos m1) = 53).
      { apply digits2_pos_unique. exact B1. }
      assert (F2 : shr_fexp 53 1024 (Zpos m1) (ex + Zpos q) loc_Exact
                   = (Build_shr_record (Zpos m1) false false, ex + Zpos q)).
      { unfold shr_fexp. cbn [Zdigits2 shr_record_of_loc]. rewrite Dm1.
        rewrite fexp_normal by lia. apply shr_none. lia. }
      rewrite F2. cbn [shr_m].
      replace (ex + Zpos q <=? 1024 - 53) with true by lia.
      exists m1, (ex + Zpos q). split; [reflexivity|].
      split; [right; exact D2|]. split; [lia|]. fold d. lia.
    + (* nonnegative exponent *)
      pose proof (round_nearest_even_bounds (shr_m r1) (loc_of_shr_record r1)) as B2.
      set (z2 := round_nearest_even (shr_m r1) (loc_of_shr_record r1)) in *.
      destruct z2 as [|m2|m2] eqn:Em2; try (change (2 ^ 52) with 4503599627370496 in B1; lia).
      destruct (Z_lt_le_dec (Zpos m2) (2 ^ 53)) as [Hlt|Hge].
      * assert (Dm2 : Zpos (digits2_pos m2) = 53).
        { apply digits2_pos_unique. change (53 - 1) with 52. lia. }
        assert (F2 : shr_fexp 53 1024 (Zpos m2) (ex + Zpos q) loc_Exact
                     = (Build_shr_record (Zpos m2) false false, ex + Zpos q)).
        { unfold shr_fexp. cbn [Zdigits2 shr_record_of_loc]. rewrite Dm2.
          rewrite fexp_normal by lia. apply shr_none. lia. }
        rewrite F2. cbn [shr_m].
        replace (ex + Zpos q <=? 1024 - 53) with true by lia.
        exists m2, (ex + Zpos q). split; [reflexivity|].
        split; [left; lia|]. split; [lia|]. fold d. lia.
      * assert (Hm2 : Zpos m2 = 2 ^ 53) by lia.
        assert (Dm2 : Zpos (digits2_pos m2) = 54).
        { apply digits2_pos_unique. rewrite Hm2. change (54 - 1) with 53.
          change (2 ^ 53) with 9007199254740992. change (2 ^ 54) with 18014398509481984. lia. }
        assert (F2 : shr_fexp 53 1024 (Zpos m2) (ex + Zpos q) loc_Exact
                     = (Build_shr_record (2 ^ 52) false false, ex + Zpos q + 1)).
        { unfold shr_fexp. cbn [Zdigits2 shr_record_of_loc]. rewrite Dm2.
          rewrite fexp_normal by lia.
          replace (54 + (ex + Zpos q) - 53 - (ex + Zpos q)) with 1 by lia.
          cbn [shr SpecFloat.iter_pos]. rewrite Hm2. reflexivity. }
        rewrite F2. cbn [shr_m]. change (2 ^ 52) with (Zpos 4503599627370496).
        cbn iota.
        replace (ex + Zpos q + 1 <=? 1024 - 53) with true by lia.
        exists 4503599627370496%positive, (ex + Zpos q + 1). split; [reflexivity|].
        split; [left; lia|]. split; [vm_compute; discriminate|]. fold d. lia.
Qed.

Lemma digits2_pos_le (m : positive) (k : Z) : 0 <= k -> Zpos m < 2 ^ k -> Zpos (digits2_pos m) <= k.
Proof.
  intros Hk Hm. destruct (digits2_pos_spec m) as [Hlo _].
  destruct (Z_le_gt_dec (Zpos (digits2_pos m)) k) as [H|H]; [exact H|].
  assert (2 ^ k <= 2 ^ (Zpos (digits2_pos m) - 1)) by (apply Z.pow_le_mono_r; lia). lia.
Qed.

Lemma BigInt_of_integral (s : bool) (m : positive) (e : Z) :
  (0 <= e \/ Zpos m mod 2 ^ (- e) = 0) -> is_Some (JS.BigInt_of_number (S754_finite s m e)).
Proof.
  intros Hint. unfold JS.BigInt_of_number.
  destruct e as [|q|q]; try (eexists; reflexivity).
  destruct Hint as [Hint|Hint]; [lia|].
  rewrite Z.land_ones by lia. change (- Z.neg q) with (Zpos q) in Hint.
  rewrite Hint. eexists; reflexivity.
Qed.

Lemma Number_of_bigint_integral (tv : Z) :
  tv <> 0 -> Z.abs tv < 2 ^ 53 ->
  exists s m e, JS.Number_of_bigint tv = S754_finite s m e
    /\ (0 <= e \/ Zpos m mod 2 ^ (- e) = 0)
    /\ Zpos (digits2_pos m) <= 53
    /\ -52 <= e <= 1.
Proof.
  intros Hnz Habs.
  assert (G : forall (s : bool) (p : positive), Zpos p < 2 ^ 53 ->
    exists m e, binary_round 53 1024 s p 0 = S754_finite s m e
      /\ (0 <= e \/ Zpos m mod 2 ^ (- e) = 0)
      /\ Zpos (digits2_pos m) <= 53 /\ -52 <= e <= 1).
  { intros s p Hp. unfold binary_round.
    pose proof (digits2_pos_spec p) as Hspec.
    pose proof (digits2_pos_le p 53 ltac:(lia) Hp) as Hd.
    set (d := Zpos (digits2_pos p)) in *.
    assert (Hd1 : 1 <= d) by (unfold d; lia).
    rewrite Z.add_0_r, fexp_normal by lia.
    unfold shl_align. rewrite Z.sub_0_r.
    destruct (d - 53) as [|k|k] eqn:Ek; try lia.
    - destruct (round_aux_integral s p 0) as (m & e & E & Hint & Hdm & He); [left; lia | lia | fold d; lia |].
      exists m, e. fold d in He. repeat split; try assumption; lia.
    - change (Pos.iter xO p k) with (shift_pos k p).
      pose proof (shift_pos_correct k p) as Hsh. rewrite Z.pow_pos_fold in Hsh.
      assert (Hk0 : 0 < 2 ^ Zpos k) by (apply Z.pow_pos_nonneg; lia).
      assert (Dz : Zpos (digits2_pos (shift_pos k p)) = 53).
      { apply digits2_pos_unique. rewrite Hsh.
        replace (2 ^ (53 - 1)) with (2 ^ Zpos k * 2 ^ (d - 1)).
        2:{ rewrite <- Z.pow_add_r by lia. f_equal. lia. }
        replace (2 ^ 53) with (2 ^ Zpos k * 2 ^ d).
        2:{ rewrite <- Z.pow_add_r by lia. f_equal. lia. }
        split; [apply Z.mul_le_mono_nonneg_l; lia | apply Z.mul_lt_mono_pos_l; lia]. }
      destruct (round_aux_integral s (shift_pos k p) (Z.neg k)) as (m & e & E & Hint & Hdm & He).
      + right. change (- Z.neg k) with (Zpos k). rewrite Hsh, Z.mul_comm. apply Z.mod_mul. lia.
      + lia.
      + lia.
      + exists m, e. rewrite Dz in He. repeat split; try assumption; lia. }
  unfold JS.Number_of_bigint, JS.prec, JS.emax, binary_normalize.
  destruct tv as [|p|p]; [congruence | |].
  - destruct (G false p) as (m & e & E); [lia|]. exists false, m, e. exact E.
  - destruct (G true p) as (m & e & E); [lia|]. exists true, m, e. exact E.
Qed.

Lemma million_eq : million = S754_finite false 8589934592000000 (-33).
Proof. vm_compute. reflexivity. Qed.

Lemma mul_million_integral (tv : Z) :
  Z.abs tv < 2 ^ 53 ->
  is_Some (JS.BigInt_of_number (JS.mul (JS.Number_of_bigint tv) million)).
Proof.
  intros Habs. destruct (Z.eq_dec tv 0) as [->|Hnz].
  { vm_compute. eexists; reflexivity. }
  destruct (Number_of_bigint_integral tv Hnz Habs) as (s & m & e & E & Hint & Hd & He).
  rewrite E, million_eq. unfold JS.mul, JS.prec, JS.emax. cbn [SFmul].
  pose proof (digits2_pos_spec m) as Hm.
  assert (Hm53 : Zpos m < 2 ^ 53).
  { destruct Hm as [_ Hm]. eapply Z.lt_le_trans; [exact Hm|]. apply Z.pow_le_mono_r; lia. }
  destruct (round_aux_integral (xorb s false) (m * 8589934592000000) (e + -33))
    as (m' & e' & E' & Hint' & _ & _).
  - right. replace (- (e + -33)) with (33 + - e) by lia.
    rewrite Pos2Z.inj_mul.
    destruct Hint as [Hpos|Hdiv].
    + assert (e = 0 \/ e = 1) as [->| ->] by lia.
      * change (33 + - 0) with 33. change (Zpos 8589934592000000) with (1000000 * 2 ^ 33).
        rewrite Z.mul_assoc. apply Z.mod_mul. lia.
      * change (33 + - 1) with 32. change (Zpos 8589934592000000) with (2000000 * 2 ^ 32).
        rewrite Z.mul_assoc. apply Z.mod_mul. lia.
    + destruct (Z_le_gt_dec 0 e) as [Hge|Hlt].
      * assert (e = 0 \/ e = 1) as [->| ->] by lia.
        -- change (33 + - 0) with 33. change (Zpos 8589934592000000) with (1000000 * 2 ^ 33).
           rewrite Z.mul_assoc. apply Z.mod_mul. lia.
        -- change (33 + - 1) with 32. change (Zpos 8589934592000000) with (2000000 * 2 ^ 32).
           rewrite Z.mul_assoc. apply Z.mod_mul. lia.
      * assert (P0 : 0 < 2 ^ (- e)) by (apply Z.pow_pos_nonneg; lia).
        apply Z.mod_divide in Hdiv; [|lia]. destruct Hdiv as [k Hk]. rewrite Hk.
        change (Zpos 8589934592000000) with (1000000 * 2 ^ 33).
        rewrite Z.pow_add_r by lia.
        replace (k * 2 ^ (- e) * (1000000 * 2 ^ 33)) with (k * 1000000 * (2 ^ 33 * 2 ^ (- e))) by ring.
        apply Z.mod_mul. lia.
  - lia.
  - apply Z.le_trans with 106; [|lia]. apply digits2_pos_le; [lia|].
    rewrite Pos2Z.inj_mul. change (2 ^ 106) with (2 ^ 53 * 2 ^ 53).
    apply Z.mul_lt_mono_nonneg; lia.
  - rewrite E'. apply BigInt_of_integral. exact Hint'.
Qed.

Lemma dueDateNanos_total (H : Host) (body : ProfileBody) (tv : Z) :
  new_Date H (pb_dueDate body) = Some tv ->
  is_Some (V1.dueDateNanos H body).
Proof.
  intros Hd. unfold V1.dueDateNanos. rewrite Hd. cbn [getTime].
  apply mul_million_integral.
  unfold new_Date in Hd. destruct (pb_dueDate body) as [str|]; [|discriminate].
  destruct (Date_parse H str) as [t|]; [|discriminate].
  destruct (Z.abs t <=? JS.maxTime) eqn:E; [|discriminate].
  injection Hd as <-. apply Z.leb_le in E. unfold JS.maxTime in E.
  change (2 ^ 53) with 9007199254740992. lia.
Qed.

Lemma shr_fst (r : shr_record) (e n : Z) : fst (shr r e n) = fst (shr r 0 n).
Proof. unfold shr. destruct n; reflexivity. Qed.

Lemma shr_snd (r : shr_record) (e n : Z) : 0 <= n -> snd (shr r e n) = e + n.
Proof. unfold shr. destruct n; cbn; lia. Qed.

Lemma shifted_m (k : Z) (l : location) (n : Z) :
  0 <= k -> 0 <= n -> shr_m (shifted k l n) = k / 2 ^ n.
Proof.
  intros Hk Hn. unfold shifted, shr. destruct n as [|q|q]; try lia.
  - cbn [fst]. destruct l as [|[| |]]; cbn; rewrite Z.div_1_r; reflexivity.
  - cbn [fst].
    assert (E : shr_m (shr_record_of_loc k l) = k) by (destruct l as [|[| |]]; reflexivity).
    destruct (iter_shr_1_m q (shr_record_of_loc k l)) as [M _]; [rewrite E; exact Hk|].
    rewrite M, E. reflexivity.
Qed.

Lemma shifted_exact (k n : Z) :
  0 <= k -> 0 <= n -> k mod 2 ^ n = 0 ->
  loc_of_shr_record (shifted k loc_Exact n) = loc_Exact.
Proof.
  intros Hk Hn Hdiv. unfold shifted, shr. destruct n as [|q|q]; try lia.
  - reflexivity.
  - cbn [fst shr_record_of_loc]. rewrite iter_shr_1_exact by assumption. reflexivity.
Qed.

Lemma round_aux_shape (s : bool) (p : positive) (ex : Z) (lx : location) :
  let d := Zpos (digits2_pos p) in
  53 <= d -> -900 <= ex -> d + ex <= 900 ->
  let n := d - 53 in
  let r1 := shifted (Zpos p) lx n in
  let z := round_nearest_even (shr_m r1) (loc_of_shr_record r1) in
  2 ^ 52 <= shr_m r1 < 2 ^ 53
  /\ binary_round_aux 53 1024 s (Zpos p) ex lx
     = if z <? 2 ^ 53 then S754_finite s (Z.to_pos z) (ex + n)
       else S754_finite s 4503599627370496 (ex + n + 1).
Proof.
  intros d Hd Hex Hde n r1 z.
  pose proof (digits2_pos_spec p) as Hspec. fold d in Hspec.
  assert (Hn : 0 <= n) by (unfold n; lia).
  assert (M1 : shr_m r1 = Zpos p / 2 ^ n) by (apply shifted_m; lia).
  assert (Hq0 : 0 < 2 ^ n) by (apply Z.pow_pos_nonneg; lia).
  assert (Hpow : 2 ^ (d - 1) = 2 ^ 52 * 2 ^ n).
  { rewrite <- Z.pow_add_r by lia. f_equal. unfold n. lia. }
  assert (Hpow' : 2 ^ d = 2 ^ 53 * 2 ^ n).
  { rewrite <- Z.pow_add_r by lia. f_equal. unfold n. lia. }
  assert (B1 : 2 ^ 52 <= shr_m r1 < 2 ^ 53).
  { rewrite M1. split.
    - apply Z.div_le_lower_bound; lia.
    - apply Z.div_lt_upper_bound; lia. }
  split; [exact B1|].
  unfold binary_round_aux.
  assert (F1 : shr_fexp 53 1024 (Zpos p) ex lx = (r1, ex + n)).
  { unfold shr_fexp. cbn [Zdigits2]. fold d.
    rewrite fexp_normal by lia.
    replace (d + ex - 53 - ex) with n by (unfold n; lia).
    rewrite (surjective_pairing (shr _ ex n)). rewrite shr_fst, shr_snd by lia.
    reflexivity. }
  rewrite F1.
  pose proof (round_nearest_even_bounds (shr_m r1) (loc_of_shr_record r1)) as B2.
  fold z in B2 |- *.
  change (2 ^ 52) with 4503599627370496 in B1.
  change (2 ^ 53) with 9007199254740992 in *.
  destruct z as [|m2|m2] eqn:Em2; try lia.
  destruct (Z.ltb_spec (Zpos m2) 9007199254740992) as [Hlt|Hge].
  - assert (Dm2 : Zpos (digits2_pos m2) = 53).
    { apply digits2_pos_unique. change (2 ^ (53 - 1)) with 4503599627370496.
      change (2 ^ 53) with 9007199254740992. lia. }
    assert (F2 : shr_fexp 53 1024 (Zpos m2) (ex + n) loc_Exact
                 = (Build_shr_record (Zpos m2) false false, ex + n)).
    { unfold shr_fexp. cbn [Zdigits2 shr_record_of_loc]. rewrite Dm2.
      rewrite fexp_normal by lia. apply shr_none. lia. }
    rewrite F2. cbn [shr_m].
    replace (ex + n <=? 1024 - 53) with true by lia. reflexivity.
  - assert (Hm2 : Zpos m2 = 9007199254740992) by lia.
    assert (Dm2 : Zpos (digits2_pos m2) = 54).
    { apply digits2_pos_unique. rewrite Hm2. change (2 ^ (54 - 1)) with 9007199254740992.
      change (2 ^ 54) with 18014398509481984. lia. }
    assert (F2 : shr_fexp 53 1024 (Zpos m2) (ex + n) loc_Exact
                 = (Build_shr_record 4503599627370496 false false, ex + n + 1)).
    { unfold shr_fexp. cbn [Zdigits2 shr_record_of_loc]. rewrite Dm2.
      rewrite fexp_normal by lia.
      replace (54 + (ex + n) - 53 - (ex + n)) with 1 by lia.
      cbn [shr SpecFloat.iter_pos]. rewrite Hm2. reflexivity. }
    rewrite F2. cbn [shr_m].
    replace (ex + n + 1 <=? 1024 - 53) with true by lia. reflexivity.
Qed.

Lemma round_aux_le (s : bool) (p : positive) (ex : Z) (lx : location) (Kb Eb : Z) :
  let d := Zpos (digits2_pos p) in
  53 <= d -> -900 <= ex -> d + ex <= 900 ->
  let n := d - 53 in
  2 ^ 52 <= Kb < 2 ^ 53 ->
  ex + n <= Eb ->
  (ex + n = Eb ->
   Zpos p / 2 ^ n <= Kb
   /\ (Zpos p / 2 ^ n = Kb -> loc_of_shr_record (shifted (Zpos p) lx n) = loc_Exact)) ->
  exists m e,
    binary_round_aux 53 1024 s (Zpos p) ex lx = S754_finite s m e
    /\ 2 ^ 52 <= Zpos m < 2 ^ 53
    /\ ex + n <= e
    /\ (e < Eb \/ (e = Eb /\ Zpos m <= Kb)).
Proof.
  intros d Hd Hex Hde n HK H1 H2.
  destruct (round_aux_shape s p ex lx Hd Hex Hde) as [B1 E]. fold d n in B1, E.
  rewrite E. clear E.
  assert (Hn : 0 <= n) by (unfold n; lia).
  assert (M1 : shr_m (shifted (Zpos p) lx n) = Zpos p / 2 ^ n) by (apply shifted_m; lia).
  pose proof (round_nearest_even_bounds (shr_m (shifted (Zpos p) lx n))
                (loc_of_shr_record (shifted (Zpos p) lx n))) as B2.
  set (z := round_nearest_even _ _) in *.
  change (2 ^ 52) with 4503599627370496 in *.
  change (2 ^ 53) with 9007199254740992 in *.
  assert (Hexact : ex + n = Eb -> z <= Kb).
  { intros He. destruct (H2 He) as [Hle Heq].
    destruct (Z.eq_dec (Zpos p / 2 ^ n) Kb) as [Hk|Hk].
    - unfold z. rewrite (Heq Hk). cbn [round_nearest_even]. lia.
    - lia. }
  destruct (Z.ltb_spec z 9007199254740992) as [Hlt|Hge].
  - exists (Z.to_pos z), (ex + n). split; [reflexivity|].
    rewrite Z2Pos.id by lia. split; [lia|]. split; [lia|].
    destruct (Z.eq_dec (ex + n) Eb) as [He|He]; [right; split; [exact He | apply Hexact; exact He] | left; lia].
  - exists 4503599627370496%positive, (ex + n + 1). split; [reflexivity|].
    split; [lia|]. split; [lia|].
    destruct (Z.eq_dec (ex + n) Eb) as [He|He].
    + specialize (Hexact He). lia.
    + destruct (Z.eq_dec (ex + n + 1) Eb); [right; lia | left; lia].
Qed.

Lemma pow2_lt_inv (a b : Z) : 0 <= a -> 0 <= b -> 2 ^ a < 2 ^ b -> a < b.
Proof. intros Ha Hb H. apply (Z.pow_lt_mono_r_iff 2); lia. Qed.

Lemma binary_round_le (s : bool) (p0 : positive) (Kb Eb : Z) :
  0 <= Eb <= 800 -> 2 ^ 52 <= Kb < 2 ^ 53 -> Zpos p0 <= Kb * 2 ^ Eb ->
  exists m e,
    binary_round 53 1024 s p0 0 = S754_finite s m e
    /\ 2 ^ 52 <= Zpos m < 2 ^ 53
    /\ -52 <= e
    /\ (e < Eb \/ (e = Eb /\ Zpos m <= Kb)).
Proof.
  intros HEb HK Hle. unfold binary_round.
  pose proof (digits2_pos_spec p0) as Hspec.
  set (d0 := Zpos (digits2_pos p0)) in *.
  assert (Hd1 : 1 <= d0) by (unfold d0; lia).
  assert (HE0 : 0 < 2 ^ Eb) by (apply Z.pow_pos_nonneg; lia).
  assert (Hd0 : d0 - 53 <= Eb).
  { assert (2 ^ (d0 - 1) < 2 ^ (53 + Eb)).
    { rewrite (Z.pow_add_r 2 53 Eb) by lia.
      apply Z.le_lt_trans with (Kb * 2 ^ Eb); [lia|].
      apply Z.mul_lt_mono_pos_r; lia. }
    apply pow2_lt_inv in H; lia. }
  rewrite Z.add_0_r, fexp_normal by lia.
  unfold shl_align. rewrite Z.sub_0_r.
  destruct (d0 - 53) as [|k|k] eqn:Ek.
  - (* d0 = 53 *)
    destruct (round_aux_le s p0 0 loc_Exact Kb Eb) as (m & e & E & Bm & He & Hb).
    + fold d0. lia.
    + lia.
    + fold d0. lia.
    + exact HK.
    + fold d0. lia.
    + fold d0. intros He. replace (d0 - 53) with 0 by lia. rewrite Z.div_1_r.
      assert (HEq : Eb = 0) by lia. clear He. subst Eb. rewrite Z.pow_0_r, Z.mul_1_r in Hle.
      split; [exact Hle|]. intros _. reflexivity.
    + exists m, e. fold d0 in He. repeat split; try tauto; lia.
  - (* d0 > 53 *)
    assert (Hk0 : 0 < 2 ^ Zpos k) by (apply Z.pow_pos_nonneg; lia).
    destruct (round_aux_le s p0 0 loc_Exact Kb Eb) as (m & e & E & Bm & He & Hb).
    + fold d0. lia.
    + lia.
    + fold d0. lia.
    + exact HK.
    + fold d0. lia.
    + fold d0. rewrite Ek. intros He. assert (HEq : Eb = Zpos k) by lia. clear He. subst Eb.
      split.
      * apply Z.div_le_upper_bound; lia.
      * intros Heq. apply shifted_exact; try lia.
        pose proof (Z.mul_div_le (Zpos p0) (2 ^ Zpos k) Hk0) as Hm.
        rewrite Heq in Hm.
        assert (Zpos p0 = Kb * 2 ^ Zpos k) as -> by lia.
        apply Z.mod_mul. lia.
    + exists m, e. fold d0 in He. repeat split; try tauto; lia.
  - (* d0 < 53: the mantissa is aligned to 53 digits *)
    change (Pos.iter xO p0 k) with (shift_pos k p0).
    pose proof (shift_pos_correct k p0) as Hsh. rewrite Z.pow_pos_fold in Hsh.
    assert (Hk0 : 0 < 2 ^ Zpos k) by (apply Z.pow_pos_nonneg; lia).
    assert (Dz : Zpos (digits2_pos (shift_pos k p0)) = 53).
    { apply digits2_pos_unique. rewrite Hsh.
      replace (2 ^ (53 - 1)) with (2 ^ Zpos k * 2 ^ (d0 - 1)).
      2:{ rewrite <- Z.pow_add_r by lia. f_equal. lia. }
      replace (2 ^ 53) with (2 ^ Zpos k * 2 ^ d0).
      2:{ rewrite <- Z.pow_add_r by lia. f_equal. lia. }
      split; [apply Z.mul_le_mono_nonneg_l; lia | apply Z.mul_lt_mono_pos_l; lia]. }
    destruct (round_aux_le s (shift_pos k p0) (Z.neg k) loc_Exact Kb Eb)
      as (m & e & E & Bm & He & Hb).
    + rewrite Dz. lia.
    + lia.
    + rewrite Dz. lia.
    + exact HK.
    + rewrite Dz. lia.
    + rewrite Dz. intros He. lia.
    + exists m, e. rewrite Dz in He. repeat split; try tauto; lia.
Qed.

Lemma Number_of_bigint_le (t Kb Eb : Z) :
  t <> 0 -> 0 <= Eb <= 800 -> 2 ^ 52 <= Kb < 2 ^ 53 -> Z.abs t <= Kb * 2 ^ Eb ->
  exists s m e,
    JS.Number_of_bigint t = S754_finite s m e
    /\ 2 ^ 52 <= Zpos m < 2 ^ 53
    /\ -52 <= e
    /\ (e < Eb \/ (e = Eb /\ Zpos m <= Kb)).
Proof.
  intros Hnz HEb HK Hle.
  unfold JS.Number_of_bigint, JS.prec, JS.emax, binary_normalize.
  destruct t as [|p|p]; [congruence | |].
  - destruct (binary_round_le false p Kb Eb HEb HK) as (m & e & E); [lia|].
    exists false, m, e. exact E.
  - destruct (binary_round_le true p Kb Eb HEb HK) as (m & e & E); [lia|].
    exists true, m, e. exact E.
Qed.

Lemma Number_maxTime : JS.Number_of_bigint JS.maxTime = S754_finite false 8640000000000000 0.
Proof. vm_compute. reflexivity. Qed.

Lemma TimeClip_some (s : bool) (m : positive) (e : Z) :
  e < 0 \/ (e = 0 /\ Zpos m <= 8640000000000000) ->
  is_Some (JS.TimeClip (S754_finite s m e)).
Proof.
  intros Hb. unfold JS.TimeClip. rewrite Number_maxTime.
  cbn [SFabs]. unfold SFleb, SFcompare.
  destruct Hb as [Hneg | [-> Hm]].
  - destruct e as [|q|q]; try lia. cbn [Z.compare]. eexists; reflexivity.
  - cbn [Z.compare]. rewrite Pos.compare_cont_spec. cbn [Pos.switch_Eq].
    assert (Hc : (m ?= 8640000000000000)%positive <> Gt) by (rewrite Pos2Z.inj_compare; exact Hm).
    destruct (m ?= 8640000000000000)%positive; try congruence; eexists; reflexivity.
Qed.

Lemma div_eucl_pair (a b : Z) : Z.div_eucl a b = (a / b, a mod b).
Proof. unfold Z.div, Z.modulo. destruct (Z.div_eucl a b); reflexivity. Qed.

Lemma div_core_million (m1 : positive) (e1 : Z) :
  2 ^ 52 <= Zpos m1 < 2 ^ 53 -> -52 <= e1 <= 20 ->
  SFdiv_core_binary 53 1024 (Zpos m1) e1 8589934592000000 (-33)
  = (Zpos m1 * 1048576 / 1000000, e1 - 20,
     new_location 8589934592000000 ((Zpos m1 * 1048576 mod 1000000) * 8589934592)).
Proof.
  intros Hm He. unfold SFdiv_core_binary.
  assert (D1 : Zdigits2 (Zpos m1) = 53).
  { cbn [Zdigits2]. apply digits2_pos_unique. exact Hm. }
  assert (D2 : Zdigits2 8589934592000000 = 53) by (vm_compute; reflexivity).
  rewrite D1, D2.
  rewrite fexp_normal by lia.
  replace (Z.min (53 + e1 - (53 + -33) - 53) (e1 - -33)) with (e1 - 20) by lia.
  replace (e1 - -33 - (e1 - 20)) with 53 by lia.
  cbv beta iota.
  rewrite div_eucl_pair.
  rewrite Z.shiftl_mul_pow2 by lia.
  assert (P : 2 ^ 53 = 1048576 * 8589934592) by (vm_compute; reflexivity).
  assert (Q : 8589934592000000 = 1000000 * 8589934592) by (vm_compute; reflexivity).
  assert (A : Zpos m1 * 2 ^ 53 / 8589934592000000 = Zpos m1 * 1048576 / 1000000).
  { rewrite P, Q, Z.mul_assoc. apply Z.div_mul_cancel_r; lia. }
  assert (B : (Zpos m1 * 2 ^ 53) mod 8589934592000000
              = (Zpos m1 * 1048576 mod 1000000) * 8589934592).
  { rewrite P, Q, Z.mul_assoc. apply Z.mul_mod_distr_r; lia. }
  rewrite A, B. reflexivity.
Qed.

Lemma new_location_exact : new_location 8589934592000000 0 = loc_Exact.
Proof. vm_compute. reflexivity. Qed.

Lemma isoOfNanos_total (t : Z) : Z.abs t <= maxNanos -> is_Some (V1.isoOfNanos t).
Proof.
  intros Ht. unfold maxNanos in Ht.
  assert (G : is_Some (JS.TimeClip (JS.div (JS.Number_of_bigint t) million))).
  2:{ unfold V1.isoOfNanos. destruct G as [tv ->]. eexists; reflexivity. }
  destruct (Z.eq_dec t 0) as [->|Hnz].
  { vm_compute. eexists; reflexivity. }
  assert (P52 : 2 ^ 52 = 4503599627370496) by (vm_compute; reflexivity).
  assert (P53 : 2 ^ 53 = 9007199254740992) by (vm_compute; reflexivity).
  assert (P20 : 2 ^ 20 = 1048576) by (vm_compute; reflexivity).
  destruct (Number_of_bigint_le t 8239746093750000 20 Hnz) as (s & m1 & e1 & E & Bm & He & Hb).
  { lia. } { rewrite P52, P53. lia. } { rewrite P20. lia. }
  rewrite E, million_eq. unfold JS.div, JS.prec, JS.emax. cbn [SFdiv].
  rewrite div_core_million by (try exact Bm; lia).
  rewrite P52, P53 in Bm.
  set (q := Zpos m1 * 1048576 / 1000000).
  set (r := Zpos m1 * 1048576 mod 1000000).
  assert (Hqr : Zpos m1 * 1048576 = 1000000 * q + r /\ 0 <= r < 1000000).
  { unfold q, r. split; [apply Z.div_mod; lia | apply Z.mod_pos_bound; lia]. }
  assert (Bq : 4503599627370496 <= q < 18014398509481984) by lia.
  destruct q as [|pq|pq] eqn:Eq; try lia.
  set (lz := new_location 8589934592000000 (r * 8589934592)).
  assert (Dq : Zpos (digits2_pos pq) = 53 \/ Zpos (digits2_pos pq) = 54).
  { destruct (Z_lt_le_dec (Zpos pq) 9007199254740992).
    - left. apply digits2_pos_unique. change (53 - 1) with 52. rewrite P52, P53. lia.
    - right. apply digits2_pos_unique. change (54 - 1) with 53. rewrite P53.
      change (2 ^ 54) with 18014398509481984. lia. }
  destruct (round_aux_le (xorb s false) pq (e1 - 20) lz 8640000000000000 0)
    as (m & e & E' & _ & _ & Hfin).
  - lia.
  - lia.
  - lia.
  - rewrite P52, P53. lia.
  - destruct Dq as [-> | Dq]; [lia|]. rewrite Dq.
    assert (Zpos pq >= 9007199254740992).
    { destruct (Z_lt_le_dec (Zpos pq) 9007199254740992) as [Hlt|]; [|lia].
      exfalso. assert (Zpos (digits2_pos pq) = 53); [|lia].
      apply digits2_pos_unique. change (53 - 1) with 52. rewrite P52, P53. lia. }
    lia.
  - intros Hz. destruct Dq as [Dq | Dq]; rewrite Dq in *.
    + assert (e1 = 20) by lia. subst e1.
      change (53 - 53) with 0. rewrite Z.pow_0_r, Z.div_1_r.
      split; [lia|]. intros Hq.
      assert (Hr0 : r = 0) by lia.
      unfold lz. rewrite Hr0. change (0 * 8589934592) with 0.
      rewrite new_location_exact. apply shifted_exact; try lia.
      rewrite Z.pow_0_r. apply Z.mod_1_r.
    + assert (e1 = 19) by lia. subst e1.
      change (54 - 53) with 1. change (2 ^ 1) with 2.
      assert (Zpos pq / 2 < 8640000000000000).
      { apply Z.div_lt_upper_bound; lia. }
      split; [lia|]. intros Hq. lia.
  - rewrite E'. apply TimeClip_some. exact Hfin.
Qed.

Lemma BigInt_of_number_value (s : bool) (m : positive) (e v : Z) :
  JS.BigInt_of_number (S754_finite s m e) = Some v ->
  (0 <= e /\ Z.abs v = Zpos m * 2 ^ e) \/ (e < 0 /\ Z.abs v <= Zpos m).
Proof.
  unfold JS.BigInt_of_number. destruct e as [|q|q].
  - intros [= <-]. left. split; [lia|]. rewrite Z.shiftl_0_r, Z.pow_0_r. destruct s; lia.
  - intros [= <-]. left. split; [lia|]. rewrite Z.shiftl_mul_pow2 by lia.
    assert (0 < 2 ^ Zpos q) by (apply Z.pow_pos_nonneg; lia).
    destruct s; nia.
  - destruct (Z.land (Zpos m) (Z.ones (Zpos q)) =? 0); [|discriminate].
    intros [= <-]. right. split; [lia|].
    rewrite Z.shiftr_div_pow2 by lia.
    assert (0 < 2 ^ Zpos q) by (apply Z.pow_pos_nonneg; lia).
    assert (0 <= Zpos m / 2 ^ Zpos q <= Zpos m).
    { split; [apply Z.div_pos; lia|]. apply Z.div_le_upper_bound; nia. }
    destruct s; lia.
Qed.

Lemma dueDateNanos_bound (H : Host) (body : ProfileBody) (tv due : Z) :
  new_Date H (pb_dueDate body) = Some tv ->
  V1.dueDateNanos H body = Some due ->
  Z.abs due <= maxNanos.
Proof.
  intros Hd. unfold V1.dueDateNanos. rewrite Hd. cbn [getTime].
  assert (Htv : Z.abs tv <= 8640000000000000).
  { unfold new_Date in Hd. destruct (pb_dueDate body) as [str|]; [|discriminate].
    destruct (Date_parse H str) as [t|]; [|discriminate].
    destruct (Z.abs t <=? JS.maxTime) eqn:E; [|discriminate].
    injection Hd as <-. apply Z.leb_le in E. exact E. }
  clear Hd. unfold maxNanos.
  destruct (Z.eq_dec tv 0) as [->|Hnz].
  { assert (Z0 : JS.BigInt_of_number (JS.mul (JS.Number_of_bigint 0) million) = Some 0)
      by (vm_compute; reflexivity).
    rewrite Z0. intros [= <-]. cbn [Z.abs]. lia. }
  assert (P52 : 2 ^ 52 = 4503599627370496) by (vm_compute; reflexivity).
  assert (P53 : 2 ^ 53 = 9007199254740992) by (vm_compute; reflexivity).
  destruct (Number_of_bigint_le tv 8640000000000000 0 Hnz) as (s & m1 & e1 & E & Bm & He & Hb).
  { lia. } { rewrite P52, P53. lia. } { rewrite Z.pow_0_r. lia. }
  rewrite E, million_eq. unfold JS.mul, JS.prec, JS.emax. cbn [SFmul].
  rewrite P52, P53 in Bm.
  set (p := (m1 * 8589934592000000)%positive).
  assert (Hp : Zpos p = Zpos m1 * 8589934592000000) by (unfold p; apply Pos2Z.inj_mul).
  assert (P104 : 2 ^ 104 = 20282409603651670423947251286016) by (vm_compute; reflexivity).
  assert (P105 : 2 ^ 105 = 40564819207303340847894502572032) by (vm_compute; reflexivity).
  assert (P106 : 2 ^ 106 = 81129638414606681695789005144064) by (vm_compute; reflexivity).
  assert (Dp : Zpos (digits2_pos p) = 105 \/ Zpos (digits2_pos p) = 106).
  { destruct (Z_lt_le_dec (Zpos p) (2 ^ 105)).
    - left. apply digits2_pos_unique. change (105 - 1) with 104. rewrite P104, P105 in *. lia.
    - right. apply digits2_pos_unique. change (106 - 1) with 105. rewrite P105, P106 in *. lia. }
  destruct (round_aux_le (xorb s false) p (e1 + -33) loc_Exact 8239746093750000 20)
    as (m & e & E' & Bm' & He' & Hfin).
  - lia.
  - lia.
  - lia.
  - rewrite P52, P53. lia.
  - lia.
  - intros Hz. assert (e1 = 0 /\ Zpos (digits2_pos p) = 106) as [-> Dp'] by lia.
    rewrite Dp'. change (106 - 53) with 53. rewrite P53.
    assert (Hm1 : Zpos m1 <= 8640000000000000) by lia.
    split.
    + apply Z.div_le_upper_bound; lia.
    + intros Hq. apply shifted_exact; try lia. rewrite P53.
      pose proof (Z.mul_div_le (Zpos p) 9007199254740992 ltac:(lia)) as Hmd.
      rewrite Hq in Hmd.
      assert (Zpos p = 8239746093750000 * 9007199254740992) as -> by lia.
      apply Z.mod_mul. lia.
  - rewrite E'. intros Hbig. rewrite P52, P53 in Bm'.
    destruct (BigInt_of_number_value _ _ _ _ Hbig) as [[He0 Hv] | [He0 Hv]]; [|lia].
    rewrite Hv. destruct Hfin as [Hlt | [-> Hm]].
    + assert (2 ^ e <= 2 ^ 19) by (apply Z.pow_le_mono_r; lia).
      change (2 ^ 19) with 524288 in *.
      assert (0 < 2 ^ e) by (apply Z.pow_pos_nonneg; lia). nia.
    + change (2 ^ 20) with 1048576. lia.
Qed.

Lemma isoOfStamp_Nanos (H : Host) (t : Z) : V1.isoOfStamp H (Nanos t) = V1.isoOfNanos t.
Proof. reflexivity. Qed.

(** The time property after the spread is printed exactly when the body
    carries none, or one that converts to a valid date. *)
Lemma isoOfStamp_stamped (H : Host) (now : Z) (carried : option Json) :
  Z.abs now <= maxNanos ->
  is_Some (V1.isoOfStamp H (stamped now carried)) <-> displayable H carried.
Proof.
  intros Hnow. unfold displayable. destruct carried as [v|]; cbn [stamped].
  - split; [intros Hs w [= <-]; exact Hs | intros Hs; apply Hs; reflexivity].
  - rewrite isoOfStamp_Nanos. split; [intros _ w Hw; discriminate Hw|].
    intros _. apply isoOfNanos_total. exact Hnow.
Qed.

Lemma displayable_absent (H : Host) : displayable H None.
Proof. intros v Hv. discriminate Hv. Qed.

(** The serializer on the profile a handler builds: it throws exactly on
    a [createdAt] or [lastUpdated] of the body that is not a valid date. *)
Lemma serializeProfile_built (H : Host) (now due tv : Z) (id : string) (body : ProfileBody) :
  Z.abs now <= maxNanos ->
  new_Date H (pb_dueDate body) = Some tv ->
  V1.dueDateNanos H body = Some due ->
  is_Some (V1.serializeProfile H (V1.buildProfile id now due body))
  <-> displayable H (pb_createdAt body) /\ displayable H (pb_lastUpdated body).
Proof.
  intros Hnow Hd Hdue. unfold V1.serializeProfile.
  cbn [V1.buildProfile mp_dueDate mp_createdAt mp_lastUpdated].
  destruct (isoOfNanos_total due (dueDateNanos_bound H body tv due Hd Hdue)) as [a ->].
  rewrite <- (isoOfStamp_stamped H now (pb_createdAt body) Hnow).
  rewrite <- (isoOfStamp_stamped H now (pb_lastUpdated body) Hnow).
  destruct (V1.isoOfStamp H (stamped now (pb_createdAt body))) as [b|];
    destruct (V1.isoOfStamp H (stamped now (pb_lastUpdated body))) as [c|].
  - split; [intros _; split; eexists; reflexivity | intros _; eexists; reflexivity].
  - split; [intros [x Hx]; discriminate Hx | intros [_ [x Hx]]; discriminate Hx].
  - split; [intros [x Hx]; discriminate Hx | intros [[x Hx] _]; discriminate Hx].
  - split; [intros [x Hx]; discriminate Hx | intros [[x Hx] _]; discriminate Hx].
Qed.

Lemma serializeProfile_total (H : Host) (now due tv : Z) (id : string) (body : ProfileBody) :
  Z.abs now <= maxNanos ->
  new_Date H (pb_dueDate body) = Some tv ->
  V1.dueDateNanos H body = Some due ->
  pb_createdAt body = None ->
  pb_lastUpdated body = None ->
  is_Some (V1.serializeProfile H (V1.buildProfile id now due body)).
Proof.
  intros Hnow Hd Hdue Hc Hl.
  apply (serializeProfile_built H now due tv id body Hnow Hd Hdue).
  rewrite Hc, Hl. split; apply displayable_absent.
Qed.

(** ** The metrics handler *)

Lemma assessRisk_flag (m : HealthMetrics) : V1.assessRisk (V1.flag m) = V1.assessRisk m.
Proof. reflexivity. Qed.

(** The state the v1.0.0 handler leaves on an accepted body. *)
Lemma V1_recordMetrics_state (H : Host) (now : Z) (body : MetricsBody) (st : State) :
  V1.validateHealthMetrics body = None ->
  let m0 := V1.buildMetrics (uuid_at H (uuid_calls st)) now body in
  snd (V1.recordMetrics H now body st)
  = if V1.assessRisk m0
    then insert_metrics (V1.flag m0)
           (V1.createHighRiskAlert H now (V1.flag m0) (snd (uuidv4 H st)))
    else insert_metrics m0 (snd (uuidv4 H st)).
Proof.
  intros Hval m0. unfold V1.recordMetrics. rewrite Hval. simpl. fold m0.
  destruct (V1.assessRisk m0).
  - destruct (V1.serializeMetrics H (V1.flag m0)); reflexivity.
  - destruct (V1.serializeMetrics H m0); reflexivity.
Qed.

(** The reply of the v1.0.0 handler to an accepted body: the record it
    stored, with its time printed, or the 500 when printing throws. *)
Lemma V1_recordMetrics_fst (H : Host) (now : Z) (body : MetricsBody) (st : State) :
  V1.validateHealthMetrics body = None ->
  let m0 := V1.buildMetrics (uuid_at H (uuid_calls st)) now body in
  let m := if V1.assessRisk m0 then V1.flag m0 else m0 in
  fst (V1.recordMetrics H now body st)
  = match V1.isoOfStamp H (stamped now (mb_recordedAt body)) with
    | Some iso => json (MetricsReply {| sm_metrics := m; sm_recordedAt := iso |})
    | None => error_json 500 "Failed to record health metrics"
    end.
Proof.
  intros Hval m0 m. unfold V1.recordMetrics. rewrite Hval. simpl. fold m0. unfold m.
  destruct (V1.assessRisk m0); unfold V1.serializeMetrics;
    cbn [hm_recordedAt V1.flag V1.buildMetrics m0];
    destruct (V1.isoOfStamp H (stamped now (mb_recordedAt body))); reflexivity.
Qed.

Lemma nat64_in_date_range (now : Z) : 0 <= now < 2 ^ 64 -> Z.abs now <= maxNanos.
Proof.
  intros Hnow. unfold maxNanos. change (2 ^ 64) with 18446744073709551616 in Hnow. lia.
Qed.

(** With a nat64 clock the serialization of a record whose body carries
    no [recordedAt] does not throw: an accepted body is answered 200. *)
Lemma V1_recordMetrics_reply (H : Host) (now : Z) (body : MetricsBody) (st : State) :
  0 <= now < 2 ^ 64 ->
  V1.validateHealthMetrics body = None ->
  mb_recordedAt body = None ->
  status (fst (V1.recordMetrics H now body st)) = 200.
Proof.
  intros Hnow Hval Hrec.
  destruct (isoOfNanos_total now (nat64_in_date_range now Hnow)) as [iso Hiso].
  rewrite (V1_recordMetrics_fst H now body st Hval), Hrec. cbn [stamped].
  rewrite isoOfStamp_Nanos, Hiso. reflexivity.
Qed.

(** C2 as the specification states it fails in both handlers.  In v1.0.0
    a body with normal vitals that carries [isFlaggedForReview = true] is
    answered 200 and stored flagged though [assessRisk] is false.  The
    v1.1.0 handler runs no assessment: a body with a systolic pressure of
    150 is stored unflagged though [assessRisk] is true, and the same body
    with a [recordedAt] of its own is answered 200 and stored unflagged as
    well. *)
Lemma C2_counterexample :
  (let body := vitals None (Some true) (measured 120) (measured 80) (measured 95) (measured 12) in
   let out := V1.recordMetrics host0 now0 body emptyState in
   V1.validateHealthMetrics body = None
   /\ status (fst out) = 200
   /\ exists m,
        metricsStorage (snd out) !! "uuid-0000" = Some m
        /\ hm_isFlaggedForReview m = true
        /\ V1.assessRisk m = false)
  /\ (let body := vitals None None (measured 150) (measured 80) (measured 95) (measured 12) in
      let out := V2.recordMetrics host0 now0 body stateWithProfile in
      V2.validateHealthMetrics body = None
      /\ exists m,
           metricsStorage (snd out) !! "uuid-0000" = Some m
           /\ hm_isFlaggedForReview m = false
           /\ V1.assessRisk m = true)
  /\ (let body := carrying recordedAt_sample
                    (vitals None None (measured 150) (measured 80) (measured 95) (measured 12)) in
      let out := V2.recordMetrics host0 now0 body stateWithProfile in
      status (fst out) = 200
      /\ exists m,
           metricsStorage (snd out) !! "uuid-0000" = Some m
           /\ fst out = json (RawMetricsReply m)
           /\ hm_isFlaggedForReview m = false
           /\ V1.assessRisk m = true).
Proof.
  split; [|split].
  - split; [reflexivity|]. split; [vm_compute; reflexivity|].
    eexists. split; [vm_compute; reflexivity|]. split; reflexivity.
  - split; [reflexivity|].
    eexists. split; [vm_compute; reflexivity|]. split; reflexivity.
  - split; [reflexivity|].
    eexists. split; [vm_compute; reflexivity|]. split; [reflexivity|]. split; reflexivity.
Qed.

(** C2 (amended). In the v1.0.0 handler, for every body the validator
    accepts, the record stored is flagged for review exactly when
    [assessRisk] of it is high-risk or the body itself supplies
    [isFlaggedForReview = true]; so for every body that does not supply
    [true] it is flagged exactly when [assessRisk] of it is high-risk. *)
Theorem C2_flag_follows_assessment (H : Host) (now : Z) (body : MetricsBody) (st : State) :
  V1.validateHealthMetrics body = None ->
  exists m,
    metricsStorage (snd (V1.recordMetrics H now body st))
    = <[hm_id m := m]> (metricsStorage st)
    /\ (V1.assessRisk m = true -> hm_isFlaggedForReview m = true)
    /\ (hm_isFlaggedForReview m = true
        <-> V1.assessRisk m = true \/ mb_isFlaggedForReview body = Some true)
    /\ (mb_isFlaggedForReview body <> Some true ->
        (hm_isFlaggedForReview m = true <-> V1.assessRisk m = true)).
Proof.
  intros Hval. rewrite (V1_recordMetrics_state H now body st Hval).
  set (m0 := V1.buildMetrics (uuid_at H (uuid_calls st)) now body).
  destruct (V1.assessRisk m0) eqn:E.
  - exists (V1.flag m0). rewrite assessRisk_flag, E.
    split; [reflexivity|]. split; [reflexivity|]. cbn [V1.flag hm_isFlaggedForReview].
    split; [tauto | intros _; tauto].
  - exists m0. rewrite E. split; [reflexivity|].
    split; [discriminate|]. unfold m0. cbn [V1.buildMetrics hm_isFlaggedForReview].
    destruct (mb_isFlaggedForReview body) as [[|]|]; cbn [default].
    + split; [split; [auto | reflexivity] | intros Hn; contradiction Hn; reflexivity].
    + split; [split; [discriminate | intros [Hd|Hd]; discriminate Hd]|].
      intros _. split; discriminate.
    + split; [split; [discriminate | intros [Hd|Hd]; discriminate Hd]|].
      intros _. split; discriminate.
Qed.

Lemma C2_flag_follows_assessment_witness :
  let body := vitals None (Some false) (measured 150) (measured 80) (measured 95) (measured 12) in
  V1.validateHealthMetrics body = None
  /\ exists m,
       metricsStorage (snd (V1.recordMetrics host0 now0 body emptyState))
       = <[hm_id m := m]> (metricsStorage emptyState)
       /\ (V1.assessRisk m = true -> hm_isFlaggedForReview m = true)
       /\ (hm_isFlaggedForReview m = true
           <-> V1.assessRisk m = true \/ mb_isFlaggedForReview body = Some true)
       /\ (mb_isFlaggedForReview body <> Some true ->
           (hm_isFlaggedForReview m = true <-> V1.assessRisk m = true)).
Proof.
  split; [reflexivity|].
  apply (C2_flag_follows_assessment host0 now0). reflexivity.
Defined.

(** ** C3: the alert of a high-risk record *)



Example recordMetrics_high_risk_alert :
  map_to_list
    (alertStorage
       (snd (V1.recordMetrics host0 now0
               (vitals None None (measured 150) (measured 80) (measured 95) (measured 12))
               emptyState)))
  = [("uuid-0001",
      {| ha_id := "uuid-0001";
         ha_maternalProfileId := Some "profile-123";
         ha_createdAt := now0;
         ha_severity := HIGH;
         ha_description := "Abnormal health metrics detected";
         ha_recommendedAction := "Immediate medical review required";
         ha_resolved := false;
         ha_resolvedAt := None;
         ha_providerId := Some "provider-123";
         ha_resolutionNotes := None;
         ha_escalationLevel := 1 |})].
Proof. vm_compute. reflexivity. Qed.

Example recordMetrics_normal_no_alert :
  map_to_list
    (alertStorage
       (snd (V1.recordMetrics host0 now0
               (vitals None None (measured 120) (measured 80) (measured 95) (measured 12))
               emptyState)))
  = [].
Proof. vm_compute. reflexivity. Qed.

(** ** C5: metrics for a profile that does not exist *)

(** C5 as the specification states it fails in v1.0.0, which never reads
    the profile collection: with no profile stored, a body naming
    ["profile-123"] with a systolic pressure of 150 is answered 200, and
    both its record and an alert are stored.  In v1.1.0 the same body
    without its [maternalProfileId] is not answered with the 404: the
    lookup throws on the [undefined] key and the reply is the 500 of the
    [catch]. *)
Lemma C5_counterexample :
  (let body := vitals None None (measured 150) (measured 80) (measured 95) (measured 12) in
   let out := V1.recordMetrics host0 now0 body emptyState in
   mb_maternalProfileId body = Some "profile-123"
   /\ maternalProfileStorage emptyState !! "profile-123" = None
   /\ status (fst out) = 200
   /\ is_Some (metricsStorage (snd out) !! "uuid-0000")
   /\ is_Some (alertStorage (snd out) !! "uuid-0001"))
  /\ (let body :=
        unassigned (vitals None None (measured 150) (measured 80) (measured 95) (measured 12)) in
      mb_maternalProfileId body = None
      /\ V2.recordMetrics host0 now0 body emptyState
         = (error_json 500 "Failed to record health metrics", emptyState)).
Proof.
  split.
  - split; [reflexivity|]. split; [reflexivity|]. split; [vm_compute; reflexivity|].
    split; eexists; vm_compute; reflexivity.
  - split; reflexivity.
Qed.

(** C5 (amended). In the v1.1.0 handler, for every body whose
    [maternalProfileId] is present and does not resolve to a stored
    profile, the reply is the 404 'Maternal profile not found' and the
    state is unchanged: nothing is inserted into any collection. *)
Theorem C5_unknown_profile_rejected (H : Host) (now : Z) (body : MetricsBody)
    (st : State) (k : string) :
  mb_maternalProfileId body = Some k ->
  maternalProfileStorage st !! k = None ->
  V2.recordMetrics H now body st = (error_json 404 "Maternal profile not found", st)
  /\ same_collections st (snd (V2.recordMetrics H now body st)).
Proof.
  intros Hk Hnone. unfold V2.recordMetrics. rewrite Hk. cbn [get]. rewrite Hnone.
  split; [reflexivity|]. simpl. repeat split.
Qed.

Lemma C5_unknown_profile_rejected_witness :
  let body := vitals None None (measured 150) (measured 80) (measured 95) (measured 12) in
  mb_maternalProfileId body = Some "profile-123"
  /\ maternalProfileStorage emptyState !! "profile-123" = None
  /\ V2.recordMetrics host0 now0 body emptyState
     = (error_json 404 "Maternal profile not found", emptyState)
  /\ same_collections emptyState (snd (V2.recordMetrics host0 now0 body emptyState)).
Proof.
  split; [reflexivity|]. split; [reflexivity|].
  apply (C5_unknown_profile_rejected host0 now0 _ emptyState "profile-123"); reflexivity.
Defined.

(** Behind its role check the v1.1.0 route inserts nothing either, whatever
    the role of the caller. *)
Lemma post_health_metrics_unknown_profile (H : Host) (now : Z) (x_role : option string)
    (body : MetricsBody) (st : State) (k : string) :
  mb_maternalProfileId body = Some k ->
  maternalProfileStorage st !! k = None ->
  snd (V2.post_health_metrics H now x_role body st) = st
  /\ (x_role = Some "provider" ->
      fst (V2.post_health_metrics H now x_role body st)
      = error_json 404 "Maternal profile not found").
Proof.
  intros Hk Hnone. unfold V2.post_health_metrics, V2.authorize.
  destruct (bool_decide (x_role = Some "provider")) eqn:E.
  - unfold V2.recordMetrics. rewrite Hk. cbn [get]. rewrite Hnone. split; reflexivity.
  - split; [reflexivity|]. intros Hrole. apply bool_decide_eq_false in E. contradiction.
Qed.

(** A body without [maternalProfileId] is not answered 404: the lookup
    throws on the [undefined] key, and the reply is the 500 of the
    [catch]; nothing is inserted. *)
Lemma V2_recordMetrics_absent_profile_id (H : Host) (now : Z) (body : MetricsBody)
    (st : State) :
  mb_maternalProfileId body = None ->
  V2.recordMetrics H now body st = (error_json 500 "Failed to record health metrics", st).
Proof. intros Hk. unfold V2.recordMetrics. rewrite Hk. reflexivity. Qed.

(** ** The profile handler *)

(** The v1.0.0 handler on a body that passes every check. *)
Lemma V1_createProfile_accept (H : Host) (now : Z) (body : ProfileBody) (st : State)
    (k : string) (p : HealthcareProvider) (due : Z) :
  V1.validateProfile body = None ->
  pb_primaryCareProviderId body = Some k ->
  providerStorage st !! k = Some p ->
  hp_isActive p = true ->
  V1.dueDateNanos H body = Some due ->
  let profile := V1.buildProfile (uuid_at H (uuid_calls st)) now due body in
  V1.createProfile H now body st
  = (match V1.serializeProfile H profile with
     | Some out => json (ProfileReply out)
     | None => error_json 500 "Internal server error"
     end,
     insert_profile profile (snd (uuidv4 H st))).
Proof.
  intros Hval Hk Hget Hact Hdue profile. unfold V1.createProfile.
  rewrite Hval, Hk. cbn [get]. rewrite Hget, Hact. simpl. rewrite Hdue. fold profile.
  destruct (V1.serializeProfile H profile); reflexivity.
Qed.

(** ** C4: a provider that is unknown or not active *)

(** C4 as the specification states it fails in v1.1.0, which never reads
    the provider collection: with no provider stored, the profile of the
    README body is stored; the reply is not an error about the provider
    but the 500 of the [catch], because [res.json] throws on the profile
    it has just stored.  In v1.0.0 the validator runs before the provider
    lookup, so a body with an age of 15 and an unknown provider is
    answered with the validation error; and the README body without its
    [primaryCareProviderId] is not answered with the 404: the lookup
    throws on the [undefined] key and the reply is the 500 of the
    [catch]. *)
Lemma C4_counterexample :
  (let out := V2.createProfile host0 now0 janeDoe emptyState in
   pb_primaryCareProviderId janeDoe = Some "provider-123"
   /\ providerStorage emptyState !! "provider-123" = None
   /\ fst out = error_json 500 "Internal server error"
   /\ is_Some (maternalProfileStorage (snd out) !! "uuid-0000"))
  /\ (let body :=
        {| pb_createdAt := None; pb_lastUpdated := None;
           pb_id := None; pb_name := Some "Jane Doe"; pb_age := Some (JS.of_Z 15);
           pb_bloodType := Some "O+"; pb_emergencyContact := None;
           pb_dueDate := Some "2024-12-25"; pb_currentTrimester := None;
           pb_riskLevel := None; pb_primaryCareProviderId := Some "provider-123";
           pb_medicalHistory := None; pb_allergies := None;
           pb_isHighRiskPregnancy := None |} in
      pb_primaryCareProviderId body = Some "provider-123"
      /\ providerStorage emptyState !! "provider-123" = None
      /\ fst (V1.createProfile host0 now0 body emptyState)
         = error_json 400 "Age must be between 16 and 60")
  /\ (V1.validateProfile janeDoeNoProvider = None
      /\ pb_primaryCareProviderId janeDoeNoProvider = None
      /\ V1.createProfile host0 now0 janeDoeNoProvider emptyState
         = (error_json 500 "Internal server error", emptyState)).
Proof.
  split; [|split].
  - split; [reflexivity|]. split; [reflexivity|]. split; [reflexivity|].
    eexists. vm_compute. reflexivity.
  - split; [reflexivity|]. split; reflexivity.
  - split; [reflexivity|]. split; reflexivity.
Qed.

(** C4 (amended). In the v1.0.0 handler, for every body whose
    [primaryCareProviderId] is present and resolves to no provider or to a
    provider that is not active, the state is unchanged: no record is
    inserted into any collection.  The reply is the validation error when
    the validator rejects the body; otherwise it is the 404 'Healthcare
    provider not found' for an unknown provider and the 400 'Selected
    healthcare provider is not active' for an inactive one. *)
Theorem C4_unverified_provider_rejected (H : Host) (now : Z) (body : ProfileBody)
    (st : State) (k : string) :
  let found := providerStorage st !! k in
  let out := V1.createProfile H now body st in
  pb_primaryCareProviderId body = Some k ->
  found = None \/ (exists p, found = Some p /\ hp_isActive p = false) ->
  snd out = st
  /\ same_collections st (snd out)
  /\ (forall e, V1.validateProfile body = Some e -> fst out = error_json 400 e)
  /\ (V1.validateProfile body = None -> found = None ->
      fst out = error_json 404 "Healthcare provider not found")
  /\ (V1.validateProfile body = None ->
      (exists p, found = Some p /\ hp_isActive p = false) ->
      fst out = error_json 400 "Selected healthcare provider is not active").
Proof.
  intros found out Hk Hbad. unfold out, V1.createProfile. rewrite Hk. cbn [get]. fold found.
  destruct (V1.validateProfile body) as [e|] eqn:Hval.
  { split; [reflexivity|]. split; [repeat split|].
    split; [intros e' [= <-]; reflexivity|]. split; discriminate. }
  destruct Hbad as [Hnone | (p & Hp & Hact)].
  - rewrite Hnone. split; [reflexivity|]. split; [repeat split|].
    split; [discriminate|]. split; [reflexivity|].
    intros _ (p & Hp & _). discriminate.
  - rewrite Hp, Hact. split; [reflexivity|]. split; [repeat split|].
    split; [discriminate|]. split; [discriminate|]. reflexivity.
Qed.

Lemma C4_unverified_provider_rejected_witness :
  let st := stateWithProvider false in
  let found := providerStorage st !! "provider-123" in
  let out := V1.createProfile host0 now0 janeDoe st in
  pb_primaryCareProviderId janeDoe = Some "provider-123"
  /\ (found = None \/ (exists p, found = Some p /\ hp_isActive p = false))
  /\ snd out = st
  /\ fst out = error_json 400 "Selected healthcare provider is not active".
Proof.
  assert (Hk : pb_primaryCareProviderId janeDoe = Some "provider-123") by reflexivity.
  assert (Hbad : let found := providerStorage (stateWithProvider false) !! "provider-123" in
                 found = None \/ (exists p, found = Some p /\ hp_isActive p = false)).
  { right. exists (provider123 false). split; reflexivity. }
  destruct (C4_unverified_provider_rejected host0 now0 janeDoe (stateWithProvider false)
              "provider-123" Hk Hbad)
    as (Hst & _ & _ & _ & Hinactive).
  split; [exact Hk|]. split; [exact Hbad|]. split; [exact Hst|].
  apply Hinactive; [reflexivity|].
  exists (provider123 false). split; reflexivity.
Defined.

Example createProfile_unknown_provider :
  V1.createProfile host0 now0 janeDoe emptyState
  = (error_json 404 "Healthcare provider not found", emptyState).
Proof. reflexivity. Qed.

(** A body without [primaryCareProviderId] is not answered 404: the
    lookup throws on the [undefined] key, and the reply is the 500 of the
    [catch]; nothing is inserted. *)
Lemma V1_createProfile_absent_provider_id (H : Host) (now : Z) (body : ProfileBody)
    (st : State) :
  V1.validateProfile body = None ->
  pb_primaryCareProviderId body = None ->
  V1.createProfile H now body st = (error_json 500 "Internal server error", st).
Proof. intros Hval Hk. unfold V1.createProfile. rewrite Hval, Hk. reflexivity. Qed.

(** ** C6: the defaults of a new profile *)

(** C6 as the specification states it fails in v1.1.0.  The object
    literal of that handler has no default for [riskLevel] and
    [currentTrimester]: the README body, which supplies neither, is stored
    without them.  Nor does the request succeed: [res.json] throws on the
    stored profile and the reply is the 500 of the [catch].  In v1.0.0
    the README body with a [createdAt] that is not a time is stored with
    it; the serializer then throws on it and the reply is the 500. *)
Lemma C6_counterexample :
  (let out := V2.createProfile host0 now0 janeDoe (stateWithProvider true) in
   V2.validateProfile janeDoe = None
   /\ fst out = error_json 500 "Internal server error"
   /\ exists profile,
        maternalProfileStorage (snd out) !! "uuid-0000" = Some profile
        /\ mp_riskLevel profile = None
        /\ mp_currentTrimester profile = None)
  /\ (let out := V1.createProfile host0 now0 janeDoeSoon (stateWithProvider true) in
      V1.validateProfile janeDoeSoon = None
      /\ pb_createdAt janeDoeSoon = Some (JString "soon")
      /\ fst out = error_json 500 "Internal server error"
      /\ exists profile,
           maternalProfileStorage (snd out) !! "uuid-0000" = Some profile
           /\ mp_createdAt profile = Carried (JString "soon")).
Proof.
  split.
  - split; [reflexivity|]. split; [reflexivity|].
    eexists. split; [vm_compute; reflexivity|]. split; reflexivity.
  - split; [reflexivity|]. split; [reflexivity|]. split; [vm_compute; reflexivity|].
    eexists. split; [vm_compute; reflexivity|]. reflexivity.
Qed.

(** C6 (amended). In the v1.0.0 handler, with the canister clock a nat64
    count of nanoseconds: for every body that the validator accepts, whose
    provider is stored and active and whose due date is a valid date, the
    profile is built and stored under its identifier and no other
    collection changes; the stored profile has [riskLevel] LOW when the
    body supplies none and [currentTrimester] FIRST when the body supplies
    none.  [createProfile] then succeeds, with the 200 and the serialized
    profile, whenever a [createdAt] and a [lastUpdated] that the body
    carries are valid dates; a body that carries neither is stamped with
    the time of the request. *)
Theorem C6_profile_defaults (H : Host) (now : Z) (body : ProfileBody) (st : State)
    (k : string) (p : HealthcareProvider) (tv : Z) :
  0 <= now < 2 ^ 64 ->
  V1.validateProfile body = None ->
  pb_primaryCareProviderId body = Some k ->
  providerStorage st !! k = Some p ->
  hp_isActive p = true ->
  new_Date H (pb_dueDate body) = Some tv ->
  let out := V1.createProfile H now body st in
  exists profile,
    maternalProfileStorage (snd out)
    = <[mp_id profile := profile]> (maternalProfileStorage st)
    /\ providerStorage (snd out) = providerStorage st
    /\ metricsStorage (snd out) = metricsStorage st
    /\ visitStorage (snd out) = visitStorage st
    /\ alertStorage (snd out) = alertStorage st
    /\ (pb_riskLevel body = None -> mp_riskLevel profile = Some LOW)
    /\ (pb_currentTrimester body = None -> mp_currentTrimester profile = Some FIRST)
    /\ mp_name profile = pb_name body
    /\ mp_age profile = pb_age body
    /\ mp_bloodType profile = pb_bloodType body
    /\ mp_primaryCareProviderId profile = pb_primaryCareProviderId body
    /\ mp_createdAt profile = stamped now (pb_createdAt body)
    /\ mp_lastUpdated profile = stamped now (pb_lastUpdated body)
    /\ (displayable H (pb_createdAt body) -> displayable H (pb_lastUpdated body) ->
        exists reply,
          fst out = json (ProfileReply reply)
          /\ status (fst out) = 200
          /\ sp_profile reply = profile).
Proof.
  intros Hnow Hval Hk Hget Hact Hdate out.
  destruct (dueDateNanos_total H body tv Hdate) as [due Hdue].
  unfold out. rewrite (V1_createProfile_accept H now body st k p due Hval Hk Hget Hact Hdue).
  exists (V1.buildProfile (uuid_at H (uuid_calls st)) now due body). cbn [fst snd].
  split; [reflexivity|]. split; [reflexivity|]. split; [reflexivity|].
  split; [reflexivity|]. split; [reflexivity|].
  split; [intros Hnone; cbn; rewrite Hnone; reflexivity|].
  split; [intros Hnone; cbn; rewrite Hnone; reflexivity|].
  split; [reflexivity|]. split; [reflexivity|]. split; [reflexivity|]. split; [reflexivity|].
  split; [reflexivity|]. split; [reflexivity|].
  intros Hc Hl.
  destruct (proj2 (serializeProfile_built H now due tv (uuid_at H (uuid_calls st)) body
                     (nat64_in_date_range now Hnow) Hdate Hdue) (conj Hc Hl))
    as [reply Hreply].
  rewrite Hreply. exists reply. split; [reflexivity|]. split; [reflexivity|].
  unfold V1.serializeProfile in Hreply.
  destruct (V1.isoOfNanos _) in Hreply; [|discriminate].
  destruct (V1.isoOfStamp H _) in Hreply; [|discriminate].
  destruct (V1.isoOfStamp H _) in Hreply; [|discriminate].
  injection Hreply as <-. reflexivity.
Qed.

Lemma C6_profile_defaults_witness :
  let st := stateWithProvider true in
  let out := V1.createProfile host0 now0 janeDoe st in
  0 <= now0 < 2 ^ 64
  /\ V1.validateProfile janeDoe = None
  /\ pb_primaryCareProviderId janeDoe = Some "provider-123"
  /\ providerStorage st !! "provider-123" = Some (provider123 true)
  /\ hp_isActive (provider123 true) = true
  /\ new_Date host0 (pb_dueDate janeDoe) = Some 1735084800000
  /\ exists profile,
       maternalProfileStorage (snd out)
       = <[mp_id profile := profile]> (maternalProfileStorage st)
       /\ mp_riskLevel profile = Some LOW
       /\ mp_currentTrimester profile = Some FIRST
       /\ mp_createdAt profile = Nanos now0
       /\ exists reply,
            fst out = json (ProfileReply reply)
            /\ status (fst out) = 200
            /\ sp_profile reply = profile.
Proof.
  assert (Hclock : 0 <= now0 < 2 ^ 64) by (split; [discriminate | reflexivity]).
  assert (Hval : V1.validateProfile janeDoe = None) by reflexivity.
  assert (Hk : pb_primaryCareProviderId janeDoe = Some "provider-123") by reflexivity.
  assert (Hget : providerStorage (stateWithProvider true) !! "provider-123"
                 = Some (provider123 true)) by reflexivity.
  assert (Hact : hp_isActive (provider123 true) = true) by reflexivity.
  assert (Hdate : new_Date host0 (pb_dueDate janeDoe) = Some 1735084800000) by reflexivity.
  split; [exact Hclock|]. split; [exact Hval|]. split; [exact Hk|]. split; [exact Hget|].
  split; [exact Hact|]. split; [exact Hdate|].
  destruct (C6_profile_defaults host0 now0 janeDoe (stateWithProvider true) "provider-123"
              (provider123 true) 1735084800000 Hclock Hval Hk Hget Hact Hdate)
    as (profile & Hst & _ & _ & _ & _ & Hrisk & Htri & _ & _ & _ & _ & Hc & _ & Hreply).
  exists profile. split; [exact Hst|].
  split; [apply Hrisk; reflexivity|]. split; [apply Htri; reflexivity|].
  split; [exact Hc|].
  apply Hreply; intros v Hv; discriminate Hv.
Defined.

(** A [createdAt] of the body replaces the clock value: the profile is
    stored with it, then the serializer throws on it and the reply is the
    500, with the profile left in the collection. *)
Example createProfile_createdAt_soon :
  let out := V1.createProfile host0 now0 janeDoeSoon (stateWithProvider true) in
  fst out = error_json 500 "Internal server error"
  /\ exists profile,
       maternalProfileStorage (snd out) !! "uuid-0000" = Some profile
       /\ mp_createdAt profile = Carried (JString "soon")
       /\ mp_lastUpdated profile = Nanos now0.
Proof.
  split; [vm_compute; reflexivity|].
  eexists. split; [vm_compute; reflexivity|]. split; reflexivity.
Qed.

Example createProfile_jane_doe :
  exists reply,
    fst (V1.createProfile host0 now0 janeDoe (stateWithProvider true))
    = json (ProfileReply reply)
    /\ mp_riskLevel (sp_profile reply) = Some LOW
    /\ mp_currentTrimester (sp_profile reply) = Some FIRST
    /\ sp_dueDate reply = "2024-12-25T00:00:00.000Z".
Proof. eexists. split; [vm_compute; reflexivity|]. repeat split. Qed.

Example createProfile_age_15 :
  fst (V1.createProfile host0 now0
         {| pb_createdAt := None; pb_lastUpdated := None;
            pb_id := None; pb_name := Some "Jane Doe"; pb_age := Some (JS.of_Z 15);
            pb_bloodType := Some "O+"; pb_emergencyContact := None;
            pb_dueDate := Some "2024-12-25"; pb_currentTrimester := None;
            pb_riskLevel := None; pb_primaryCareProviderId := Some "provider-123";
            pb_medicalHistory := None; pb_allergies := None;
            pb_isHighRiskPregnancy := None |}
         (stateWithProvider true))
  = error_json 400 "Age must be between 16 and 60".
Proof. reflexivity. Qed.

(** In v1.1.0 [!dueDate] also holds for [0n]: the epoch is refused as a
    due date. *)
Example createProfile_epoch_due_date :
  V2.createProfile host0 now0 (janeDoeWith None (Some "1970-01-01T00:00:00.000Z")) emptyState
  = (error_json 400 "Invalid date format for dueDate", emptyState).
Proof. reflexivity. Qed.

Example createProfile_missing_due_date :
  fst (V1.createProfile host0 now0 (janeDoeWith None None) (stateWithProvider true))
  = error_json 500 "Internal server error"
  /\ same_collections (stateWithProvider true)
       (snd (V1.createProfile host0 now0 (janeDoeWith None None) (stateWithProvider true))).
Proof. split; [reflexivity | repeat split]. Qed.

(** ** C9: the identifier of a stored record *)

(** In both handler files the spread of the body follows [id: uuidv4()]:
    an identifier in the body replaces the one drawn. *)
Lemma buildProfile_client_id (id chosen : string) (now due : Z) (body : ProfileBody) :
  pb_id body = Some chosen ->
  mp_id (V1.buildProfile id now due body) = chosen
  /\ mp_id (V2.buildProfile id now due body) = chosen.
Proof. intros E. cbn. rewrite E. split; reflexivity. Qed.

Lemma buildMetrics_client_id (id chosen : string) (now : Z) (body : MetricsBody) :
  mb_id body = Some chosen ->
  hm_id (V1.buildMetrics id now body) = chosen
  /\ hm_id (V2.buildMetrics id now body) = chosen.
Proof. intros E. cbn. rewrite E. split; reflexivity. Qed.

Lemma buildProfile_generated_id (id : string) (now due : Z) (body : ProfileBody) :
  pb_id body = None ->
  mp_id (V1.buildProfile id now due body) = id
  /\ mp_id (V2.buildProfile id now due body) = id.
Proof. intros E. cbn. rewrite E. split; reflexivity. Qed.

Lemma buildMetrics_generated_id (id : string) (now : Z) (body : MetricsBody) :
  mb_id body = None ->
  hm_id (V1.buildMetrics id now body) = id
  /\ hm_id (V2.buildMetrics id now body) = id.
Proof. intros E. cbn. rewrite E. split; reflexivity. Qed.

(** C9, at a failing input.  A profile body that carries
    [id = "profile-123"], sent while a profile is stored under that key,
    is accepted by the v1.0.0 handler: the identifier drawn, ["uuid-0000"],
    is not used, the new profile is stored under ["profile-123"] and
    replaces the one that was there.  A metrics body that carries
    [id = "metrics-1"] passes the lookup and the validator of the v1.1.0
    handler and is stored under ["metrics-1"]; the reply of that handler
    is the 500 of its [catch], because [res.json] throws on the record it
    has just stored. *)
Theorem C9_client_id_becomes_stored_id :
  (let body := janeDoeWith (Some "profile-123") (Some "2024-12-25") in
   let out := V1.createProfile host0 now0 body stateWithProfile in
   uuid_at host0 (uuid_calls stateWithProfile) = "uuid-0000"
   /\ maternalProfileStorage stateWithProfile !! "profile-123" = Some profile123
   /\ status (fst out) = 200
   /\ maternalProfileStorage (snd out) !! "uuid-0000" = None
   /\ size (maternalProfileStorage (snd out)) = 1%nat
   /\ exists stored,
        maternalProfileStorage (snd out) !! "profile-123" = Some stored
        /\ mp_id stored = "profile-123"
        /\ mp_createdAt stored = Nanos now0
        /\ stored <> profile123)
  /\ (let body :=
        vitals (Some "metrics-1") None (measured 120) (measured 80) (measured 95) (measured 12) in
      let out := V2.recordMetrics host0 now0 body stateWithProfile in
      uuid_at host0 (uuid_calls stateWithProfile) = "uuid-0000"
      /\ V2.validateHealthMetrics body = None
      /\ fst out = error_json 500 "Failed to record health metrics"
      /\ metricsStorage (snd out) !! "uuid-0000" = None
      /\ exists stored,
           metricsStorage (snd out) !! "metrics-1" = Some stored
           /\ hm_id stored = "metrics-1").
Proof.
  split.
  - split; [reflexivity|]. split; [reflexivity|]. split; [vm_compute; reflexivity|].
    split; [vm_compute; reflexivity|]. split; [vm_compute; reflexivity|].
    eexists. split; [vm_compute; reflexivity|].
    split; [reflexivity|]. split; [reflexivity|]. discriminate.
  - split; [reflexivity|]. split; [reflexivity|]. split; [reflexivity|].
    split; [vm_compute; reflexivity|].
    eexists. split; [vm_compute; reflexivity|]. reflexivity.
Qed.

(** ** C8: storing and displaying a date *)

(** C8, at a failing input.  The date 2024-12-25T00:00:00.002Z is stored
    by [parseDateToBigInt] as 1735084800002000000 nanoseconds; the display
    conversion [new Date(Number(t) / 1_000_000).toISOString()] of that
    value is 2024-12-25T00:00:00.001Z: [Number(t)] rounds the bigint to a
    double, the quotient falls below the millisecond and is truncated.
    The v1.0.0 handler alone shows the same loss: a profile created with
    that due date is answered with the due date one millisecond earlier. *)
Theorem C8_round_trip_loses_a_millisecond :
  let D := 1735084800002 in
  let iso := "2024-12-25T00:00:00.002Z" in
  JS.toISOString D = iso
  /\ Date_parse host0 iso = Some D
  /\ V2.parseDateToBigInt host0 (Some iso) = Some 1735084800002000000
  /\ V1.isoOfNanos 1735084800002000000 = Some "2024-12-25T00:00:00.001Z"
  /\ V1.isoOfNanos 1735084800002000000 <> Some iso
  /\ exists reply,
       fst (V1.createProfile host0 now0 (janeDoeWith None (Some iso)) (stateWithProvider true))
       = json (ProfileReply reply)
       /\ sp_dueDate reply = "2024-12-25T00:00:00.001Z".
Proof.
  split; [vm_compute; reflexivity|]. split; [reflexivity|].
  split; [vm_compute; reflexivity|]. split; [vm_compute; reflexivity|].
  split; [vm_compute; discriminate|].
  eexists. split; [vm_compute; reflexivity|]. reflexivity.
Qed.

Example round_trip_midnight :
  V2.parseDateToBigInt host0 (Some "2024-12-25") = Some 1735084800000000000
  /\ V1.isoOfNanos 1735084800000000000 = Some (JS.toISOString 1735084800000).
Proof. split; vm_compute; reflexivity. Qed.

Example toISOString_epoch : JS.toISOString 0 = "1970-01-01T00:00:00.000Z".
Proof. vm_compute. reflexivity. Qed.

Example toISOString_before_epoch : JS.toISOString (-1) = "1969-12-31T23:59:59.999Z".
Proof. vm_compute. reflexivity. Qed.

Example toISOString_leap_day : JS.toISOString 951782400000 = "2000-02-29T00:00:00.000Z".
Proof. vm_compute. reflexivity. Qed.

Example toISOString_latest : JS.toISOString 8640000000000000 = "+275760-09-13T00:00:00.000Z".
Proof. vm_compute. reflexivity. Qed.

Example toISOString_earliest : JS.toISOString (-8640000000000000) = "-271821-04-20T00:00:00.000Z".
Proof. vm_compute. reflexivity. Qed.

Example trim_spaces : JS.trim "  a b  " = "a b".
Proof. reflexivity. Qed.

Example sanitizeString_tags : V2.sanitizeString "<b>Jane</b>" = "bJane/b".
Proof. reflexivity. Qed.

(** * Further properties of the handlers *)

(** ** The profile validators *)

Lemma name_check (name : string) :
  negb (JS.truthy_string (Some name)) || (String.length (JS.trim name) <? 2)%nat = false
  <-> (2 <= String.length (JS.trim name))%nat.
Proof.
  rewrite orb_false_iff, Nat.ltb_ge. split; [tauto|].
  intros Hlen. split; [|exact Hlen].
  destruct name; [cbn in Hlen; lia | reflexivity].
Qed.

Lemma age_check (age : JS.number) :
  negb (JS.truthy age) || JS.ltb age (JS.of_Z 16) || JS.gtb age (JS.of_Z 60) = false
  <-> JS.le (JS.of_Z 16) age /\ JS.le age (JS.of_Z 60).
Proof.
  destruct age as [q| | |]; try (cbn; split; [discriminate | tauto]).
  unfold JS.truthy, JS.gtb, JS.ltb, JS.le, JS.of_Z.
  rewrite !orb_false_iff, !negb_false_iff.
  rewrite !Qle_bool_iff. split; [tauto|].
  intros [Hlo Hhi]. repeat split; try assumption.
  destruct (Qeq_bool q 0) eqn:E; [|reflexivity].
  exfalso. apply Qeq_bool_iff in E. rewrite E in Hlo.
  revert Hlo. unfold Qle, inject_Z. cbn. lia.
Qed.

Lemma bloodType_check (bloodType : string) :
  negb (JS.truthy_string (Some bloodType)) || negb (JS.includes bloodTypes bloodType) = false
  <-> In bloodType bloodTypes.
Proof.
  rewrite orb_false_iff, !negb_false_iff. unfold JS.includes.
  rewrite existsb_exists. split.
  - intros [_ (x & Hin & Heq)]. apply String.eqb_eq in Heq. subst x. exact Hin.
  - intros Hin. split.
    + destruct bloodType; [|reflexivity].
      cbn in Hin. repeat (destruct Hin as [Hin|Hin]; [discriminate Hin|]). contradiction.
    + exists bloodType. split; [exact Hin | apply String.eqb_refl].
Qed.

(** The three checks of the profile validator, in the words of the
    properties. *)
Lemma validateProfile_checks (body : ProfileBody) :
  (valid_name (pb_name body)
   <-> match pb_name body with
       | Some n => negb (JS.truthy_string (Some n)) || (String.length (JS.trim n) <? 2)%nat
       | None => true
       end = false)
  /\ (valid_age (pb_age body)
      <-> match pb_age body with
          | Some a => negb (JS.truthy a) || JS.ltb a (JS.of_Z 16) || JS.gtb a (JS.of_Z 60)
          | None => true
          end = false)
  /\ (valid_bloodType (pb_bloodType body)
      <-> match pb_bloodType body with
          | Some b => negb (JS.truthy_string (Some b)) || negb (JS.includes bloodTypes b)
          | None => true
          end = false).
Proof.
  split; [|split].
  - unfold valid_name. destruct (pb_name body) as [n|].
    + rewrite name_check. split; [intros (s & [= <-] & Hs); exact Hs | eauto].
    + split; [intros (s & Hs & _); discriminate | discriminate].
  - unfold valid_age. destruct (pb_age body) as [a|].
    + rewrite age_check. split; [intros (x & [= <-] & Hx); exact Hx | intros Hx; eauto].
    + split; [intros (s & Hs & _); discriminate | discriminate].
  - unfold valid_bloodType. destruct (pb_bloodType body) as [b|].
    + rewrite bloodType_check. split; [intros (x & [= <-] & Hx); exact Hx | eauto].
    + split; [intros (s & Hs & _); discriminate | discriminate].
Qed.

(** X1. The v1.0.0 profile validator accepts a body exactly when its name
    is present with at least two characters once trimmed, its age is a
    number from 16 to 60, and its blood type is one of the eight listed;
    otherwise the reason is that of the first of the three checks that
    fails, in this order. *)
Theorem validateProfile_accepts_exactly (body : ProfileBody) :
  let name := valid_name (pb_name body) in
  let age := valid_age (pb_age body) in
  let bloodType := valid_bloodType (pb_bloodType body) in
  (V1.validateProfile body = None <-> name /\ age /\ bloodType)
  /\ (~ name <-> V1.validateProfile body = Some "Name must be at least 2 characters long")
  /\ (name /\ ~ age <-> V1.validateProfile body = Some "Age must be between 16 and 60")
  /\ (name /\ age /\ ~ bloodType <-> V1.validateProfile body = Some "Invalid blood type").
Proof.
  intros name age bloodType. unfold V1.validateProfile.
  destruct (validateProfile_checks body) as (Hn & Ha & Hb).
  fold name in Hn. fold age in Ha. fold bloodType in Hb.
  set (bn := match pb_name body with Some _ => _ | None => _ end) in *.
  set (ba := match pb_age body with Some _ => _ | None => _ end) in *.
  set (bb := match pb_bloodType body with Some _ => _ | None => _ end) in *.
  clearbody bn ba bb.
  destruct bn, ba, bb; intuition (try discriminate; try congruence).
Qed.

(** X2. The v1.1.0 profile validator accepts exactly the bodies the
    v1.0.0 validator accepts whose name has at most 100 characters; on a
    name it refuses its reason is its own, and on every other body the two
    validators give the same answer. *)
Theorem validateProfile_V2_stricter (body : ProfileBody) :
  let short := forall s, pb_name body = Some s -> (String.length s <= 100)%nat in
  (V2.validateProfile body = None <-> V1.validateProfile body = None /\ short)
  /\ (~ (valid_name (pb_name body) /\ short)
      <-> V2.validateProfile body = Some "Name must be between 2 and 100 characters")
  /\ (valid_name (pb_name body) /\ short ->
      V2.validateProfile body = V1.validateProfile body).
Proof.
  intros short.
  destruct (validateProfile_checks body) as (Hn & _ & _).
  unfold V1.validateProfile, V2.validateProfile in *.
  set (ba := match pb_age body with Some _ => _ | None => _ end) in *.
  set (bb := match pb_bloodType body with Some _ => _ | None => _ end) in *.
  clearbody ba bb. unfold short. clear short.
  destruct (pb_name body) as [n|].
  - destruct (negb (JS.truthy_string (Some n)) || (String.length (JS.trim n) <? 2)%nat) eqn:En;
      cbn [orb].
    + assert (Hno : ~ valid_name (Some n)) by (intros Hv; apply Hn in Hv; discriminate).
      split; [split; [discriminate | intros [Hd _]; discriminate]|].
      split; [tauto | tauto].
    + assert (Hyes : valid_name (Some n)) by (apply Hn; reflexivity).
      destruct (100 <? String.length n)%nat eqn:El.
      * apply Nat.ltb_lt in El.
        assert (Hlong : ~ (forall s, Some n = Some s -> (String.length s <= 100)%nat)).
        { intros Hs. specialize (Hs n eq_refl). lia. }
        split; [split; [discriminate | tauto]|]. split; [tauto | tauto].
      * apply Nat.ltb_ge in El.
        assert (Hshort : forall s, Some n = Some s -> (String.length s <= 100)%nat).
        { intros s [= <-]. exact El. }
        split; [tauto|]. split; [|reflexivity].
        split; [tauto | destruct ba, bb; discriminate].
  - assert (Hno : ~ valid_name None) by (intros (s & Hs & _); discriminate).
    split; [split; [discriminate | intros [Hd _]; discriminate]|].
    split; [tauto | tauto].
Qed.

(** ** The metrics validators *)

(** X3. The two metrics validators differ on blood sugar only: the v1.1.0
    validator refuses a body exactly when the v1.0.0 validator refuses it
    for a blood pressure, with the same reason, and accepts every body the
    v1.0.0 validator accepts or refuses for its blood sugar. *)
Theorem validateHealthMetrics_V2_weaker (body : MetricsBody) :
  (forall e, V2.validateHealthMetrics body = Some e
             <-> V1.validateHealthMetrics body = Some e /\ e <> "Invalid blood sugar range")
  /\ (V2.validateHealthMetrics body = None
      <-> V1.validateHealthMetrics body = None
          \/ V1.validateHealthMetrics body = Some "Invalid blood sugar range").
Proof.
  unfold V1.validateHealthMetrics, V2.validateHealthMetrics.
  destruct (present_and_outside (mb_bloodPressureSystolic body) 70 190);
    [split; [intros e; split; [intros [= <-]; split; [reflexivity | discriminate] | tauto]
            | split; [discriminate | intros [|]; discriminate]]|].
  destruct (present_and_outside (mb_bloodPressureDiastolic body) 40 120);
    [split; [intros e; split; [intros [= <-]; split; [reflexivity | discriminate] | tauto]
            | split; [discriminate | intros [|]; discriminate]]|].
  destruct (present_and_outside (mb_bloodSugar body) 30 500).
  - split; [intros e; split; [discriminate | intros [[= <-] Hne]; congruence] | tauto].
  - split; [intros e; split; [discriminate | intros [Hd _]; discriminate] | tauto].
Qed.

(** ** [sanitizeString] *)

Lemma sanitizeString_chars (s : string) (c : ascii) :
  In c (chars (V2.sanitizeString s)) <-> In c (chars s) /\ ~ angle c.
Proof.
  unfold chars, angle. induction s as [|a s IH]; cbn [V2.sanitizeString list_ascii_of_string].
  - cbn. tauto.
  - destruct (Ascii.eqb a "<") eqn:E1; [apply Ascii.eqb_eq in E1|apply Ascii.eqb_neq in E1];
      cbn [orb].
    + rewrite IH. cbn [In]. subst a. split; [tauto|].
      intros [[Heq|Hin] Hno]; [exfalso; apply Hno; left; congruence | tauto].
    + destruct (Ascii.eqb a ">") eqn:E2; [apply Ascii.eqb_eq in E2|apply Ascii.eqb_neq in E2].
      * rewrite IH. cbn [In]. subst a. split; [tauto|].
        intros [[Heq|Hin] Hno]; [exfalso; apply Hno; right; congruence | tauto].
      * cbn [list_ascii_of_string In]. rewrite IH. split.
        -- intros [Heq|[Hin Hno]]; [subst c; split; [tauto | intros [?|?]; congruence] | tauto].
        -- tauto.
Qed.

Lemma sanitizeString_fixed (s : string) :
  (forall c, In c (chars s) -> ~ angle c) -> V2.sanitizeString s = s.
Proof.
  unfold chars, angle. induction s as [|a s IH]; intros Hno; [reflexivity|].
  cbn [V2.sanitizeString].
  assert (Ha : ~ (a = "<"%char \/ a = ">"%char)) by (apply Hno; left; reflexivity).
  destruct (Ascii.eqb a "<") eqn:E1; [apply Ascii.eqb_eq in E1; tauto|].
  destruct (Ascii.eqb a ">") eqn:E2; [apply Ascii.eqb_eq in E2; tauto|].
  cbn [orb]. f_equal. apply IH. intros c Hc. apply Hno. right. exact Hc.
Qed.

Lemma not_angle_spec (c : ascii) : not_angle c = true <-> ~ angle c.
Proof.
  unfold not_angle, angle. rewrite negb_true_iff, orb_false_iff.
  split.
  - intros [E1 E2] [Hc|Hc]; subst c; discriminate.
  - intros Hno. split; apply Ascii.eqb_neq; intros Hc; apply Hno; [left | right]; exact Hc.
Qed.

(** The characters of the result are those of the input that are no
    angle brackets, in the same order and as many times. *)
Lemma sanitizeString_filter (s : string) :
  chars (V2.sanitizeString s) = List.filter not_angle (chars s).
Proof.
  unfold chars, not_angle.
  induction s as [|a s IH]; cbn [V2.sanitizeString list_ascii_of_string List.filter].
  - reflexivity.
  - destruct (Ascii.eqb a "<" || Ascii.eqb a ">"); cbn [negb list_ascii_of_string].
    + exact IH.
    + f_equal. exact IH.
Qed.

(** X4. [sanitizeString] removes every '<' and '>' and nothing else: the
    characters of its result are the characters of its input that are no
    angle brackets, in the same order and as many times.  So its result
    has no angle bracket and is not longer than its input, it leaves a
    string without angle brackets as it is (and only such a string), and
    sanitizing twice is sanitizing once. *)
Theorem sanitizeString_removes_angle_brackets (s : string) :
  chars (V2.sanitizeString s) = List.filter not_angle (chars s)
  /\ (forall c, In c (chars (V2.sanitizeString s)) <-> In c (chars s) /\ ~ angle c)
  /\ (String.length (V2.sanitizeString s) <= String.length s)%nat
  /\ (V2.sanitizeString s = s <-> forall c, In c (chars s) -> ~ angle c)
  /\ V2.sanitizeString (V2.sanitizeString s) = V2.sanitizeString s.
Proof.
  split; [apply sanitizeString_filter|].
  split.
  { intros c. rewrite sanitizeString_filter, filter_In, not_angle_spec. tauto. }
  split.
  { induction s as [|a s IH]; [reflexivity|]. cbn [V2.sanitizeString].
    destruct (Ascii.eqb a "<" || Ascii.eqb a ">"); cbn [String.length]; lia. }
  split.
  { split; [|apply sanitizeString_fixed].
    intros Heq c Hc. rewrite <- Heq in Hc. apply sanitizeString_chars in Hc. tauto. }
  apply sanitizeString_fixed. intros c Hc. apply sanitizeString_chars in Hc. tauto.
Qed.

(** ** [parseDateToBigInt] *)

(** X5. [parseDateToBigInt] returns null exactly for an invalid date; on a
    valid date its value is the time value times 1 000 000, exactly: it is
    a whole number of milliseconds, dividing it by 1 000 000 gives the
    time value back, and the display conversion of the serializers does
    not throw on it. *)
Theorem parseDateToBigInt_exact (H : Host) (dateString : option string) :
  (V2.parseDateToBigInt H dateString = None <-> new_Date H dateString = None)
  /\ (forall t, V2.parseDateToBigInt H dateString = Some t ->
        exists tv,
          new_Date H dateString = Some tv
          /\ Z.abs tv <= JS.maxTime
          /\ t = tv * 1000000
          /\ t / 1000000 = tv
          /\ t mod 1000000 = 0
          /\ is_Some (V1.isoOfNanos t)).
Proof.
  unfold V2.parseDateToBigInt, V2.NANOS_PER_MILLISECOND.
  destruct (new_Date H dateString) as [tv|] eqn:Hd.
  - split; [split; discriminate|]. intros t [= <-]. exists tv.
    assert (Hr : Z.abs tv <= JS.maxTime).
    { unfold new_Date in Hd. destruct dateString as [str|]; [|discriminate].
      destruct (Date_parse H str) as [x|]; [|discriminate].
      destruct (Z.abs x <=? JS.maxTime) eqn:E; [|discriminate].
      injection Hd as <-. apply Z.leb_le. exact E. }
    split; [reflexivity|]. split; [exact Hr|]. split; [reflexivity|].
    split; [apply Z.div_mul; lia|]. split; [apply Z.mod_mul; lia|].
    apply isoOfNanos_total. unfold maxNanos, JS.maxTime in *. lia.
  - split; [tauto|]. discriminate.
Qed.

(** ** What a request can change *)

Lemma dueDateNanos_needs_date (H : Host) (body : ProfileBody) (due : Z) :
  V1.dueDateNanos H body = Some due ->
  exists tv, new_Date H (pb_dueDate body) = Some tv.
Proof.
  unfold V1.dueDateNanos. destruct (new_Date H (pb_dueDate body)) as [tv|]; [eauto|].
  rewrite million_eq. cbn. discriminate.
Qed.

(** The six outcomes of the v1.0.0 profile handler. *)
Lemma V1_createProfile_cases (H : Host) (now : Z) (body : ProfileBody) (st : State) :
  let out := V1.createProfile H now body st in
  let profile due := V1.buildProfile (uuid_at H (uuid_calls st)) now due body in
  (exists e, V1.validateProfile body = Some e /\ out = (error_json 400 e, st))
  \/ (V1.validateProfile body = None /\ pb_primaryCareProviderId body = None
      /\ out = (error_json 500 "Internal server error", st))
  \/ (V1.validateProfile body = None /\ names_provider st body None
      /\ out = (error_json 404 "Healthcare provider not found", st))
  \/ (V1.validateProfile body = None
      /\ (exists p, names_provider st body (Some p) /\ hp_isActive p = false)
      /\ out = (error_json 400 "Selected healthcare provider is not active", st))
  \/ (V1.validateProfile body = None
      /\ (exists p, names_provider st body (Some p) /\ hp_isActive p = true)
      /\ new_Date H (pb_dueDate body) = None
      /\ out = (error_json 500 "Internal server error", snd (uuidv4 H st)))
  \/ (V1.validateProfile body = None
      /\ (exists p, names_provider st body (Some p) /\ hp_isActive p = true)
      /\ exists tv due,
           new_Date H (pb_dueDate body) = Some tv
           /\ V1.dueDateNanos H body = Some due
           /\ snd out = insert_profile (profile due) (snd (uuidv4 H st))
           /\ fst out = match V1.serializeProfile H (profile due) with
                        | Some reply => json (ProfileReply reply)
                        | None => error_json 500 "Internal server error"
                        end).
Proof.
  intros out profile. unfold out, V1.createProfile, names_provider.
  destruct (V1.validateProfile body) as [e|]; [left; eauto|].
  destruct (pb_primaryCareProviderId body) as [k|]; cbn [get]; [|right; left; auto].
  destruct (providerStorage st !! k) as [p|] eqn:Hf;
    [|right; right; left; split; [reflexivity|]; split; [eauto | reflexivity]].
  destruct (hp_isActive p) eqn:Ha; cbn [negb];
    [|right; right; right; left; split; [reflexivity|]; split; [eauto 6 | reflexivity]].
  right. right. right. right. cbn [uuidv4].
  destruct (V1.dueDateNanos H body) as [due|] eqn:Hdue.
  - right. split; [reflexivity|]. split; [eauto 6|].
    destruct (dueDateNanos_needs_date H body due Hdue) as [tv Htv].
    exists tv, due. split; [exact Htv|]. split; [reflexivity|]. fold (profile due).
    destruct (V1.serializeProfile H (profile due)); split; reflexivity.
  - left. split; [reflexivity|]. split; [eauto 6|]. split; [|reflexivity].
    destruct (new_Date H (pb_dueDate body)) as [tv|] eqn:Htv; [|reflexivity].
    destruct (dueDateNanos_total H body tv Htv) as [due Hd]. congruence.
Qed.

Lemma serializeProfile_profile (H : Host) (profile : MaternalProfile)
    (reply : SerializedProfile) :
  V1.serializeProfile H profile = Some reply -> sp_profile reply = profile.
Proof.
  unfold V1.serializeProfile. intros Hr.
  destruct (V1.isoOfNanos _) in Hr; [|discriminate].
  destruct (V1.isoOfStamp H _) in Hr; [|discriminate].
  destruct (V1.isoOfStamp H _) in Hr; [|discriminate].
  injection Hr as <-. reflexivity.
Qed.

(** A body names at most one provider, and what the collection holds
    under that name is one thing. *)
Lemma names_provider_functional (st : State) (body : ProfileBody)
    (a b : option HealthcareProvider) :
  names_provider st body a -> names_provider st body b -> a = b.
Proof. intros (k & Hk & Ha) (k' & Hk' & Hb). congruence. Qed.

Lemma names_provider_present (st : State) (body : ProfileBody)
    (a : option HealthcareProvider) :
  names_provider st body a -> pb_primaryCareProviderId body <> None.
Proof. intros (k & Hk & _). congruence. Qed.

(** X6. With a nat64 clock the v1.0.0 profile handler writes all or
    nothing, except on a [createdAt] or [lastUpdated] of the body that is
    not a valid date.  A 200 carries the profile that a lookup under its
    identifier now finds.  A reply other than 200 leaves every collection
    as it was when it is not the 500, and also when what the body carries
    for [createdAt] and [lastUpdated] (nothing, for instance) are valid
    dates.  But a valid body with an active provider and a valid due date
    that carries a [createdAt] or [lastUpdated] which is not a valid date
    is stored and answered 500. *)
Theorem V1_createProfile_all_or_nothing (H : Host) (now : Z) (body : ProfileBody)
    (st : State) :
  0 <= now < 2 ^ 64 ->
  let out := V1.createProfile H now body st in
  let shown := displayable H (pb_createdAt body) /\ displayable H (pb_lastUpdated body) in
  (status (fst out) = 200 ->
   exists reply,
     fst out = json (ProfileReply reply)
     /\ maternalProfileStorage (snd out) !! mp_id (sp_profile reply)
        = Some (sp_profile reply))
  /\ (status (fst out) <> 200 -> status (fst out) <> 500 -> same_collections st (snd out))
  /\ (status (fst out) <> 200 -> shown -> same_collections st (snd out))
  /\ (V1.validateProfile body = None ->
      (exists p, names_provider st body (Some p) /\ hp_isActive p = true) ->
      new_Date H (pb_dueDate body) <> None ->
      ~ shown ->
      fst out = error_json 500 "Internal server error"
      /\ exists profile,
           maternalProfileStorage (snd out) !! mp_id profile = Some profile
           /\ mp_createdAt profile = stamped now (pb_createdAt body)
           /\ mp_lastUpdated profile = stamped now (pb_lastUpdated body)).
Proof.
  intros Hnow out shown.
  destruct (V1_createProfile_cases H now body st)
    as [(e & Hv & E) | [(_ & Hn & E) | [(_ & Hu & E) | [(_ & (q & Hq & Hi) & E)
        | [(_ & _ & Hd & E) | (_ & _ & tv & due & Htv & Hdue & Est & Eres)]]]]];
    fold out in E || idtac.
  - rewrite E. cbn. split; [discriminate|]. split; [intros; repeat split|].
    split; [intros; repeat split|]. intros Hv'. congruence.
  - rewrite E. cbn. split; [discriminate|]. split; [intros; repeat split|].
    split; [intros; repeat split|]. intros _ (p & Hp & _). exfalso.
    exact (names_provider_present _ _ _ Hp Hn).
  - rewrite E. cbn. split; [discriminate|]. split; [intros; repeat split|].
    split; [intros; repeat split|]. intros _ (p & Hp & _). exfalso.
    pose proof (names_provider_functional _ _ _ _ Hp Hu). congruence.
  - rewrite E. cbn. split; [discriminate|]. split; [intros; repeat split|].
    split; [intros; repeat split|]. intros _ (p & Hp & Ha). exfalso.
    pose proof (names_provider_functional _ _ _ _ Hp Hq). congruence.
  - rewrite E. cbn. split; [discriminate|]. split; [intros; repeat split|].
    split; [intros; repeat split|]. intros _ _ Hdate. congruence.
  - fold out in Est, Eres.
    pose proof (serializeProfile_built H now due tv (uuid_at H (uuid_calls st)) body
                  (nat64_in_date_range now Hnow) Htv Hdue) as Hshown.
    fold shown in Hshown.
    destruct (V1.serializeProfile H _) as [reply|] eqn:Hreply.
    + assert (Hs : shown) by (apply Hshown; eexists; reflexivity).
      rewrite Eres, Est. cbn [status json].
      split.
      { intros _. exists reply. split; [reflexivity|].
        rewrite (serializeProfile_profile _ _ _ Hreply). cbn. apply lookup_insert_eq. }
      split; [congruence|]. split; [congruence|]. tauto.
    + assert (Hs : ~ shown).
      { intros Hs. apply Hshown in Hs. destruct Hs as [x Hx]. discriminate Hx. }
      rewrite Eres, Est. cbn [status error_json].
      split; [discriminate|]. split; [congruence|]. split; [tauto|].
      intros _ _ _ _. split; [reflexivity|].
      exists (V1.buildProfile (uuid_at H (uuid_calls st)) now due body).
      split; [cbn; apply lookup_insert_eq|]. split; reflexivity.
Qed.

Lemma V1_createProfile_all_or_nothing_witness :
  let out := V1.createProfile host0 now0 janeDoe (stateWithProvider true) in
  0 <= now0 < 2 ^ 64
  /\ status (fst out) = 200
  /\ exists reply,
       fst out = json (ProfileReply reply)
       /\ maternalProfileStorage (snd out) !! mp_id (sp_profile reply)
          = Some (sp_profile reply).
Proof.
  assert (Hclock : 0 <= now0 < 2 ^ 64) by (split; [discriminate | reflexivity]).
  assert (Hok : status (fst (V1.createProfile host0 now0 janeDoe (stateWithProvider true)))
                = 200) by (vm_compute; reflexivity).
  split; [exact Hclock|]. split; [exact Hok|].
  destruct (V1_createProfile_all_or_nothing host0 now0 janeDoe (stateWithProvider true) Hclock)
    as (Hreply & _).
  exact (Hreply Hok).
Defined.

(** X7. Whatever the body, the v1.0.0 profile handler leaves the
    provider, metrics, visit and alert collections as they were, and in the
    profile collection every key other than the identifier of the profile
    it builds (the body's [id], or else the one drawn). *)
Theorem V1_createProfile_frame (H : Host) (now : Z) (body : ProfileBody) (st : State) :
  let st' := snd (V1.createProfile H now body st) in
  providerStorage st' = providerStorage st
  /\ metricsStorage st' = metricsStorage st
  /\ visitStorage st' = visitStorage st
  /\ alertStorage st' = alertStorage st
  /\ forall k, k <> default (uuid_at H (uuid_calls st)) (pb_id body) ->
       maternalProfileStorage st' !! k = maternalProfileStorage st !! k.
Proof.
  intros st'. unfold st'.
  destruct (V1_createProfile_cases H now body st)
    as [(e & _ & E) | [(_ & _ & E) | [(_ & _ & E) | [(_ & _ & E) | [(_ & _ & _ & E)
        | (_ & _ & tv & due & _ & _ & Est & _)]]]]].
  1-5: rewrite E; cbn; repeat split.
  rewrite Est. cbn. repeat split. intros k Hk. apply lookup_insert_ne. congruence.
Qed.

(** X8. With a nat64 clock the status of the v1.0.0 profile reply names
    its cause: 404 exactly when the body is valid and names a provider
    that is not stored; 400 exactly when the body is invalid, or valid
    with a stored provider that is not active; 200 exactly when the body
    is valid, the provider active, the due date valid and a [createdAt]
    or [lastUpdated] that the body carries a valid date as well; 500
    exactly when the body is valid and names no provider, or names an
    active one and the due date, or a [createdAt] or [lastUpdated] that
    the body carries, is not a valid date. *)
Theorem V1_createProfile_status (H : Host) (now : Z) (body : ProfileBody) (st : State) :
  0 <= now < 2 ^ 64 ->
  let code := status (fst (V1.createProfile H now body st)) in
  let valid := V1.validateProfile body = None in
  let absent := pb_primaryCareProviderId body = None in
  let unknown := names_provider st body None in
  let active := exists p, names_provider st body (Some p) /\ hp_isActive p = true in
  let inactive := exists p, names_provider st body (Some p) /\ hp_isActive p = false in
  let date := new_Date H (pb_dueDate body) in
  let shown := displayable H (pb_createdAt body) /\ displayable H (pb_lastUpdated body) in
  (code = 404 <-> valid /\ unknown)
  /\ (code = 400 <-> ~ valid \/ (valid /\ inactive))
  /\ (code = 500 <-> valid /\ (absent \/ (active /\ (date = None \/ ~ shown))))
  /\ (code = 200 <-> valid /\ active /\ date <> None /\ shown).
Proof.
  intros Hnow code valid absent unknown active inactive date shown.
  assert (Hai : ~ (active /\ inactive)).
  { intros [(p & Hp & Ha) (q & Hq & Hi)].
    pose proof (names_provider_functional _ _ _ _ Hp Hq). congruence. }
  assert (Hau : ~ (active /\ unknown)).
  { intros [(p & Hp & _) Hu].
    pose proof (names_provider_functional _ _ _ _ Hp Hu). congruence. }
  assert (Hiu : ~ (inactive /\ unknown)).
  { intros [(p & Hp & _) Hu].
    pose proof (names_provider_functional _ _ _ _ Hp Hu). congruence. }
  assert (Hab : absent -> ~ active /\ ~ inactive /\ ~ unknown).
  { intros Hn. split; [|split].
    - intros (p & Hp & _). exact (names_provider_present _ _ _ Hp Hn).
    - intros (p & Hp & _). exact (names_provider_present _ _ _ Hp Hn).
    - intros Hu. exact (names_provider_present _ _ _ Hu Hn). }
  unfold code.
  destruct (V1_createProfile_cases H now body st)
    as [(e & Hv & E) | [(Hv & Hn & E) | [(Hv & Hu & E) | [(Hv & Hi & E) | [(Hv & Ha & Hd & E)
        | (Hv & Ha & tv & due & Htv & Hdue & Est & Eres)]]]]].
  - rewrite E. cbn [fst status error_json].
    assert (Hnv : ~ valid) by (unfold valid; congruence).
    status_cases.
  - rewrite E. cbn [fst status error_json]. fold absent in Hn. fold valid in Hv.
    specialize (Hab Hn).
    status_cases.
  - rewrite E. cbn [fst status error_json]. fold unknown in Hu. fold valid in Hv.
    assert (~ absent) by (exact (names_provider_present _ _ _ Hu)).
    status_cases.
  - rewrite E. cbn [fst status error_json]. fold inactive in Hi. fold valid in Hv.
    assert (~ absent) by (destruct Hi as (p & Hp & _); exact (names_provider_present _ _ _ Hp)).
    status_cases.
  - rewrite E. cbn [fst status error_json]. fold active in Ha. fold valid in Hv.
    fold date in Hd.
    assert (~ absent) by (destruct Ha as (p & Hp & _); exact (names_provider_present _ _ _ Hp)).
    status_cases.
  - fold active in Ha. fold valid in Hv. fold date in Htv.
    assert (~ absent) by (destruct Ha as (p & Hp & _); exact (names_provider_present _ _ _ Hp)).
    assert (date <> None) by congruence.
    pose proof (serializeProfile_built H now due tv (uuid_at H (uuid_calls st)) body
                  (nat64_in_date_range now Hnow) Htv Hdue) as Hshown.
    fold shown in Hshown.
    destruct (V1.serializeProfile H _) as [reply|].
    + assert (shown) by (apply Hshown; eexists; reflexivity).
      rewrite Eres. cbn [status json].
      status_cases.
    + assert (~ shown).
      { intros Hs. apply Hshown in Hs. destruct Hs as [x Hx]. discriminate Hx. }
      rewrite Eres. cbn [status error_json].
      status_cases.
Qed.

Lemma V1_createProfile_status_witness :
  let code := status (fst (V1.createProfile host0 now0 janeDoeSoon (stateWithProvider true))) in
  0 <= now0 < 2 ^ 64 /\ code = 500.
Proof.
  assert (Hclock : 0 <= now0 < 2 ^ 64) by (split; [discriminate | reflexivity]).
  split; [exact Hclock|].
  apply (V1_createProfile_status host0 now0 janeDoeSoon (stateWithProvider true) Hclock).
  split; [reflexivity|]. right. split.
  - exists (provider123 true). split; [|reflexivity].
    exists "provider-123". split; reflexivity.
  - right. intros [Hc _]. destruct (Hc (JString "soon") eq_refl) as [x Hx].
    vm_compute in Hx. discriminate Hx.
Defined.

(** The record the v1.0.0 metrics handler stores for a body it accepts. *)
Lemma V1_recordMetrics_cases (H : Host) (now : Z) (body : MetricsBody) (st : State) :
  let out := V1.recordMetrics H now body st in
  let m0 := V1.buildMetrics (uuid_at H (uuid_calls st)) now body in
  (exists e, V1.validateHealthMetrics body = Some e /\ out = (error_json 400 e, st))
  \/ (V1.validateHealthMetrics body = None
      /\ exists m st1,
           m = (if V1.assessRisk m0 then V1.flag m0 else m0)
           /\ st1 = (if V1.assessRisk m0
                     then V1.createHighRiskAlert H now (V1.flag m0) (snd (uuidv4 H st))
                     else snd (uuidv4 H st))
           /\ snd out = insert_metrics m st1
           /\ fst out = match V1.serializeMetrics H m with
                        | Some reply => json (MetricsReply reply)
                        | None => error_json 500 "Failed to record health metrics"
                        end).
Proof.
  intros out m0. unfold out, V1.recordMetrics.
  destruct (V1.validateHealthMetrics body) as [e|]; [left; eauto|].
  right. split; [reflexivity|]. cbn [uuidv4]. fold m0.
  destruct (V1.assessRisk m0); eexists; eexists; (split; [reflexivity|]);
    (split; [reflexivity|]);
    match goal with |- context [V1.serializeMetrics H ?x] => destruct (V1.serializeMetrics H x) end;
    split; reflexivity.
Qed.

(** X9. With a nat64 clock the v1.0.0 metrics handler answers 400 exactly
    when its validator refuses the body, then with the validator's reason
    and with every collection and the identifier supply untouched.  When
    the validator accepts, the record is stored under its identifier, with
    the [recordedAt] the body carries or else the time of the request, and
    the reply is the 200 with the record exactly when that time can be
    printed (as the time of the request always can); otherwise the reply
    is the 500 'Failed to record health metrics', with the record left in
    the collection. *)
Theorem V1_recordMetrics_reply_and_store (H : Host) (now : Z) (body : MetricsBody)
    (st : State) :
  0 <= now < 2 ^ 64 ->
  let out := V1.recordMetrics H now body st in
  let shown := displayable H (mb_recordedAt body) in
  (forall e, V1.validateHealthMetrics body = Some e <-> out = (error_json 400 e, st))
  /\ (status (fst out) = 400 <-> V1.validateHealthMetrics body <> None)
  /\ (status (fst out) = 200 <-> V1.validateHealthMetrics body = None /\ shown)
  /\ (status (fst out) = 500 <-> V1.validateHealthMetrics body = None /\ ~ shown)
  /\ (V1.validateHealthMetrics body = None ->
      exists m,
        metricsStorage (snd out) !! hm_id m = Some m
        /\ hm_recordedAt m = stamped now (mb_recordedAt body)
        /\ (shown ->
            exists iso,
              fst out = json (MetricsReply {| sm_metrics := m; sm_recordedAt := iso |})
              /\ V1.isoOfStamp H (hm_recordedAt m) = Some iso)
        /\ (~ shown -> fst out = error_json 500 "Failed to record health metrics")).
Proof.
  intros Hnow out shown.
  pose proof (isoOfStamp_stamped H now (mb_recordedAt body) (nat64_in_date_range now Hnow))
    as Hshown.
  fold shown in Hshown.
  destruct (V1.validateHealthMetrics body) as [e|] eqn:Hv.
  - assert (E : out = (error_json 400 e, st)).
    { unfold out, V1.recordMetrics. rewrite Hv. reflexivity. }
    rewrite E. cbn [fst status error_json].
    split; [intros e'; split; [intros [= <-]; reflexivity | intros [= <-]; reflexivity]|].
    split; [split; [discriminate | reflexivity]|].
    split; [split; [discriminate | intros [Hd _]; discriminate Hd]|].
    split; [split; [discriminate | intros [Hd _]; discriminate Hd] | discriminate].
  - pose proof (V1_recordMetrics_fst H now body st Hv) as Efst. cbv zeta in Efst.
    pose proof (V1_recordMetrics_state H now body st Hv) as Esnd. cbv zeta in Esnd.
    fold out in Efst, Esnd.
    set (m0 := V1.buildMetrics (uuid_at H (uuid_calls st)) now body) in *.
    set (m := if V1.assessRisk m0 then V1.flag m0 else m0) in *.
    assert (Hrec : hm_recordedAt m = stamped now (mb_recordedAt body)).
    { unfold m. destruct (V1.assessRisk m0); reflexivity. }
    assert (Hstored : metricsStorage (snd out) !! hm_id m = Some m).
    { rewrite Esnd. unfold m. destruct (V1.assessRisk m0); cbn; apply lookup_insert_eq. }
    destruct (V1.isoOfStamp H (stamped now (mb_recordedAt body))) as [iso|] eqn:Hiso.
    + assert (Hs : shown) by (apply Hshown; eexists; reflexivity).
      split.
      { intros e. split; [discriminate|]. intros E. rewrite E in Efst. discriminate Efst. }
      rewrite Efst. cbn [status json].
      split; [split; [discriminate | congruence]|].
      split; [split; [auto | reflexivity]|].
      split; [split; [discriminate | tauto]|].
      intros _. exists m. split; [exact Hstored|]. split; [exact Hrec|].
      split; [|tauto]. intros _. exists iso. split; [reflexivity|]. rewrite Hrec. exact Hiso.
    + assert (Hs : ~ shown).
      { intros Hs. apply Hshown in Hs. destruct Hs as [x Hx]. discriminate Hx. }
      split.
      { intros e. split; [discriminate|]. intros E. rewrite E in Efst. discriminate Efst. }
      rewrite Efst. cbn [status error_json].
      split; [split; [discriminate | congruence]|].
      split; [split; [discriminate | tauto]|].
      split; [split; [auto | reflexivity]|].
      intros _. exists m. split; [exact Hstored|]. split; [exact Hrec|].
      split; [tauto | reflexivity].
Qed.

Lemma V1_recordMetrics_reply_and_store_witness :
  let body := vitals None None (measured 120) (measured 80) (measured 95) (measured 12) in
  0 <= now0 < 2 ^ 64
  /\ status (fst (V1.recordMetrics host0 now0 body emptyState)) = 200.
Proof.
  assert (Hclock : 0 <= now0 < 2 ^ 64) by (split; [discriminate | reflexivity]).
  split; [exact Hclock|].
  apply (V1_recordMetrics_reply_and_store host0 now0
           (vitals None None (measured 120) (measured 80) (measured 95) (measured 12))
           emptyState Hclock).
  split; [reflexivity | apply displayable_absent].
Defined.

(** X10. Whatever the body, the v1.0.0 metrics handler leaves the
    profile, provider and visit collections as they were; in the metrics
    collection it leaves every key other than the identifier of the record
    it builds; in the alert collection it leaves every key other than the
    second identifier it draws, and the whole collection when the record
    it builds is not high-risk. *)
Theorem V1_recordMetrics_frame (H : Host) (now : Z) (body : MetricsBody) (st : State) :
  let st' := snd (V1.recordMetrics H now body st) in
  let m0 := V1.buildMetrics (uuid_at H (uuid_calls st)) now body in
  maternalProfileStorage st' = maternalProfileStorage st
  /\ providerStorage st' = providerStorage st
  /\ visitStorage st' = visitStorage st
  /\ (forall k, k <> hm_id m0 -> metricsStorage st' !! k = metricsStorage st !! k)
  /\ (forall k, k <> uuid_at H (S (uuid_calls st)) ->
        alertStorage st' !! k = alertStorage st !! k)
  /\ (V1.assessRisk m0 = false -> alertStorage st' = alertStorage st).
Proof.
  intros st' m0. unfold st'.
  destruct (V1_recordMetrics_cases H now body st)
    as [(e & Hv & E) | (Hv & m & st1 & Hm & Hst1 & Est & _)].
  - rewrite E. cbn. repeat split.
  - rewrite Est, Hst1, Hm. fold m0.
    destruct (V1.assessRisk m0); cbn; repeat split;
      try (intros k Hk; apply lookup_insert_ne; congruence); discriminate.
Qed.

(** ** The v1.1.0 handlers *)

Lemma sanitizeName_no_angle (body : ProfileBody) (n : string) :
  pb_name (V2.sanitizeName body) = Some n -> forall c, In c (chars n) -> ~ angle c.
Proof.
  cbn [V2.sanitizeName pb_name]. destruct (pb_name body) as [[|a s]|]; cbn.
  - intros [= <-] c [].
  - intros [= <-] c Hc. change (In c (chars (V2.sanitizeString (String a s)))) in Hc.
    apply sanitizeString_chars in Hc. tauto.
  - discriminate.
Qed.

(** The three outcomes of the v1.1.0 profile handler. *)
Lemma V2_createProfile_cases (H : Host) (now : Z) (body0 : ProfileBody) (st : State) :
  let out := V2.createProfile H now body0 st in
  let body := V2.sanitizeName body0 in
  (exists e, V2.validateProfile body = Some e /\ out = (error_json 400 e, st))
  \/ (V2.validateProfile body = None
      /\ (new_Date H (pb_dueDate body0) = None \/ new_Date H (pb_dueDate body0) = Some 0)
      /\ out = (error_json 400 "Invalid date format for dueDate", st))
  \/ (V2.validateProfile body = None
      /\ exists tv,
           new_Date H (pb_dueDate body0) = Some tv /\ tv <> 0
           /\ out = (error_json 500 "Internal server error",
                     insert_profile
                       (V2.buildProfile (uuid_at H (uuid_calls st)) now (tv * 1000000) body)
                       (snd (uuidv4 H st)))).
Proof.
  intros out body. unfold out, V2.createProfile. fold body.
  destruct (V2.validateProfile body) as [e|]; [left; eauto|]. right.
  change (pb_dueDate body) with (pb_dueDate body0).
  unfold V2.parseDateToBigInt, V2.NANOS_PER_MILLISECOND.
  destruct (new_Date H (pb_dueDate body0)) as [tv|]; [|left; auto].
  destruct (Z.eq_dec tv 0) as [->|Hnz]; [left; auto|].
  right. split; [reflexivity|]. exists tv. split; [reflexivity|]. split; [exact Hnz|].
  destruct (tv * 1000000) eqn:E; [lia| |]; reflexivity.
Qed.

(** X11. The v1.1.0 profile handler never answers 200.  It answers 400
    and leaves the whole state as it was, unless the body with its name
    sanitized passes the validator and the due date is a valid date other
    than the epoch; then it stores the profile and answers 500 'Internal
    server error', because [res.json] throws on the [bigint] of the
    profile.  The stored profile is under its identifier, its name has no
    '<' and no '>', its due date is the time value times 1 000 000
    exactly, its [createdAt] is the one the body carries or else the time
    of the request, and no other collection changes. *)
Theorem V2_createProfile_outcomes (H : Host) (now : Z) (body0 : ProfileBody) (st : State) :
  let out := V2.createProfile H now body0 st in
  let accepted :=
    V2.validateProfile (V2.sanitizeName body0) = None
    /\ exists tv, new_Date H (pb_dueDate body0) = Some tv /\ tv <> 0 in
  (status (fst out) = 500 \/ status (fst out) = 400)
  /\ (status (fst out) = 500 <-> accepted)
  /\ (status (fst out) = 400 -> snd out = st)
  /\ (accepted ->
      exists profile tv,
        fst out = error_json 500 "Internal server error"
        /\ maternalProfileStorage (snd out)
           = <[mp_id profile := profile]> (maternalProfileStorage st)
        /\ providerStorage (snd out) = providerStorage st
        /\ metricsStorage (snd out) = metricsStorage st
        /\ visitStorage (snd out) = visitStorage st
        /\ alertStorage (snd out) = alertStorage st
        /\ new_Date H (pb_dueDate body0) = Some tv
        /\ mp_dueDate profile = tv * 1000000
        /\ mp_createdAt profile = stamped now (pb_createdAt body0)
        /\ (forall n, mp_name profile = Some n -> forall c, In c (chars n) -> ~ angle c)).
Proof.
  intros out accepted. unfold accepted.
  destruct (V2_createProfile_cases H now body0 st)
    as [(e & Hv & E) | [(Hv & Hd & E) | (Hv & tv & Htv & Hnz & E)]]; fold out in E;
    rewrite E; cbn [fst snd status json error_json].
  - split; [tauto|]. split; [|split; [reflexivity|]].
    + split; [discriminate | intros [Hv' _]; congruence].
    + intros [Hv' _]. congruence.
  - split; [tauto|]. split; [|split; [reflexivity|]].
    + split; [discriminate|]. intros [_ (tv & Htv & Hnz)]. destruct Hd; congruence.
    + intros [_ (tv & Htv & Hnz)]. destruct Hd; congruence.
  - split; [tauto|]. split; [split; [eauto | reflexivity]|].
    split; [discriminate|]. intros _.
    exists (V2.buildProfile (uuid_at H (uuid_calls st)) now (tv * 1000000)
              (V2.sanitizeName body0)), tv.
    split; [reflexivity|]. cbn.
    repeat split; try assumption.
    intros n Hn. apply (sanitizeName_no_angle body0). exact Hn.
Qed.

(** The five outcomes of the v1.1.0 metrics handler. *)
Lemma V2_recordMetrics_cases (H : Host) (now : Z) (body : MetricsBody) (st : State) :
  let out := V2.recordMetrics H now body st in
  let m := V2.buildMetrics (uuid_at H (uuid_calls st)) now body in
  (mb_maternalProfileId body = None
   /\ out = (error_json 500 "Failed to record health metrics", st))
  \/ (names_profile st body None
      /\ out = (error_json 404 "Maternal profile not found", st))
  \/ ((exists p, names_profile st body (Some p))
      /\ exists e, V2.validateHealthMetrics body = Some e /\ out = (error_json 400 e, st))
  \/ ((exists p, names_profile st body (Some p))
      /\ V2.validateHealthMetrics body = None
      /\ mb_recordedAt body = None
      /\ out = (error_json 500 "Failed to record health metrics",
                insert_metrics m (snd (uuidv4 H st))))
  \/ ((exists p, names_profile st body (Some p))
      /\ V2.validateHealthMetrics body = None
      /\ mb_recordedAt body <> None
      /\ out = (json (RawMetricsReply m), insert_metrics m (snd (uuidv4 H st)))).
Proof.
  intros out m. unfold out, V2.recordMetrics, names_profile.
  destruct (mb_maternalProfileId body) as [k|]; cbn [get]; [|left; auto]. right.
  destruct (maternalProfileStorage st !! k) as [p|] eqn:Hf;
    [|left; split; [eauto | reflexivity]].
  right.
  destruct (V2.validateHealthMetrics body) as [e|].
  - left. split; [eauto | eauto].
  - right. cbn [uuidv4]. fold m. unfold res_json, has_bigint.
    assert (Hrec : hm_recordedAt m = stamped now (mb_recordedAt body)) by reflexivity.
    rewrite Hrec. clear Hrec.
    destruct (mb_recordedAt body) as [v|]; cbn [stamped].
    + right. split; [eauto|]. split; [reflexivity|]. split; [discriminate | reflexivity].
    + left. split; [eauto|]. split; [reflexivity|]. split; reflexivity.
Qed.

Lemma names_profile_functional (st : State) (body : MetricsBody)
    (a b : option MaternalProfile) :
  names_profile st body a -> names_profile st body b -> a = b.
Proof. intros (k & Hk & Ha) (k' & Hk' & Hb). congruence. Qed.

Lemma names_profile_present (st : State) (body : MetricsBody) (a : option MaternalProfile) :
  names_profile st body a -> mb_maternalProfileId body <> None.
Proof. intros (k & Hk & _). congruence. Qed.

(** X12. The status of the v1.1.0 metrics reply names its cause: 404
    exactly when the body names a profile that is not stored; 400 exactly
    when it names a stored profile and the validator refuses the body; 200
    exactly when it names a stored profile, the validator accepts and the
    body carries a [recordedAt] of its own; 500 exactly when it names no
    profile, or names a stored one, the validator accepts and the body
    carries no [recordedAt], so that [res.json] throws on the [bigint]
    written by the handler.  The record is stored exactly when the body
    names a stored profile and the validator accepts, whether the reply is
    then the 200 or the 500; otherwise the whole state is left as it was.
    No alert is ever written, and no other collection changes. *)
Theorem V2_recordMetrics_outcomes (H : Host) (now : Z) (body : MetricsBody) (st : State) :
  let out := V2.recordMetrics H now body st in
  let absent := mb_maternalProfileId body = None in
  let unknown := names_profile st body None in
  let resolves := exists p, names_profile st body (Some p) in
  let accepts := V2.validateHealthMetrics body = None in
  let carried := mb_recordedAt body <> None in
  (status (fst out) = 404 <-> unknown)
  /\ (status (fst out) = 400 <-> resolves /\ ~ accepts)
  /\ (status (fst out) = 200 <-> resolves /\ accepts /\ carried)
  /\ (status (fst out) = 500 <-> absent \/ (resolves /\ accepts /\ ~ carried))
  /\ (~ (resolves /\ accepts) -> snd out = st)
  /\ (resolves /\ accepts ->
      exists m,
        metricsStorage (snd out) = <[hm_id m := m]> (metricsStorage st)
        /\ hm_recordedAt m = stamped now (mb_recordedAt body)
        /\ hm_isFlaggedForReview m = default false (mb_isFlaggedForReview body)
        /\ (carried -> fst out = json (RawMetricsReply m))
        /\ (~ carried -> fst out = error_json 500 "Failed to record health metrics"))
  /\ alertStorage (snd out) = alertStorage st
  /\ maternalProfileStorage (snd out) = maternalProfileStorage st
  /\ providerStorage (snd out) = providerStorage st
  /\ visitStorage (snd out) = visitStorage st.
Proof.
  intros out absent unknown resolves accepts carried.
  assert (Hru : ~ (resolves /\ unknown)).
  { intros [(p & Hp) Hu]. pose proof (names_profile_functional _ _ _ _ Hp Hu). congruence. }
  assert (Hra : ~ (resolves /\ absent)).
  { intros [(p & Hp) Ha]. exact (names_profile_present _ _ _ Hp Ha). }
  assert (Hua : ~ (unknown /\ absent)).
  { intros [Hu Ha]. exact (names_profile_present _ _ _ Hu Ha). }
  destruct (V2_recordMetrics_cases H now body st)
    as [(Ha & E) | [(Hu & E) | [(Hr & e & Hv & E) | [(Hr & Hv & Hc & E) | (Hr & Hv & Hc & E)]]]];
    fold out in E; rewrite E; cbn [fst snd status json error_json].
  - fold absent in Ha.
    repeat split; try tauto; try discriminate; try (intros; lia).
  - fold unknown in Hu.
    repeat split; try tauto; try discriminate; try (intros; lia).
  - fold resolves in Hr. assert (~ accepts) by (unfold accepts; congruence).
    repeat split; try tauto; try discriminate; try (intros; lia).
  - fold resolves in Hr. fold accepts in Hv. assert (~ carried) by (unfold carried; tauto).
    repeat split; try tauto; try discriminate; try (intros; lia).
    intros _. eexists. split; [reflexivity|]. cbn. repeat split; tauto.
  - fold resolves in Hr. fold accepts in Hv. fold carried in Hc.
    repeat split; try tauto; try discriminate; try (intros; lia).
    intros _. eexists. split; [reflexivity|]. cbn. repeat split; tauto.
Qed.

(** X13. In v1.1.0 a profile that the profile handler has stored can
    have metrics recorded.  When the profile handler accepts a body (its
    reply is then the 500 of its [catch], see X11), the profile is stored
    under its identifier (the body's [id], or else the one drawn), and the
    metrics handler, given that identifier, never answers 404: it answers
    400 exactly when its validator refuses the body, and otherwise stores
    a record that refers to the profile. *)
Theorem V2_create_then_record (H : Host) (now now' : Z) (pbody : ProfileBody)
    (mbody : MetricsBody) (st : State) :
  let created := V2.createProfile H now pbody st in
  let id := default (uuid_at H (uuid_calls st)) (pb_id pbody) in
  let recorded := V2.recordMetrics H now' mbody (snd created) in
  V2.validateProfile (V2.sanitizeName pbody) = None ->
  (exists tv, new_Date H (pb_dueDate pbody) = Some tv /\ tv <> 0) ->
  mb_maternalProfileId mbody = Some id ->
  (exists profile,
     mp_id profile = id
     /\ maternalProfileStorage (snd created) !! id = Some profile)
  /\ status (fst recorded) <> 404
  /\ (status (fst recorded) = 400 <-> V2.validateHealthMetrics mbody <> None)
  /\ (V2.validateHealthMetrics mbody = None ->
      exists m,
        hm_maternalProfileId m = Some id
        /\ metricsStorage (snd recorded) !! hm_id m = Some m).
Proof.
  intros created id recorded Hval (tv0 & Hd0 & Hnz0) Hid.
  destruct (V2_createProfile_cases H now pbody st)
    as [(e & Hv & _) | [(_ & Hd & _) | (_ & tv & _ & _ & E)]].
  { congruence. }
  { destruct Hd; congruence. }
  fold created in E.
  set (p := V2.buildProfile (uuid_at H (uuid_calls st)) now (tv * 1000000)
              (V2.sanitizeName pbody)) in *.
  assert (Hp : mp_id p = id) by reflexivity.
  assert (Hstored : maternalProfileStorage (snd created) !! id = Some p).
  { rewrite E. cbn [snd insert_profile maternalProfileStorage]. rewrite Hp.
    apply lookup_insert_eq. }
  split; [exists p; split; [exact Hp | exact Hstored]|].
  assert (Hres : names_profile (snd created) mbody (Some p)).
  { exists id. split; [exact Hid | exact Hstored]. }
  destruct (V2_recordMetrics_cases H now' mbody (snd created))
    as [(Ha & _) | [(Hu & _) | [(_ & e & Hv & E2) | [(_ & Hv & _ & E2) | (_ & Hv & _ & E2)]]]].
  - congruence.
  - pose proof (names_profile_functional _ _ _ _ Hres Hu). congruence.
  - fold recorded in E2. rewrite E2, Hv. cbn.
    split; [discriminate|]. split; [split; [discriminate | reflexivity] | discriminate].
  - fold recorded in E2. rewrite E2, Hv. cbn.
    split; [discriminate|]. split; [split; [discriminate | intros Hn; contradiction Hn; reflexivity]|].
    intros _. exists (V2.buildMetrics (uuid_at H (uuid_calls (snd created))) now' mbody).
    split; [exact Hid | apply lookup_insert_eq].
  - fold recorded in E2. rewrite E2, Hv. cbn.
    split; [discriminate|]. split; [split; [discriminate | intros Hn; contradiction Hn; reflexivity]|].
    intros _. exists (V2.buildMetrics (uuid_at H (uuid_calls (snd created))) now' mbody).
    split; [exact Hid | apply lookup_insert_eq].
Qed.

Lemma V2_create_then_record_witness :
  let pbody := janeDoeWith (Some "profile-123") (Some "2024-12-25") in
  let mbody := vitals None None (measured 150) (measured 80) None None in
  let created := V2.createProfile host0 now0 pbody emptyState in
  let recorded := V2.recordMetrics host0 now0 mbody (snd created) in
  V2.validateProfile (V2.sanitizeName pbody) = None
  /\ (exists tv, new_Date host0 (pb_dueDate pbody) = Some tv /\ tv <> 0)
  /\ mb_maternalProfileId mbody = Some "profile-123"
  /\ status (fst recorded) <> 404
  /\ (V2.validateHealthMetrics mbody = None ->
      exists m,
        hm_maternalProfileId m = Some "profile-123"
        /\ metricsStorage (snd recorded) !! hm_id m = Some m).
Proof.
  pose (pbody := janeDoeWith (Some "profile-123") (Some "2024-12-25")).
  pose (mbody := vitals None None (measured 150) (measured 80) None None).
  assert (Hval : V2.validateProfile (V2.sanitizeName pbody) = None) by reflexivity.
  assert (Hdate : exists tv, new_Date host0 (pb_dueDate pbody) = Some tv /\ tv <> 0).
  { exists 1735084800000. split; [reflexivity | discriminate]. }
  assert (Hid : mb_maternalProfileId mbody
                = Some (default (uuid_at host0 (uuid_calls emptyState)) (pb_id pbody)))
    by reflexivity.
  destruct (V2_create_then_record host0 now0 now0 pbody mbody emptyState Hval Hdate Hid)
    as (_ & H404 & _ & Hstore).
  split; [exact Hval|]. split; [exact Hdate|]. split; [exact Hid|].
  split; [exact H404 | exact Hstore].
Defined.

(** ** Sequences of requests *)

Lemma serve_cons (app : Request -> State -> Response * State) (req : Request)
    (reqs : list Request) (st : State) :
  serve app (req :: reqs) st
  = (fst (app req st) :: fst (serve app reqs (snd (app req st))),
     snd (serve app reqs (snd (app req st)))).
Proof.
  cbn [serve]. destruct (app req st) as [res st1]. cbn [fst snd].
  destruct (serve app reqs st1); reflexivity.
Qed.

(** A property of the state that every request keeps is kept by every
    sequence of requests. *)
Lemma serve_invariant (app : Request -> State -> Response * State) (P : State -> Prop) :
  (forall req st, P st -> P (snd (app req st))) ->
  forall reqs st, P st -> P (snd (serve app reqs st)).
Proof.
  intros Hstep reqs. induction reqs as [|req reqs IH]; intros st Hst; [exact Hst|].
  rewrite serve_cons. cbn [snd]. apply IH. apply Hstep. exact Hst.
Qed.

Lemma app_V2_unauthorized (H : Host) (req : Request) (st : State) :
  authorized req = false -> app_V2 H req st = (error_json 403 "Forbidden", st).
Proof.
  destruct req as [r now body | r now body]; cbn [authorized app_V2];
    unfold V2.post_maternal_profiles, V2.post_health_metrics, V2.authorize;
    intros ->; reflexivity.
Qed.

(** X14. In v1.1.0 a request that reaches its route without the role of
    the route ('admin' for profiles, 'provider' for metrics) is answered
    403 'Forbidden' and leaves no trace in the stored state: the state
    after a sequence of requests is the state after the authorized ones
    alone, served in the same order. *)
Theorem app_V2_serves_authorized_only (H : Host) (reqs : list Request) (st : State) :
  snd (serve (app_V2 H) reqs st) = snd (serve (app_V2 H) (List.filter authorized reqs) st)
  /\ Forall2 (fun req res => authorized req = false -> res = error_json 403 "Forbidden")
       reqs (fst (serve (app_V2 H) reqs st)).
Proof.
  revert st. induction reqs as [|req reqs IH]; intros st; [split; [reflexivity | constructor]|].
  rewrite serve_cons. cbn [fst snd List.filter].
  destruct (IH (snd (app_V2 H req st))) as [IHs IHr].
  split.
  - destruct (authorized req) eqn:Ea.
    + rewrite serve_cons. cbn [snd]. exact IHs.
    + rewrite (app_V2_unauthorized H req st Ea) in *. cbn [snd] in *. exact IHs.
  - constructor; [|exact IHr].
    intros Ea. rewrite (app_V2_unauthorized H req st Ea). reflexivity.
Qed.

(** The states a request to the v1.0.0 app can leave. *)
Lemma app_V1_state (H : Host) (req : Request) (st : State) :
  let st' := snd (app_V1 H req st) in
  let st1 := snd (uuidv4 H st) in
  st' = st \/ st' = st1
  \/ (exists p p0, (exists q, providerStorage st !! p0 = Some q /\ hp_isActive q = true)
                   /\ st' = insert_profile p st1)
  \/ (exists m, V1.assessRisk m = false /\ st' = insert_metrics m st1)
  \/ (exists m now, hm_isFlaggedForReview m = true
                    /\ st' = insert_metrics m (V1.createHighRiskAlert H now m st1)).
Proof.
  intros st' st1. unfold st'. destruct req as [r now body | r now body]; cbn [app_V1].
  - destruct (V1_createProfile_cases H now body st)
      as [(e & _ & E) | [(_ & _ & E) | [(_ & _ & E) | [(_ & _ & E) | [(_ & _ & _ & E)
          | (_ & (q & (p0 & _ & Hq) & Ha) & tv & due & _ & _ & Est & _)]]]]].
    1-4: rewrite E; left; reflexivity.
    + rewrite E. right. left. reflexivity.
    + right. right. left. rewrite Est.
      eexists. exists p0. split; [eauto | reflexivity].
  - destruct (V1_recordMetrics_cases H now body st)
      as [(e & _ & E) | (_ & m & s1 & Hm & Hs1 & Est & _)].
    + rewrite E. left. reflexivity.
    + rewrite Est, Hs1, Hm.
      destruct (V1.assessRisk _) eqn:Er.
      * right. right. right. right. eexists. exists now. split; [|reflexivity]. reflexivity.
      * right. right. right. left. eexists. split; [exact Er | reflexivity].
Qed.

(** The states a request to the v1.1.0 app can leave. *)
Lemma app_V2_state (H : Host) (req : Request) (st : State) :
  let st' := snd (app_V2 H req st) in
  let st1 := snd (uuidv4 H st) in
  st' = st
  \/ (exists p, st' = insert_profile p st1)
  \/ (exists m, st' = insert_metrics m st1).
Proof.
  intros st' st1. unfold st'.
  destruct (authorized req) eqn:Ea; [|rewrite (app_V2_unauthorized H req st Ea); left; reflexivity].
  destruct req as [r now body | r now body]; cbn [app_V2 authorized] in *;
    unfold V2.post_maternal_profiles, V2.post_health_metrics, V2.authorize; rewrite Ea.
  - destruct (V2_createProfile_cases H now body st)
      as [(e & _ & E) | [(_ & _ & E) | (_ & tv & _ & _ & E)]]; rewrite E; cbn [snd]; eauto.
  - destruct (V2_recordMetrics_cases H now body st)
      as [(_ & E) | [(_ & E) | [(_ & e & _ & E) | [(_ & _ & _ & E) | (_ & _ & _ & E)]]]];
      rewrite E; cbn [snd]; eauto.
Qed.

Lemma keyed_insert_profile (p : MaternalProfile) (st : State) :
  keyed_by_id st -> keyed_by_id (insert_profile p st).
Proof.
  intros (Hp & Hm & Ha). split; [|split; assumption]. cbn. intros k q.
  rewrite lookup_insert. destruct (decide (mp_id p = k)); [intros [= <-]; assumption | apply Hp].
Qed.

Lemma keyed_insert_metrics (m : HealthMetrics) (st : State) :
  keyed_by_id st -> keyed_by_id (insert_metrics m st).
Proof.
  intros (Hp & Hm & Ha). split; [assumption|]. split; [|assumption]. cbn. intros k q.
  rewrite lookup_insert. destruct (decide (hm_id m = k)); [intros [= <-]; assumption | apply Hm].
Qed.

Lemma keyed_insert_alert (a : HealthAlert) (st : State) :
  keyed_by_id st -> keyed_by_id (insert_alert a st).
Proof.
  intros (Hp & Hm & Ha). split; [assumption|]. split; [assumption|]. cbn. intros k q.
  rewrite lookup_insert. destruct (decide (ha_id a = k)); [intros [= <-]; assumption | apply Ha].
Qed.

(** X15. Every record is stored under its own identifier, and stays so:
    if each stored profile, metrics record and alert has the key it is
    stored under as its [id], the same holds after any sequence of
    requests to the v1.0.0 app and after any sequence of requests to the
    v1.1.0 app. *)
Theorem keyed_by_id_kept (H : Host) (reqs : list Request) (st : State) :
  keyed_by_id st ->
  keyed_by_id (snd (serve (app_V1 H) reqs st))
  /\ keyed_by_id (snd (serve (app_V2 H) reqs st)).
Proof.
  intros Hst. split; apply serve_invariant; try exact Hst; clear; intros req st Hst.
  - destruct (app_V1_state H req st)
      as [E | [E | [(p & p0 & _ & E) | [(m & _ & E) | (m & now & _ & E)]]]]; rewrite E.
    + exact Hst.
    + exact Hst.
    + apply keyed_insert_profile. exact Hst.
    + apply keyed_insert_metrics. exact Hst.
    + apply keyed_insert_metrics. unfold V1.createHighRiskAlert. cbn [uuidv4].
      apply keyed_insert_alert. exact Hst.
  - destruct (app_V2_state H req st) as [E | [(p & E) | (m & E)]]; rewrite E.
    + exact Hst.
    + apply keyed_insert_profile. exact Hst.
    + apply keyed_insert_metrics. exact Hst.
Qed.

Lemma keyed_by_id_kept_witness :
  let reqs :=
    [PostMaternalProfiles (Some "admin") now0 janeDoe;
     PostHealthMetrics (Some "provider") now0
       (vitals None None (measured 150) (measured 80) (measured 95) (measured 12))] in
  keyed_by_id (stateWithProvider true)
  /\ keyed_by_id (snd (serve (app_V1 host0) reqs (stateWithProvider true)))
  /\ keyed_by_id (snd (serve (app_V2 host0) reqs (stateWithProvider true))).
Proof.
  assert (Hst : keyed_by_id (stateWithProvider true)).
  { repeat split; intros k x Hk; cbn in Hk; rewrite lookup_empty in Hk; discriminate. }
  split; [exact Hst|].
  apply (keyed_by_id_kept host0). exact Hst.
Defined.

(** X16. In v1.0.0 no high-risk record is ever stored unflagged: if every
    stored metrics record that [assessRisk] finds high-risk is flagged
    for review, the same holds after any sequence of requests, whatever
    identifiers and flags the bodies carry. *)
Theorem high_risk_flagged_kept (H : Host) (reqs : list Request) (st : State) :
  high_risk_flagged st -> high_risk_flagged (snd (serve (app_V1 H) reqs st)).
Proof.
  apply serve_invariant. clear. intros req st Hst.
  destruct (app_V1_state H req st)
    as [E | [E | [(p & p0 & _ & E) | [(m & Hm & E) | (m & now & Hm & E)]]]]; rewrite E;
    try exact Hst.
  - intros k x. cbn. rewrite lookup_insert.
    destruct (decide (hm_id m = k)); [intros [= <-]; congruence | apply Hst].
  - intros k x. unfold V1.createHighRiskAlert. cbn. rewrite lookup_insert.
    destruct (decide (hm_id m = k)); [intros [= <-] _; exact Hm | apply Hst].
Qed.

Lemma high_risk_flagged_kept_witness :
  let reqs :=
    [PostHealthMetrics None now0
       (vitals (Some "m") (Some false) (measured 150) (measured 80) (measured 95) (measured 12));
     PostHealthMetrics None now0
       (vitals (Some "m") None (measured 120) (measured 95) (measured 95) (measured 12))] in
  high_risk_flagged emptyState
  /\ high_risk_flagged (snd (serve (app_V1 host0) reqs emptyState)).
Proof.
  assert (Hst : high_risk_flagged emptyState).
  { intros k x Hk. cbn in Hk. rewrite lookup_empty in Hk. discriminate. }
  split; [exact Hst|].
  apply (high_risk_flagged_kept host0). exact Hst.
Defined.

(** X17. In v1.0.0 every alert the app writes is a fresh automatic one:
    if every stored alert has severity HIGH, the fixed description and
    recommended action, is unresolved with no resolution time or notes and
    has escalation level 1, the same holds after any sequence of
    requests. *)
Theorem automatic_alerts_kept (H : Host) (reqs : list Request) (st : State) :
  (forall k a, alertStorage st !! k = Some a -> automatic_alert a) ->
  forall k a,
    alertStorage (snd (serve (app_V1 H) reqs st)) !! k = Some a -> automatic_alert a.
Proof.
  apply (serve_invariant (app_V1 H)
           (fun s => forall k a, alertStorage s !! k = Some a -> automatic_alert a)).
  clear. intros req st Hst.
  destruct (app_V1_state H req st)
    as [E | [E | [(p & p0 & _ & E) | [(m & Hm & E) | (m & now & Hm & E)]]]]; rewrite E;
    try exact Hst.
  intros k a. unfold V1.createHighRiskAlert. cbn. rewrite lookup_insert.
  destruct (decide (uuid_at H (S (uuid_calls st)) = k)); [|apply Hst].
  intros [= <-]. repeat split.
Qed.

Lemma automatic_alerts_kept_witness :
  let reqs :=
    [PostHealthMetrics None now0
       (vitals None None (measured 150) (measured 80) (measured 95) (measured 12))] in
  (forall k a, alertStorage emptyState !! k = Some a -> automatic_alert a)
  /\ forall k a,
       alertStorage (snd (serve (app_V1 host0) reqs emptyState)) !! k = Some a ->
       automatic_alert a.
Proof.
  assert (Hst : forall k a, alertStorage emptyState !! k = Some a -> automatic_alert a).
  { intros k x Hk. cbn in Hk. rewrite lookup_empty in Hk. discriminate. }
  split; [exact Hst|].
  apply (automatic_alerts_kept host0). exact Hst.
Defined.

(** X18. No route writes a provider or a visit, and v1.1.0 writes no
    alert: after any sequence of requests the provider and visit
    collections are what they were, in both apps, and in v1.1.0 so is the
    alert collection. *)
Theorem collections_never_written (H : Host) (reqs : list Request) (st : State) :
  (providerStorage (snd (serve (app_V1 H) reqs st)) = providerStorage st
   /\ visitStorage (snd (serve (app_V1 H) reqs st)) = visitStorage st)
  /\ (providerStorage (snd (serve (app_V2 H) reqs st)) = providerStorage st
      /\ visitStorage (snd (serve (app_V2 H) reqs st)) = visitStorage st
      /\ alertStorage (snd (serve (app_V2 H) reqs st)) = alertStorage st).
Proof.
  split.
  - apply (serve_invariant (app_V1 H)
             (fun s => providerStorage s = providerStorage st
                       /\ visitStorage s = visitStorage st)); [|split; reflexivity].
    intros req s [Hp Hv].
    destruct (app_V1_state H req s)
      as [E | [E | [(p & p0 & _ & E) | [(m & Hm & E) | (m & now & Hm & E)]]]]; rewrite E;
      split; assumption.
  - apply (serve_invariant (app_V2 H)
             (fun s => providerStorage s = providerStorage st
                       /\ visitStorage s = visitStorage st
                       /\ alertStorage s = alertStorage st)); [|repeat split].
    intros req s (Hp & Hv & Ha).
    destruct (app_V2_state H req s) as [E | [(p & E) | (m & E)]]; rewrite E;
      repeat split; assumption.
Qed.

(** X19. The v1.0.0 app has no way to a first profile: as long as no
    stored provider is active (as in the empty canister), the profile
    handler never answers 200.  It answers 400, 404 or 500, and 500
    exactly when a valid body names no provider; and after any sequence
    of requests the profile collection is what it was. *)
Theorem V1_no_profile_without_active_provider (H : Host) (reqs : list Request)
    (st : State) :
  (forall k p, providerStorage st !! k = Some p -> hp_isActive p = false) ->
  maternalProfileStorage (snd (serve (app_V1 H) reqs st)) = maternalProfileStorage st
  /\ forall now body,
       let code := status (fst (V1.createProfile H now body st)) in
       (code = 400 \/ code = 404 \/ code = 500)
       /\ code <> 200
       /\ (code = 500
           <-> V1.validateProfile body = None /\ pb_primaryCareProviderId body = None).
Proof.
  intros Hnone. split.
  - apply (serve_invariant (app_V1 H)
             (fun s => providerStorage s = providerStorage st
                       /\ maternalProfileStorage s = maternalProfileStorage st));
      [|split; reflexivity].
    intros req s [Hp Hm].
    destruct (app_V1_state H req s)
      as [E | [E | [(p & p0 & (q & Hq & Ha) & E) | [(m & _ & E) | (m & now & _ & E)]]]];
      rewrite E; try (split; assumption).
    rewrite Hp in Hq. rewrite (Hnone _ _ Hq) in Ha. discriminate.
  - intros now body code. unfold code.
    destruct (V1_createProfile_cases H now body st)
      as [(e & Hv & E) | [(Hv & Hn & E) | [(Hv & Hu & E) | [(Hv & (q & Hq & _) & E)
          | [(_ & (q & (k & _ & Hq) & Ha) & _) | (_ & (q & (k & _ & Hq) & Ha) & _)]]]]].
    + rewrite E. cbn. split; [tauto|]. split; [discriminate|].
      split; [discriminate | intros [Hv' _]; congruence].
    + rewrite E. cbn. split; [tauto|]. split; [discriminate|]. split; [tauto | reflexivity].
    + rewrite E. cbn. split; [tauto|]. split; [discriminate|].
      split; [discriminate|]. intros [_ Hn]. exfalso. exact (names_provider_present _ _ _ Hu Hn).
    + rewrite E. cbn. split; [tauto|]. split; [discriminate|].
      split; [discriminate|]. intros [_ Hn]. exfalso. exact (names_provider_present _ _ _ Hq Hn).
    + rewrite (Hnone _ _ Hq) in Ha. discriminate.
    + rewrite (Hnone _ _ Hq) in Ha. discriminate.
Qed.

Lemma V1_no_profile_without_active_provider_witness :
  let reqs := [PostMaternalProfiles None now0 janeDoe] in
  (forall k p, providerStorage (stateWithProvider false) !! k = Some p -> hp_isActive p = false)
  /\ maternalProfileStorage (snd (serve (app_V1 host0) reqs (stateWithProvider false)))
     = maternalProfileStorage (stateWithProvider false).
Proof.
  assert (Hst : forall k p, providerStorage (stateWithProvider false) !! k = Some p ->
                            hp_isActive p = false).
  { intros k p. cbn. rewrite lookup_singleton.
    destruct (decide ("provider-123" = k)); [intros [= <-]; reflexivity | discriminate]. }
  split; [exact Hst|].
  apply (V1_no_profile_without_active_provider host0
           [PostMaternalProfiles None now0 janeDoe] (stateWithProvider false) Hst).
Defined.

(** ** Alerts are not coalesced *)

(** X20. Two high-risk recordings in a row leave two alerts: when the two
    identifiers drawn for the alerts differ and are fresh, the second
    alert is added beside the first, the alert collection grows by two,
    and each alert refers to the profile and the recorder of its own
    body, even when both bodies name the same profile. *)
Theorem V1_high_risk_twice_two_alerts (H : Host) (now1 now2 : Z) (b1 b2 : MetricsBody)
    (st : State) :
  let a1 := uuid_at H (S (uuid_calls st)) in
  let a2 := uuid_at H (S (S (S (uuid_calls st)))) in
  let st' := snd (serve (app_V1 H)
                    [PostHealthMetrics None now1 b1; PostHealthMetrics None now2 b2] st) in
  V1.validateHealthMetrics b1 = None ->
  V1.validateHealthMetrics b2 = None ->
  (forall id t, V1.assessRisk (V1.buildMetrics id t b1) = true) ->
  (forall id t, V1.assessRisk (V1.buildMetrics id t b2) = true) ->
  a1 <> a2 ->
  alertStorage st !! a1 = None ->
  alertStorage st !! a2 = None ->
  exists x1 x2,
    alertStorage st' = <[a2 := x2]> (<[a1 := x1]> (alertStorage st))
    /\ size (alertStorage st') = S (S (size (alertStorage st)))
    /\ ha_maternalProfileId x1 = mb_maternalProfileId b1
    /\ ha_providerId x1 = mb_recordedById b1
    /\ ha_createdAt x1 = now1
    /\ ha_maternalProfileId x2 = mb_maternalProfileId b2
    /\ ha_providerId x2 = mb_recordedById b2
    /\ ha_createdAt x2 = now2.
Proof.
  intros a1 a2 st' Hv1 Hv2 Hr1 Hr2 Hne Hf1 Hf2. unfold st'.
  rewrite !serve_cons. cbn [serve snd app_V1].
  rewrite (V1_recordMetrics_state H now2 b2 _ Hv2), Hr2.
  rewrite (V1_recordMetrics_state H now1 b1 st Hv1), Hr1.
  unfold V1.createHighRiskAlert. cbn.
  eexists. eexists. split; [reflexivity|].
  split; [|repeat split].
  rewrite map_size_insert_None.
  - rewrite map_size_insert_None; [reflexivity | exact Hf1].
  - rewrite lookup_insert_ne; [exact Hf2 | exact Hne].
Qed.

Lemma V1_high_risk_twice_two_alerts_witness :
  let b := vitals None None (measured 150) (measured 80) (measured 95) (measured 12) in
  let st' := snd (serve (app_V1 host0)
                    [PostHealthMetrics None now0 b; PostHealthMetrics None now0 b] emptyState) in
  V1.validateHealthMetrics b = None
  /\ (forall id t, V1.assessRisk (V1.buildMetrics id t b) = true)
  /\ uuid_at host0 1 <> uuid_at host0 3
  /\ alertStorage emptyState !! uuid_at host0 1 = None
  /\ alertStorage emptyState !! uuid_at host0 3 = None
  /\ size (alertStorage st') = 2%nat.
Proof.
  pose (b := vitals None None (measured 150) (measured 80) (measured 95) (measured 12)).
  assert (Hv : V1.validateHealthMetrics b = None) by reflexivity.
  assert (Hr : forall id t, V1.assessRisk (V1.buildMetrics id t b) = true)
    by (intros id t; reflexivity).
  assert (Hne : uuid_at host0 1 <> uuid_at host0 3) by discriminate.
  assert (Hf1 : alertStorage emptyState !! uuid_at host0 1 = None) by reflexivity.
  assert (Hf3 : alertStorage emptyState !! uuid_at host0 3 = None) by reflexivity.
  split; [exact Hv|]. split; [exact Hr|]. split; [exact Hne|].
  split; [exact Hf1|]. split; [exact Hf3|].
  destruct (V1_high_risk_twice_two_alerts host0 now0 now0 b b emptyState
              Hv Hv Hr Hr Hne Hf1 Hf3) as (x1 & x2 & _ & Hsize & _).
  exact Hsize.
Defined.

(** ** A body without measurements *)

(** X21. The v1.0.0 metrics handler takes a body with none of the four
    assessed measurements: its validator accepts it, the record is stored
    with the flag the body supplies (unflagged when it supplies none), it
    is assessed normal, and no alert is written. *)
Theorem V1_recordMetrics_without_vitals (H : Host) (now : Z) (body : MetricsBody)
    (st : State) :
  mb_bloodPressureSystolic body = None ->
  mb_bloodPressureDiastolic body = None ->
  mb_bloodSugar body = None ->
  mb_hemoglobinLevels body = None ->
  let st' := snd (V1.recordMetrics H now body st) in
  V1.validateHealthMetrics body = None
  /\ alertStorage st' = alertStorage st
  /\ exists m,
       metricsStorage st' = <[hm_id m := m]> (metricsStorage st)
       /\ V1.assessRisk m = false
       /\ hm_isFlaggedForReview m = default false (mb_isFlaggedForReview body).
Proof.
  intros Hs Hd Hg Hh st'.
  assert (Hv : V1.validateHealthMetrics body = None).
  { unfold V1.validateHealthMetrics. rewrite Hs, Hd, Hg. reflexivity. }
  assert (Hr : V1.assessRisk (V1.buildMetrics (uuid_at H (uuid_calls st)) now body) = false).
  { unfold V1.assessRisk. cbn. rewrite Hs, Hd, Hg, Hh. reflexivity. }
  split; [exact Hv|]. unfold st'.
  rewrite (V1_recordMetrics_state H now body st Hv), Hr. cbn.
  split; [reflexivity|].
  exists (V1.buildMetrics (uuid_at H (uuid_calls st)) now body).
  split; [reflexivity|]. split; [exact Hr | reflexivity].
Qed.

Lemma V1_recordMetrics_without_vitals_witness :
  let body := vitals None None None None None None in
  mb_bloodPressureSystolic body = None
  /\ mb_bloodPressureDiastolic body = None
  /\ mb_bloodSugar body = None
  /\ mb_hemoglobinLevels body = None
  /\ V1.validateHealthMetrics body = None
  /\ alertStorage (snd (V1.recordMetrics host0 now0 body emptyState)) = alertStorage emptyState.
Proof.
  destruct (V1_recordMetrics_without_vitals host0 now0 (vitals None None None None None None)
              emptyState eq_refl eq_refl eq_refl eq_refl) as (Hv & Ha & _).
  cbv zeta.
  split; [reflexivity|]. split; [reflexivity|]. split; [reflexivity|]. split; [reflexivity|].
  split; [exact Hv | exact Ha].
Defined.

(** ** The serializers *)

Lemma isoOfStamp_in_range (H : Host) (x : Stamp) :
  stamp_in_date_range x -> is_Some (V1.isoOfStamp H x).
Proof.
  intros (t & -> & Ht). rewrite isoOfStamp_Nanos. apply isoOfNanos_total. exact Ht.
Qed.

(** X22. No serializer throws on times within the range of dates: the
    profile, metrics, visit and alert serializers return a value whenever
    every time of the record is a [bigint] within 8.64e21 nanoseconds of
    the epoch, and that value carries the record.  The visit and the alert
    serializer give a null date exactly when the optional time is null or
    [0n]. *)
Theorem serializers_never_throw_in_range (H : Host) :
  (forall p, in_date_range (mp_dueDate p) -> stamp_in_date_range (mp_createdAt p) ->
             stamp_in_date_range (mp_lastUpdated p) ->
             exists out, V1.serializeProfile H p = Some out /\ sp_profile out = p)
  /\ (forall m, stamp_in_date_range (hm_recordedAt m) ->
                exists out, V1.serializeMetrics H m = Some out /\ sm_metrics out = m)
  /\ (forall v, in_date_range (pv_scheduledDate v) ->
                (forall t, pv_nextVisitDate v = Some t -> in_date_range t) ->
                exists out,
                  V1.serializeVisit v = Some out /\ V1.sv_visit out = v
                  /\ (V1.sv_nextVisitDate out = None
                      <-> pv_nextVisitDate v = None \/ pv_nextVisitDate v = Some 0))
  /\ (forall a, in_date_range (ha_createdAt a) ->
                (forall t, ha_resolvedAt a = Some t -> in_date_range t) ->
                exists out,
                  V1.serializeAlert a = Some out /\ V1.sa_alert out = a
                  /\ (V1.sa_resolvedAt out = None
                      <-> ha_resolvedAt a = None \/ ha_resolvedAt a = Some 0)).
Proof.
  split; [|split; [|split]].
  - intros p Hd Hc Hl. unfold V1.serializeProfile. unfold in_date_range in Hd.
    destruct (isoOfNanos_total _ Hd) as [x ->].
    destruct (isoOfStamp_in_range H _ Hc) as [y ->].
    destruct (isoOfStamp_in_range H _ Hl) as [z ->].
    eexists. split; reflexivity.
  - intros m Hr. unfold V1.serializeMetrics.
    destruct (isoOfStamp_in_range H _ Hr) as [x ->]. eexists. split; reflexivity.
  - unfold in_date_range. intros v Hs Hn. unfold V1.serializeVisit.
    destruct (isoOfNanos_total _ Hs) as [x ->].
    destruct (pv_nextVisitDate v) as [[|t|t]|] eqn:E.
    + eexists. split; [reflexivity|]. split; [reflexivity|]. cbn. tauto.
    + destruct (isoOfNanos_total _ (Hn _ eq_refl)) as [y ->].
      eexists. split; [reflexivity|]. split; [reflexivity|]. cbn.
      split; [discriminate | intros [|]; discriminate].
    + destruct (isoOfNanos_total _ (Hn _ eq_refl)) as [y ->].
      eexists. split; [reflexivity|]. split; [reflexivity|]. cbn.
      split; [discriminate | intros [|]; discriminate].
    + eexists. split; [reflexivity|]. split; [reflexivity|]. cbn. tauto.
  - unfold in_date_range. intros a Hc Hr. unfold V1.serializeAlert.
    destruct (isoOfNanos_total _ Hc) as [x ->].
    destruct (ha_resolvedAt a) as [[|t|t]|] eqn:E.
    + eexists. split; [reflexivity|]. split; [reflexivity|]. cbn. tauto.
    + destruct (isoOfNanos_total _ (Hr _ eq_refl)) as [y ->].
      eexists. split; [reflexivity|]. split; [reflexivity|]. cbn.
      split; [discriminate | intros [|]; discriminate].
    + destruct (isoOfNanos_total _ (Hr _ eq_refl)) as [y ->].
      eexists. split; [reflexivity|]. split; [reflexivity|]. cbn.
      split; [discriminate | intros [|]; discriminate].
    + eexists. split; [reflexivity|]. split; [reflexivity|]. cbn. tauto.
Qed.

(** ** Rounding in the time layer *)

(** The conversions between milliseconds and nanoseconds go through
    doubles; each rounds to nearest, so the error of a round trip is
    bounded. *)

Lemma shr_1_shifts (x k : Z) (r : shr_record) :
  0 <= k -> shifts x k r -> shifts x (k + 1) (shr_1 r).
Proof.
  intros Hk. unfold shifts. destruct r as [m r s]. cbn [shr_m shr_r shr_s].
  replace (k + 1 + 1) with (Z.succ (Z.succ k)) by lia.
  replace (k + 1) with (Z.succ k) by lia.
  rewrite !Z.pow_succ_r by lia.
  assert (HP : 0 < 2 ^ k) by (apply Z.pow_pos_nonneg; lia).
  set (P := 2 ^ k) in *. clearbody P.
  intros (Hm & Ht & Hs).
  assert (Hs' : (s = true /\ 2 * x - m * (2 * P) - Z.b2z r * P <> 0)
                \/ (s = false /\ 2 * x - m * (2 * P) - Z.b2z r * P = 0)).
  { destruct s; [left; split; [reflexivity | apply Hs; reflexivity]|].
    right. split; [reflexivity|].
    destruct (Z.eq_dec (2 * x - m * (2 * P) - Z.b2z r * P) 0) as [E|E]; [exact E|].
    apply Hs in E. discriminate E. }
  clear Hs.
  assert (G : forall m' (r' : bool), 0 <= m' -> m = 2 * m' + Z.b2z r' ->
    0 <= m'
    /\ 0 <= 2 * x - m' * (2 * (2 * P)) - Z.b2z r' * (2 * P) < 2 * P
    /\ (r || s = true <-> 2 * x - m' * (2 * (2 * P)) - Z.b2z r' * (2 * P) <> 0)).
  { intros m' r' Hm' E. subst m.
    split; [exact Hm'|]. split.
    - destruct r, r'; cbn [Z.b2z] in *; lia.
    - destruct Hs' as [[-> Hne] | [-> He]]; destruct r, r'; cbn [Z.b2z orb] in *;
        split; intros; try congruence; try lia. }
  destruct m as [|[p|p|]|p]; try lia; cbn [shr_1 shr_m shr_r shr_s].
  - apply (G 0 false); cbn; lia.
  - apply (G (Zpos p) true); cbn [Z.b2z]; lia.
  - apply (G (Zpos p) false); cbn [Z.b2z]; lia.
  - apply (G 0 true); cbn [Z.b2z]; lia.
Qed.

Lemma iter_shr_1_shifts (x : Z) (q : positive) : forall k r,
  0 <= k -> shifts x k r -> shifts x (k + Zpos q) (SpecFloat.iter_pos shr_1 q r).
Proof.
  induction q as [q IH|q IH|]; intros k r Hk Hr; cbn [SpecFloat.iter_pos].
  - replace (k + Zpos q~1) with (k + 1 + Zpos q + Zpos q) by lia.
    apply IH; [lia|]. apply IH; [lia|]. apply shr_1_shifts; assumption.
  - replace (k + Zpos q~0) with (k + Zpos q + Zpos q) by lia.
    apply IH; [lia|]. apply IH; assumption.
  - apply shr_1_shifts; assumption.
Qed.

Lemma shifted_shifts (x n : Z) : 0 <= x -> 0 <= n -> shifts x n (shifted x loc_Exact n).
Proof.
  intros Hx Hn. unfold shifted, shr. cbn [shr_record_of_loc].
  assert (H0 : shifts x 0 (Build_shr_record x false false)).
  { unfold shifts. cbn [shr_m shr_r shr_s Z.b2z]. rewrite Z.pow_0_r.
    change (2 ^ (0 + 1)) with 2.
    split; [exact Hx|]. split; [lia|]. split; [discriminate | lia]. }
  destruct n as [|q|q]; try lia.
  - exact H0.
  - cbn [fst]. apply (iter_shr_1_shifts x q 0 _ ltac:(lia) H0).
Qed.

(** Rounding to nearest after a shift by [n] digits is within half a unit
    of the last digit kept, and exact when the digits dropped are zero. *)
Lemma shifted_nearest (x n : Z) :
  0 <= x -> 0 <= n ->
  let r1 := shifted x loc_Exact n in
  let z := round_nearest_even (shr_m r1) (loc_of_shr_record r1) in
  2 * Z.abs (z * 2 ^ n - x) <= 2 ^ n /\ (x mod 2 ^ n = 0 -> z * 2 ^ n = x).
Proof.
  intros Hx Hn r1 z.
  pose proof (shifted_shifts x n Hx Hn) as Hs. fold r1 in Hs.
  assert (HP : 0 < 2 ^ n) by (apply Z.pow_pos_nonneg; lia).
  split.
  - unfold shifts in Hs. destruct Hs as (Hm & Ht & Hst).
    replace (n + 1) with (Z.succ n) in * by lia. rewrite Z.pow_succ_r in * by lia.
    unfold z. clear z. destruct r1 as [m r s]. cbn [shr_m shr_r shr_s] in *.
    set (P := 2 ^ n) in *. clearbody P.
    destruct r, s; cbn [loc_of_shr_record round_nearest_even Z.b2z] in *.
    + assert (2 * x - m * (2 * P) - 1 * P <> 0) by (apply Hst; reflexivity). lia.
    + destruct (Z.even m); lia.
    + lia.
    + lia.
  - intros Hdiv. unfold z, r1.
    rewrite shifted_exact by assumption. cbn [round_nearest_even].
    rewrite shifted_m by assumption.
    apply Z.mod_divide in Hdiv; [|lia]. destruct Hdiv as [c ->].
    rewrite Z.div_mul by lia. reflexivity.
Qed.

Lemma round_aux_value (s : bool) (p : positive) (ex : Z) :
  let d := Zpos (digits2_pos p) in
  53 <= d -> -900 <= ex -> d + ex <= 900 ->
  let n := d - 53 in
  exists m e,
    binary_round_aux 53 1024 s (Zpos p) ex loc_Exact = S754_finite s m e
    /\ 2 ^ 52 <= Zpos m < 2 ^ 53
    /\ ex + n <= e <= ex + n + 1
    /\ 2 * Z.abs (Zpos m * 2 ^ (e - ex) - Zpos p) <= 2 ^ n
    /\ (Zpos p mod 2 ^ n = 0 -> Zpos m * 2 ^ (e - ex) = Zpos p).
Proof.
  intros d Hd Hex Hde n.
  destruct (round_aux_shape s p ex loc_Exact Hd Hex Hde) as [B1 E]. fold d n in B1, E.
  assert (Hn : 0 <= n) by (unfold n; lia).
  destruct (shifted_nearest (Zpos p) n ltac:(lia) Hn) as [N1 N2].
  pose proof (round_nearest_even_bounds (shr_m (shifted (Zpos p) loc_Exact n))
                (loc_of_shr_record (shifted (Zpos p) loc_Exact n))) as B2.
  set (z := round_nearest_even _ _) in *.
  rewrite E. clear E.
  assert (P52 : 2 ^ 52 = 4503599627370496) by (vm_compute; reflexivity).
  assert (P53 : 2 ^ 53 = 9007199254740992) by (vm_compute; reflexivity).
  rewrite P52, P53 in *.
  destruct (Z.ltb_spec z 9007199254740992) as [Hlt|Hge].
  - exists (Z.to_pos z), (ex + n). split; [reflexivity|].
    rewrite Z2Pos.id by lia. replace (ex + n - ex) with n by lia.
    split; [lia|]. split; [lia|]. split; [exact N1 | exact N2].
  - assert (Hz : z = 9007199254740992) by lia.
    exists 4503599627370496%positive, (ex + n + 1). split; [reflexivity|].
    replace (ex + n + 1 - ex) with (Z.succ n) by lia.
    rewrite Z.pow_succ_r by lia.
    replace (4503599627370496 * (2 * 2 ^ n)) with (z * 2 ^ n) by (rewrite Hz; ring).
    split; [lia|]. split; [lia|]. split; [exact N1 | exact N2].
Qed.

(** [Number] of a positive integer: the mantissa and exponent of the
    nearest double. *)
Lemma binary_round_value (s : bool) (p0 : positive) :
  Zpos p0 < 2 ^ 800 ->
  exists m e,
    binary_round 53 1024 s p0 0 = S754_finite s m e
    /\ 2 ^ 52 <= Zpos m < 2 ^ 53
    /\ -52 <= e
    /\ (e <= 0 -> Zpos m = Zpos p0 * 2 ^ (- e))
    /\ (0 < e -> 2 * Z.abs (Zpos m * 2 ^ e - Zpos p0) <= 2 ^ e
                 /\ (forall K E, 0 <= E -> Zpos p0 = K * 2 ^ E -> K < 2 ^ 53 ->
                                 Zpos m * 2 ^ e = Zpos p0)).
Proof.
  intros Hlt. unfold binary_round.
  pose proof (digits2_pos_spec p0) as Hspec.
  set (d0 := Zpos (digits2_pos p0)) in *.
  assert (Hd1 : 1 <= d0) by (unfold d0; lia).
  assert (Hd0 : d0 <= 800).
  { assert (2 ^ (d0 - 1) < 2 ^ 800) by lia. apply pow2_lt_inv in H; lia. }
  rewrite Z.add_0_r, fexp_normal by lia.
  unfold shl_align. rewrite Z.sub_0_r.
  destruct (d0 - 53) as [|k|k] eqn:Ek.
  - destruct (round_aux_value s p0 0) as (m & e & E & Bm & He & Hn & Hx).
    + fold d0. lia.
    + lia.
    + fold d0. lia.
    + fold d0 in He, Hn, Hx. rewrite Ek in He, Hn, Hx. rewrite Z.pow_0_r in Hn, Hx.
      rewrite Z.sub_0_r in Hn, Hx.
      assert (Hp53 : Zpos p0 < 2 ^ 53) by (replace 53 with d0 by lia; lia).
      assert (He0 : e = 0).
      { destruct (Z.eq_dec e 0) as [|Hne]; [assumption|]. assert (e = 1) by lia. subst e.
        change (2 ^ 1) with 2 in Hn. lia. }
      subst e. rewrite Z.pow_0_r in Hn.
      exists m, 0. split; [exact E|]. split; [exact Bm|]. split; [lia|].
      split; [|lia]. intros _. change (2 ^ (- 0)) with 1. lia.
  - destruct (round_aux_value s p0 0) as (m & e & E & Bm & He & Hn & Hx).
    + fold d0. lia.
    + lia.
    + fold d0. lia.
    + fold d0 in He, Hn, Hx. rewrite Ek in He, Hn, Hx.
      rewrite Z.sub_0_r in Hn, Hx.
      exists m, e. split; [exact E|]. split; [exact Bm|]. split; [lia|].
      split; [lia|]. intros _.
      assert (2 ^ Zpos k <= 2 ^ e) by (apply Z.pow_le_mono_r; lia).
      split; [lia|].
      intros K E' HE' HK HK53. apply Hx.
      assert (Hk0 : 0 < 2 ^ Zpos k) by (apply Z.pow_pos_nonneg; lia).
      assert (HkE : Zpos k <= E').
      { assert (2 ^ (d0 - 1) < 2 ^ (53 + E')).
        { rewrite (Z.pow_add_r 2 53 E') by lia.
          assert (0 < 2 ^ E') by (apply Z.pow_pos_nonneg; lia).
          apply Z.le_lt_trans with (K * 2 ^ E'); [lia|].
          apply Z.mul_lt_mono_pos_r; lia. }
        apply pow2_lt_inv in H0; lia. }
      rewrite HK. replace E' with (E' - Zpos k + Zpos k) by lia.
      rewrite Z.pow_add_r by lia. rewrite Z.mul_assoc. apply Z.mod_mul. lia.
  - change (Pos.iter xO p0 k) with (shift_pos k p0).
    pose proof (shift_pos_correct k p0) as Hsh. rewrite Z.pow_pos_fold in Hsh.
    assert (Hk0 : 0 < 2 ^ Zpos k) by (apply Z.pow_pos_nonneg; lia).
    assert (Dz : Zpos (digits2_pos (shift_pos k p0)) = 53).
    { apply digits2_pos_unique. rewrite Hsh.
      replace (2 ^ (53 - 1)) with (2 ^ Zpos k * 2 ^ (d0 - 1)).
      2:{ rewrite <- Z.pow_add_r by lia. f_equal. lia. }
      replace (2 ^ 53) with (2 ^ Zpos k * 2 ^ d0).
      2:{ rewrite <- Z.pow_add_r by lia. f_equal. lia. }
      split; [apply Z.mul_le_mono_nonneg_l; lia | apply Z.mul_lt_mono_pos_l; lia]. }
    destruct (round_aux_value s (shift_pos k p0) (Z.neg k)) as (m & e & E & Bm & He & Hn & Hx).
    + rewrite Dz. lia.
    + lia.
    + rewrite Dz. lia.
    + rewrite Dz in He, Hn, Hx. change (53 - 53) with 0 in He, Hn, Hx.
      rewrite Z.pow_0_r in Hn, Hx.
      assert (He0 : e = Z.neg k).
      { destruct (Z.eq_dec e (Z.neg k)) as [|Hne]; [assumption|].
        assert (e = Z.neg k + 1) by lia. subst e.
        replace (Z.neg k + 1 - Z.neg k) with 1 in Hn by lia.
        change (2 ^ 1) with 2 in Hn.
        assert (Zpos (shift_pos k p0) < 2 ^ 53).
        { pose proof (digits2_pos_spec (shift_pos k p0)) as Q. rewrite Dz in Q. lia. }
        lia. }
      subst e. replace (Z.neg k - Z.neg k) with 0 in Hn, Hx by lia.
      rewrite Z.pow_0_r in Hn, Hx.
      exists m, (Z.neg k). split; [exact E|]. split; [exact Bm|]. split; [lia|].
      split; [|lia]. intros _. change (- Z.neg k) with (Zpos k).
      rewrite Z.mul_comm, <- Hsh. lia.
Qed.

Lemma Number_of_bigint_value (t : Z) :
  t <> 0 -> Z.abs t < 2 ^ 800 ->
  exists m e,
    JS.Number_of_bigint t = S754_finite (t <? 0) m e
    /\ 2 ^ 52 <= Zpos m < 2 ^ 53
    /\ -52 <= e
    /\ (e <= 0 -> Zpos m = Z.abs t * 2 ^ (- e))
    /\ (0 < e -> 2 * Z.abs (Zpos m * 2 ^ e - Z.abs t) <= 2 ^ e
                 /\ (forall K E, 0 <= E -> Z.abs t = K * 2 ^ E -> K < 2 ^ 53 ->
                                 Zpos m * 2 ^ e = Z.abs t)).
Proof.
  intros Hnz Hlt.
  unfold JS.Number_of_bigint, JS.prec, JS.emax, binary_normalize.
  destruct t as [|p|p]; [congruence | |]; cbn [Z.abs Z.ltb Z.compare] in *.
  - apply binary_round_value. exact Hlt.
  - apply binary_round_value. exact Hlt.
Qed.

(** The quotient of a double by [1_000_000], truncated: it lies between
    two integers that bound the exact quotient. *)
Lemma div_million_between (s : bool) (m1 : positive) (e1 Lo Hi v : Z) :
  2 ^ 52 <= Zpos m1 < 2 ^ 53 -> -52 <= e1 <= 20 ->
  0 <= Lo -> Hi < 2 ^ 53 ->
  Lo * 1000000 * 2 ^ (20 - e1) <= Zpos m1 * 1048576 < Hi * 1000000 * 2 ^ (20 - e1) ->
  JS.truncate (JS.div (S754_finite s m1 e1) million) = Some v ->
  Lo <= (if s then - v else v) <= Hi.
Proof.
  intros Bm He HLo HHi [Hlo Hhi].
  rewrite million_eq. unfold JS.div, JS.prec, JS.emax. cbn [SFdiv].
  rewrite div_core_million by (try exact Bm; lia).
  assert (P52 : 2 ^ 52 = 4503599627370496) by (vm_compute; reflexivity).
  assert (P53 : 2 ^ 53 = 9007199254740992) by (vm_compute; reflexivity).
  rewrite P52, P53 in Bm. rewrite P53 in HHi.
  set (X := Zpos m1 * 1048576) in *.
  set (q := X / 1000000).
  set (r := X mod 1000000).
  assert (Hqr : X = 1000000 * q + r /\ 0 <= r < 1000000).
  { unfold q, r. split; [apply Z.div_mod; lia | apply Z.mod_pos_bound; lia]. }
  assert (Bq : 4503599627370496 <= q < 18014398509481984) by (unfold X in Hqr; lia).
  destruct q as [|pq|pq] eqn:Eq; try lia.
  set (lz := new_location 8589934592000000 (r * 8589934592)).
  set (d := Zpos (digits2_pos pq)).
  assert (Dq : (d = 53 /\ Zpos pq < 9007199254740992)
               \/ (d = 54 /\ 9007199254740992 <= Zpos pq)).
  { destruct (Z_lt_le_dec (Zpos pq) 9007199254740992).
    - left. split; [|assumption]. apply digits2_pos_unique.
      change (53 - 1) with 52. rewrite P52, P53. lia.
    - right. split; [|assumption]. apply digits2_pos_unique. change (54 - 1) with 53.
      rewrite P53. change (2 ^ 54) with 18014398509481984. lia. }
  destruct (round_aux_shape (xorb s false) pq (e1 - 20) lz) as [B1 E].
  { fold d. lia. } { lia. } { fold d. lia. }
  fold d in B1, E. rewrite E. clear E.
  set (n := d - 53) in *.
  assert (Hn : 0 <= n <= 1) by (unfold n; lia).
  assert (M1 : shr_m (shifted (Zpos pq) lz n) = Zpos pq / 2 ^ n) by (apply shifted_m; lia).
  pose proof (round_nearest_even_bounds (shr_m (shifted (Zpos pq) lz n))
                (loc_of_shr_record (shifted (Zpos pq) lz n))) as B2.
  set (z := round_nearest_even _ _) in *.
  rewrite M1 in B1, B2. rewrite P52, P53 in *.
  set (F := Zpos pq / 2 ^ n) in *.
  assert (Hn0 : 0 < 2 ^ n) by (apply Z.pow_pos_nonneg; lia).
  assert (HF : F * 2 ^ n <= Zpos pq < (F + 1) * 2 ^ n).
  { unfold F. pose proof (Z.div_mod (Zpos pq) (2 ^ n) ltac:(lia)) as D.
    pose proof (Z.mod_pos_bound (Zpos pq) (2 ^ n) Hn0) as R. lia. }
  (* the exponent of the quotient is not positive *)
  set (j := 20 - e1 - n).
  assert (Hj : 0 <= j).
  { unfold j. destruct (Z_le_gt_dec 0 (20 - e1 - n)) as [|Hgt]; [assumption|].
    exfalso. assert (e1 = 20) by lia. assert (n = 1) by lia. subst e1.
    change (2 ^ (20 - 20)) with 1 in Hhi.
    assert (d = 54) by (unfold n in *; lia). lia. }
  assert (Hj0 : 0 < 2 ^ j) by (apply Z.pow_pos_nonneg; lia).
  assert (Hpow : 2 ^ (20 - e1) = 2 ^ j * 2 ^ n).
  { rewrite <- Z.pow_add_r by lia. f_equal. unfold j. lia. }
  rewrite Hpow in Hlo, Hhi.
  assert (Lz : Lo * 2 ^ j <= z <= Hi * 2 ^ j).
  { assert (Lo * 2 ^ j <= F).
    { assert (Lo * 2 ^ j < F + 1); [|lia].
      apply (Z.mul_lt_mono_pos_r (1000000 * 2 ^ n)); [lia|].
      apply Z.le_lt_trans with X; [lia|].
      apply Z.lt_le_trans with (1000000 * Zpos pq + 1000000); [lia|].
      replace ((F + 1) * (1000000 * 2 ^ n)) with (1000000 * ((F + 1) * 2 ^ n)) by ring.
      lia. }
    assert (F < Hi * 2 ^ j).
    { apply (Z.mul_lt_mono_pos_r (1000000 * 2 ^ n)); [lia|].
      apply Z.le_lt_trans with X; [|lia].
      replace (F * (1000000 * 2 ^ n)) with (1000000 * (F * 2 ^ n)) by ring. lia. }
    lia. }
  assert (Hdiv : Lo <= z / 2 ^ j <= Hi).
  { split; [apply Z.div_le_lower_bound; lia|].
    apply Z.div_le_upper_bound; [lia|]. lia. }
  replace (e1 - 20 + n) with (- j) by (unfold j; lia).
  destruct (Z.ltb_spec z 9007199254740992) as [Hlt|Hge].
  - unfold JS.truncate.
    assert (Hzp : Zpos (Z.to_pos z) = z) by (apply Z2Pos.id; lia).
    destruct j as [|pj|pj] eqn:Ej; try lia.
    + change (- 0) with 0. cbv iota. rewrite Z.shiftl_0_r, Hzp.
      rewrite Z.pow_0_r, Z.div_1_r in Hdiv.
      intros [= <-]. destruct s; cbn [xorb]; lia.
    + change (- Z.pos pj) with (Z.neg pj). cbv iota.
      rewrite Z.shiftr_div_pow2 by lia. rewrite Hzp.
      intros [= <-]. destruct s; cbn [xorb]; lia.
  - assert (Hz : z = 9007199254740992) by lia.
    assert (Hj1 : 1 <= j).
    { destruct (Z.eq_dec j 0) as [E0|]; [|lia]. rewrite E0, Z.pow_0_r in Lz. lia. }
    unfold JS.truncate.
    assert (Hv : 4503599627370496 / 2 ^ (j - 1) = z / 2 ^ j).
    { rewrite Hz. replace j with (1 + (j - 1)) at 2 by lia.
      rewrite Z.pow_add_r by lia. change (2 ^ 1) with 2.
      change 9007199254740992 with (2 * 4503599627370496).
      apply eq_sym. apply Z.div_mul_cancel_l; [|lia].
      assert (0 < 2 ^ (j - 1)) by (apply Z.pow_pos_nonneg; lia). lia. }
    destruct (- j + 1) as [|pj|pj] eqn:Ej; try lia.
    + rewrite Z.shiftl_0_r. replace (j - 1) with 0 in Hv by lia.
      rewrite Z.pow_0_r, Z.div_1_r in Hv. rewrite <- Hv in Hdiv.
      intros [= <-]. destruct s; cbn [xorb]; lia.
    + rewrite Z.shiftr_div_pow2 by lia. replace (Zpos pj) with (j - 1) by lia.
      rewrite Hv. intros [= <-]. destruct s; cbn [xorb]; lia.
Qed.

Lemma BigInt_scaled (s : bool) (m : positive) (e v w : Z) :
  JS.BigInt_of_number (S754_finite s m e) = Some v ->
  0 <= w -> 0 <= e + w ->
  Zpos m * 2 ^ (e + w) = Z.abs v * 2 ^ w
  /\ v = (if s then - Z.abs v else Z.abs v).
Proof.
  unfold JS.BigInt_of_number. intros Hv Hw Hew.
  assert (G : forall a, 0 <= a -> v = (if s then - a else a) ->
                        Z.abs v = a /\ v = (if s then - Z.abs v else Z.abs v)).
  { intros a Ha ->. destruct s; split; lia. }
  destruct e as [|q|q].
  - injection Hv as Hv. rewrite Z.shiftl_0_r in Hv.
    destruct (G (Zpos m) ltac:(lia) (eq_sym Hv)) as [-> Hs]. rewrite Z.add_0_l.
    split; [reflexivity | exact Hs].
  - injection Hv as Hv. rewrite Z.shiftl_mul_pow2 in Hv by lia.
    assert (0 < 2 ^ Zpos q) by (apply Z.pow_pos_nonneg; lia).
    destruct (G (Zpos m * 2 ^ Zpos q) ltac:(lia) (eq_sym Hv)) as [-> Hs].
    split; [|exact Hs]. rewrite Z.pow_add_r by lia. ring.
  - destruct (Z.land (Zpos m) (Z.ones (Zpos q)) =? 0) eqn:El; [|discriminate].
    apply Z.eqb_eq in El. rewrite Z.land_ones in El by lia.
    injection Hv as Hv. rewrite Z.shiftr_div_pow2 in Hv by lia.
    assert (Hq0 : 0 < 2 ^ Zpos q) by (apply Z.pow_pos_nonneg; lia).
    assert (0 <= Zpos m / 2 ^ Zpos q) by (apply Z.div_pos; lia).
    destruct (G (Zpos m / 2 ^ Zpos q) ltac:(lia) (eq_sym Hv)) as [-> Hs].
    split; [|exact Hs].
    apply Z.mod_divide in El; [|lia]. destruct El as [c Hc]. rewrite Hc.
    rewrite Z.div_mul by lia.
    assert (Hneg : Z.neg q = - Zpos q) by reflexivity. rewrite Hneg in *.
    replace (2 ^ w) with (2 ^ (Zpos q + (- Zpos q + w))) by (f_equal; lia).
    rewrite (Z.pow_add_r 2 (Zpos q)) by lia. ring.
Qed.

Lemma TimeClip_truncate (x : spec_float) (v : Z) :
  JS.TimeClip x = Some v -> JS.truncate x = Some v.
Proof.
  unfold JS.TimeClip. destruct x; try discriminate.
  - destruct (SFleb _ _); [tauto | discriminate].
  - destruct (SFleb _ _); [tauto | discriminate].
Qed.

Lemma isoOfNanos_clip (t : Z) :
  Z.abs t <= maxNanos ->
  exists v, JS.TimeClip (JS.div (JS.Number_of_bigint t) million) = Some v
            /\ V1.isoOfNanos t = Some (JS.toISOString v).
Proof.
  intros Ht. destruct (isoOfNanos_total t Ht) as [str Hs].
  unfold V1.isoOfNanos in *.
  destruct (JS.TimeClip _) as [v|]; [|discriminate].
  exists v. split; reflexivity.
Qed.

(** Multiplying both sides of a bound by a positive scale. *)
Lemma scale_le (a b S : Z) : 0 < S -> a <= b -> a * S <= b * S.
Proof. intros. apply Z.mul_le_mono_nonneg_r; lia. Qed.

Lemma scale_lt (a b S : Z) : 0 < S -> a < b -> a * S < b * S.
Proof. intros. apply Z.mul_lt_mono_pos_r; lia. Qed.

Lemma unscale_le (a b S : Z) : 0 < S -> a * S <= b * S -> a <= b.
Proof. intros HS H. apply Z.mul_le_mono_pos_r in H; assumption. Qed.

(** A time in nanoseconds whose double is [m1 * 2 ^ e1], between two
    whole numbers of milliseconds, is printed as a time between them. *)
Lemma isoOfNanos_between (t : Z) (m1 : positive) (e1 Lo Hi : Z) :
  Z.abs t <= maxNanos ->
  JS.Number_of_bigint t = S754_finite (t <? 0) m1 e1 ->
  2 ^ 52 <= Zpos m1 < 2 ^ 53 -> -52 <= e1 <= 20 ->
  0 <= Lo -> Hi < 2 ^ 53 ->
  Lo * 1000000 * 2 ^ (20 - e1) <= Zpos m1 * 1048576 < Hi * 1000000 * 2 ^ (20 - e1) ->
  exists v, V1.isoOfNanos t = Some (JS.toISOString v)
            /\ Lo <= (if t <? 0 then - v else v) <= Hi.
Proof.
  intros Ht E Bm He HLo HHi Hb.
  destruct (isoOfNanos_clip t Ht) as (v & Hc & Hiso).
  exists v. split; [exact Hiso|].
  apply TimeClip_truncate in Hc. rewrite E in Hc.
  exact (div_million_between _ _ _ _ _ _ Bm He HLo HHi Hb Hc).
Qed.

Lemma pow2_73 : 2 ^ 73 = 9444732965739290427392.
Proof. vm_compute. reflexivity. Qed.

Lemma below_pow2_800 (a : Z) : a < 2 ^ 73 -> a < 2 ^ 800.
Proof.
  intros Ha. apply Z.lt_le_trans with (2 ^ 73); [exact Ha|].
  apply Z.pow_le_mono_r; lia.
Qed.

(** The double of a time in the range of dates: its exponent is at most
    20, and it is within 524288 nanoseconds of the time. *)
Lemma Number_of_nanos (t : Z) :
  t <> 0 -> Z.abs t <= maxNanos ->
  exists m1 e1,
    JS.Number_of_bigint t = S754_finite (t <? 0) m1 e1
    /\ 2 ^ 52 <= Zpos m1 < 2 ^ 53 /\ -52 <= e1 <= 20
    /\ Z.abs (Zpos m1 * 1048576 - Z.abs t * 2 ^ (20 - e1)) <= 524288 * 2 ^ (20 - e1).
Proof.
  intros Hnz Ht. unfold maxNanos in Ht.
  destruct (Number_of_bigint_value t Hnz) as (m1 & e1 & E & Bm & He & Hle & Hgt).
  { apply below_pow2_800. rewrite pow2_73. lia. }
  exists m1, e1. split; [exact E|]. split; [exact Bm|].
  assert (P52 : 2 ^ 52 = 4503599627370496) by (vm_compute; reflexivity).
  rewrite P52 in Bm.
  assert (He20 : e1 <= 20).
  { destruct (Z_le_gt_dec e1 20) as [|Hbig]; [assumption|]. exfalso.
    destruct (Hgt ltac:(lia)) as [Hn _].
    assert (HQ : 2 ^ 21 <= 2 ^ e1) by (apply Z.pow_le_mono_r; lia).
    change (2 ^ 21) with 2097152 in HQ.
    set (Q := 2 ^ e1) in *. clearbody Q.
    pose proof (scale_le 4503599627370496 (Zpos m1) Q ltac:(lia) ltac:(lia)). lia. }
  split; [lia|].
  assert (HS : 0 < 2 ^ (20 - e1)) by (apply Z.pow_pos_nonneg; lia).
  destruct (Z_le_gt_dec e1 0) as [Hneg|Hpos].
  - rewrite (Hle Hneg).
    replace (20 - e1) with (- e1 + 20) by lia. rewrite Z.pow_add_r by lia.
    change (2 ^ 20) with 1048576.
    replace (Z.abs t * 2 ^ (- e1) * 1048576 - Z.abs t * (2 ^ (- e1) * 1048576)) with 0 by ring.
    assert (0 < 2 ^ (- e1)) by (apply Z.pow_pos_nonneg; lia). cbn [Z.abs]. lia.
  - destruct (Hgt ltac:(lia)) as [Hn _].
    assert (HQS : 2 ^ e1 * 2 ^ (20 - e1) = 1048576).
    { rewrite <- Z.pow_add_r by lia. replace (e1 + (20 - e1)) with 20 by lia. reflexivity. }
    set (Q := 2 ^ e1) in *. set (S := 2 ^ (20 - e1)) in *.
    assert (Hm : (Zpos m1 * Q - Z.abs t) * S = Zpos m1 * 1048576 - Z.abs t * S).
    { rewrite <- HQS. ring. }
    rewrite <- Hm, Z.abs_mul, (Z.abs_eq S) by lia.
    pose proof (scale_le _ _ S HS Hn) as Hn'.
    replace (Q * S) with 1048576 in Hn' by lia.
    assert (1048576 <= 1048576 * S) by lia. clearbody Q S. lia.
Qed.

(** What [isoOfNanos] prints is within 1524288 nanoseconds of the time it
    is given, and within one millisecond when the time is a whole number
    of milliseconds. *)
Lemma isoOfNanos_within_aux (t : Z) :
  Z.abs t <= maxNanos ->
  exists v, V1.isoOfNanos t = Some (JS.toISOString v)
    /\ Z.abs (v * 1000000 - t) <= 1524288.
Proof.
  intros Ht. destruct (Z.eq_dec t 0) as [->|Hnz].
  { exists 0. split; [vm_compute; reflexivity | cbn; lia]. }
  destruct (Number_of_nanos t Hnz Ht) as (m1 & e1 & E & Bm & He & Hsc).
  assert (HS : 0 < 2 ^ (20 - e1)) by (apply Z.pow_pos_nonneg; lia).
  set (S := 2 ^ (20 - e1)) in *. set (A := Z.abs t) in *.
  set (Lo := Z.max 0 ((A - 524288) / 1000000)).
  set (Hi := (A + 524288) / 1000000 + 1).
  pose proof (Z.mul_div_le (A - 524288) 1000000 ltac:(lia)) as L1.
  pose proof (Z.mul_succ_div_gt (A - 524288) 1000000 ltac:(lia)) as L2.
  pose proof (Z.mul_div_le (A + 524288) 1000000 ltac:(lia)) as U1.
  pose proof (Z.mul_succ_div_gt (A + 524288) 1000000 ltac:(lia)) as U2.
  unfold maxNanos in Ht. fold A in Ht.
  assert (HA : 0 <= A) by (unfold A; lia).
  destruct (isoOfNanos_between t m1 e1 Lo Hi) as (v & Hiso & Hv).
  - unfold maxNanos. exact Ht.
  - exact E.
  - exact Bm.
  - exact He.
  - unfold Lo. lia.
  - unfold Hi. change (2 ^ 53) with 9007199254740992. lia.
  - fold S. split.
    + destruct (Z.max_spec 0 ((A - 524288) / 1000000)) as [[_ EL]|[_ EL]]; fold Lo in EL.
      * pose proof (scale_le (Lo * 1000000) (A - 524288) S HS ltac:(lia)). 
        clearbody S. lia.
      * rewrite EL. lia.
    + pose proof (scale_lt (A + 524288) (Hi * 1000000) S HS ltac:(unfold Hi; lia)).
      clearbody S. lia.
  - exists v. split; [exact Hiso|].
    unfold Lo, Hi in Hv. unfold A in *.
    destruct (Z.ltb_spec t 0); lia.
Qed.

(** [BigInt(tv * 1_000_000)] on a time value of the range of dates: the
    product is rounded once, to within 524288 nanoseconds, and the
    nanoseconds stored are a double. *)
Lemma mul_million_value (tv : Z) :
  tv <> 0 -> Z.abs tv <= JS.maxTime ->
  exists due m1 e1,
    JS.BigInt_of_number (JS.mul (JS.Number_of_bigint tv) million) = Some due
    /\ Z.abs (Z.abs due - Z.abs tv * 1000000) <= 524288
    /\ (due <? 0) = (tv <? 0)
    /\ JS.Number_of_bigint due = S754_finite (tv <? 0) m1 e1
    /\ 2 ^ 52 <= Zpos m1 < 2 ^ 53 /\ -52 <= e1 <= 20
    /\ Zpos m1 * 1048576 = Z.abs due * 2 ^ (20 - e1).
Proof.
  intros Hnz Htv. unfold JS.maxTime in Htv.
  assert (P52 : 2 ^ 52 = 4503599627370496) by (vm_compute; reflexivity).
  assert (P53 : 2 ^ 53 = 9007199254740992) by (vm_compute; reflexivity).
  destruct (mul_million_integral tv) as [due Hdue]; [rewrite P53; lia|].
  exists due. revert Hdue.
  destruct (Number_of_bigint_value tv Hnz) as (m & e & E & Bm & He & Hle & Hgt).
  { apply below_pow2_800. rewrite pow2_73. lia. }
  assert (He0 : e <= 0).
  { destruct (Z_le_gt_dec e 0) as [|Hpos]; [assumption|]. exfalso.
    destruct (Hgt ltac:(lia)) as [_ Hx].
    specialize (Hx (Z.abs tv) 0 ltac:(lia)). rewrite Z.pow_0_r, Z.mul_1_r in Hx.
    specialize (Hx eq_refl ltac:(lia)).
    assert (2 ^ 1 <= 2 ^ e) by (apply Z.pow_le_mono_r; lia). change (2 ^ 1) with 2 in *.
    set (Q := 2 ^ e) in *. clearbody Q.
    pose proof (scale_le (2 ^ 52) (Zpos m) Q ltac:(lia) ltac:(lia)). lia. }
  specialize (Hle He0). clear Hgt.
  set (T := Z.abs tv) in *. set (A := T * 1000000).
  rewrite E, million_eq. unfold JS.mul, JS.prec, JS.emax. cbn [SFmul].
  set (p := (m * 8589934592000000)%positive).
  assert (Hp : Zpos p = A * 2 ^ (33 - e)).
  { unfold p, A. rewrite Pos2Z.inj_mul, Hle.
    replace (33 - e) with (- e + 33) by lia. rewrite Z.pow_add_r by lia.
    change (2 ^ 33) with 8589934592. ring. }
  assert (HW : 0 < 2 ^ (33 - e)) by (apply Z.pow_pos_nonneg; lia).
  assert (HA : 1000000 <= A <= 8640000000000000000000) by (unfold A, T in *; lia).
  pose proof (digits2_pos_spec p) as Hspec.
  set (d := Zpos (digits2_pos p)) in *.
  assert (Hd53 : 53 <= d).
  { assert (2 ^ 52 < 2 ^ d).
    { apply Z.le_lt_trans with (Zpos p); [|lia]. unfold p. rewrite Pos2Z.inj_mul. 
      rewrite P52 in *. lia. }
    apply pow2_lt_inv in H; lia. }
  assert (Hd73 : d <= 73 + (33 - e)).
  { assert (2 ^ (d - 1) < 2 ^ (73 + (33 - e))).
    { apply Z.le_lt_trans with (Zpos p); [lia|]. rewrite Hp.
      rewrite Z.pow_add_r by lia. rewrite pow2_73.
      apply scale_lt; lia. }
    apply pow2_lt_inv in H; lia. }
  destruct (round_aux_value (xorb (tv <? 0) false) p (e + -33))
    as (m' & e' & E' & Bm' & He' & Hn & _).
  { fold d. exact Hd53. } { lia. } { fold d. lia. }
  fold d in He', Hn. rewrite E'. intros Hdue.
  replace (xorb (tv <? 0) false) with (tv <? 0) in * by (destruct (tv <? 0); reflexivity).
  set (w := 33 - e) in *.
  replace (e' - (e + -33)) with (e' + w) in Hn by (unfold w; lia).
  destruct (BigInt_scaled _ _ _ _ w Hdue ltac:(lia) ltac:(lia)) as [Hsc Hsg].
  rewrite Hsc, Hp in Hn.
  assert (Hn' : 2 * Z.abs (Z.abs due - A) <= 1048576).
  { assert (Hpn : 2 ^ (d - 53) <= 1048576 * 2 ^ w).
    { change 1048576 with (2 ^ 20). rewrite <- Z.pow_add_r by lia.
      apply Z.pow_le_mono_r; lia. }
    replace (Z.abs due * 2 ^ w - A * 2 ^ w) with ((Z.abs due - A) * 2 ^ w) in Hn by ring.
    rewrite Z.abs_mul, (Z.abs_eq (2 ^ w)) in Hn by lia.
    apply (unscale_le _ _ (2 ^ w) HW). lia. }
  assert (Hdue0 : 0 < Z.abs due) by lia.
  assert (Hsign : (due <? 0) = (tv <? 0)).
  { rewrite Hsg at 1. destruct (tv <? 0); [apply Z.ltb_lt | apply Z.ltb_ge]; lia. }
  destruct (Number_of_bigint_value due) as (m1 & e1 & E1 & Bm1 & He1 & Hle1 & Hgt1).
  { lia. } { apply below_pow2_800. rewrite pow2_73. lia. }
  exists m1, e1. rewrite Hsign in E1.
  split; [exact Hdue|]. split; [fold T; fold A; lia|]. split; [exact Hsign|].
  split; [exact E1|]. split; [exact Bm1|].
  destruct (Z_le_gt_dec e1 0) as [Hneg|Hpos].
  - split; [lia|]. rewrite (Hle1 Hneg).
    replace (20 - e1) with (- e1 + 20) by lia. rewrite Z.pow_add_r by lia.
    change (2 ^ 20) with 1048576. ring.
  - destruct (Hgt1 ltac:(lia)) as [_ Hx].
    assert (Hval : Zpos m1 * 2 ^ e1 = Z.abs due).
    { destruct (Z_le_gt_dec 0 e') as [Hge|Hlt].
      - apply (Hx (Zpos m') e' Hge); [|lia].
        destruct (BigInt_scaled _ _ _ _ 0 Hdue ltac:(lia) ltac:(lia)) as [Hs0 _].
        rewrite Z.add_0_r, Z.pow_0_r, Z.mul_1_r in Hs0. auto.
      - apply (Hx (Z.abs due) 0 ltac:(lia)); [rewrite Z.pow_0_r; lia|].
        destruct (BigInt_scaled _ _ _ _ (- e') Hdue ltac:(lia) ltac:(lia)) as [Hs0 _].
        replace (e' + - e') with 0 in Hs0 by lia. rewrite Z.pow_0_r, Z.mul_1_r in Hs0.
        assert (0 < 2 ^ (- e')) by (apply Z.pow_pos_nonneg; lia).
        pose proof (Z.mul_le_mono_nonneg_l 1 (2 ^ (- e')) (Z.abs due) ltac:(lia) ltac:(lia)).
        lia. }
    assert (He20 : e1 <= 20).
    { destruct (Z_le_gt_dec e1 20) as [|Hbig]; [assumption|]. exfalso.
      assert (HQ : 2 ^ 21 <= 2 ^ e1) by (apply Z.pow_le_mono_r; lia).
      change (2 ^ 21) with 2097152 in HQ. rewrite P52 in Bm1.
      set (Q := 2 ^ e1) in *. clearbody Q.
      pose proof (scale_le 4503599627370496 (Zpos m1) Q ltac:(lia) ltac:(lia)). lia. }
    split; [lia|]. rewrite <- Hval.
    replace 1048576 with (2 ^ e1 * 2 ^ (20 - e1)); [ring|].
    rewrite <- Z.pow_add_r by lia. replace (e1 + (20 - e1)) with 20 by lia. reflexivity.
Qed.

(** X23. The round trip of a due date through the v1.0.0 handler: for
    every date the handler can parse, the nanoseconds stored are within
    524288 of the parsed time in nanoseconds, the serializer prints them
    without throwing, and the time printed is within one millisecond of
    the parsed time. *)
Theorem V1_dueDate_round_trip (H : Host) (body : ProfileBody) (tv : Z) :
  new_Date H (pb_dueDate body) = Some tv ->
  exists due v,
    V1.dueDateNanos H body = Some due
    /\ Z.abs (due - tv * 1000000) <= 524288
    /\ V1.isoOfNanos due = Some (JS.toISOString v)
    /\ Z.abs (v - tv) <= 1.
Proof.
  intros Hd.
  assert (Htv : Z.abs tv <= JS.maxTime).
  { unfold new_Date in Hd. destruct (pb_dueDate body) as [str|]; [|discriminate].
    destruct (Date_parse H str) as [t|]; [|discriminate].
    destruct (Z.abs t <=? JS.maxTime) eqn:E; [|discriminate].
    injection Hd as <-. apply Z.leb_le in E. exact E. }
  pose proof (dueDateNanos_bound H body tv) as Hbound. specialize (fun due => Hbound due Hd).
  unfold V1.dueDateNanos in *. rewrite Hd in *. cbn [getTime] in *.
  destruct (Z.eq_dec tv 0) as [->|Hnz].
  { exists 0, 0. split; [vm_compute; reflexivity|]. split; [cbn; lia|].
    split; [vm_compute; reflexivity | cbn; lia]. }
  destruct (mul_million_value tv Hnz Htv)
    as (due & m1 & e1 & Hdue & Herr & Hsign & E1 & Bm1 & He1 & Hval).
  specialize (Hbound due Hdue).
  unfold JS.maxTime in Htv.
  assert (HS : 0 < 2 ^ (20 - e1)) by (apply Z.pow_pos_nonneg; lia).
  rewrite <- Hsign in E1.
  destruct (isoOfNanos_between due m1 e1 (Z.abs tv - 1) (Z.abs tv + 1) Hbound E1 Bm1 He1)
    as (v & Hiso & Hv).
  - lia.
  - change (2 ^ 53) with 9007199254740992. lia.
  - rewrite Hval. split.
    + apply scale_le; lia.
    + apply scale_lt; lia.
  - exists due, v. split; [exact Hdue|].
    rewrite Hsign in Hv.
    destruct (Z.ltb_spec due 0), (Z.ltb_spec tv 0); try discriminate Hsign;
      (split; [lia|]); (split; [exact Hiso | lia]).
Qed.

Lemma V1_dueDate_round_trip_witness :
  new_Date host0 (pb_dueDate (janeDoeWith None (Some "2024-12-25T00:00:00.002Z")))
  = Some 1735084800002
  /\ exists due v,
       V1.dueDateNanos host0 (janeDoeWith None (Some "2024-12-25T00:00:00.002Z")) = Some due
       /\ Z.abs (due - 1735084800002 * 1000000) <= 524288
       /\ V1.isoOfNanos due = Some (JS.toISOString v)
       /\ Z.abs (v - 1735084800002) <= 1.
Proof.
  split; [reflexivity|].
  apply (V1_dueDate_round_trip host0 (janeDoeWith None (Some "2024-12-25T00:00:00.002Z"))
           1735084800002).
  reflexivity.
Defined.

(** X24. The serializers' date conversion on any stored time within the
    range of dates: it prints a time within 1524288 nanoseconds of the
    stored one, and within one millisecond of it when the stored time is a
    whole number of milliseconds, as the times the v1.1.0 parser stores
    are. *)
Theorem isoOfNanos_within (t : Z) :
  Z.abs t <= maxNanos ->
  exists v,
    V1.isoOfNanos t = Some (JS.toISOString v)
    /\ Z.abs (v * 1000000 - t) <= 1524288
    /\ (forall tv, t = tv * 1000000 -> Z.abs (v - tv) <= 1).
Proof.
  intros Ht. destruct (isoOfNanos_within_aux t Ht) as (v & Hiso & Hv).
  exists v. split; [exact Hiso|]. split; [exact Hv|].
  intros tv ->. lia.
Qed.

Lemma isoOfNanos_within_witness :
  Z.abs 1735084800002000000 <= maxNanos
  /\ exists v,
       V1.isoOfNanos 1735084800002000000 = Some (JS.toISOString v)
       /\ Z.abs (v * 1000000 - 1735084800002000000) <= 1524288
       /\ (forall tv, 1735084800002000000 = tv * 1000000 -> Z.abs (v - tv) <= 1).
Proof.
  assert (Ht : Z.abs 1735084800002000000 <= maxNanos) by (vm_compute; discriminate).
  split; [exact Ht|]. exact (isoOfNanos_within 1735084800002000000 Ht).
Defined.
